(** * GMHTTP request engine: a shallow embedding of napi_gmcurl.cpp

    The development follows the request lifecycle of the native module:
    [Request] parses the options object and registers the request id in the
    process-wide cancellation map, [ExecuteRequest] configures the transport
    session and runs the transfer, [progress_callback] is the transfer hook
    (progress throttling, then the cancellation poll), [CompleteCB] settles
    the promise and clears the id, [cancelRequest] is the second exported
    entry point.

    Embedded state: the fields of [HttpRequestParams] that the hook, the
    download/upload wiring, the result capture and the response assembly read
    or write.  TLS wiring, debug tracing, timeouts, request headers and the
    request body do not influence the lifecycle; they are embedded on their
    own, as [RequestSettings] and the options [ExecuteRequest] derives from
    them.  The stream hooks ([read_callback], [WriteDownloadCallback],
    [WriteCallback], [HeaderCallback]) are embedded over the bytes they move.
    The URL and the timing record are left out.  Integers of the source
    ([int64_t] byte counts, [int32_t] ids, the [int] response code) are [Z];
    [steady_clock] time points are [Z] nanoseconds. *)

From Stdlib Require Import ZArith Lia Ascii.
From stdpp Require Import gmap strings list fin_maps pretty sorting.

#[local] Open Scope string_scope.
#[local] Open Scope list_scope.
#[local] Open Scope Z_scope.

(** ** Data model *)

(** [ProgressData]: the sample handed to the thread-safe function. *)
Record ProgressData := mkProgressData {
  currentSize : Z;
  totalSize : Z
}.

#[global] Instance ProgressData_eq_dec : EqDecision ProgressData.
Proof. solve_decision. Defined.

(** [FormData]: one multipart field. *)
Record FormData := mkFormData {
  name : string;
  remoteFileName : string;
  filePath : string;
  contentType : string;
  dataStr : string;
  dataBufferSize : Z;
  isDataArrayBuffer : bool
}.

(** Open mode of the download stream: [std::ios::out | std::ios::binary]
    truncates, the same with [std::ios::app] appends. *)
Inductive openmode :=
  | ios_out_binary
  | ios_out_binary_app.

#[global] Instance openmode_eq_dec : EqDecision openmode.
Proof. solve_decision. Defined.

(** [HttpRequestParams].  [downloadFile] / [uploadFile] are the stream
    pointers: [None] / [false] is [nullptr]. *)
Record HttpRequestParams := mkParams {
  method : string;
  downloadFilePath : string;
  uploadFilePath : string;
  downloadFile : option openmode;
  uploadFile : bool;
  resumeFromOffset : Z;
  response : string;
  responseCode : Z;
  responseHeaders : string;
  errorMsg : string;
  requestId : Z;
  formData : list FormData;
  lastProgress : Z;
  lastTime : Z
}.

(** [RequestCallbackData]: the parameters plus the thread-safe function
    handle ([false] is the null handle, no [onProgress] was given). *)
Record RequestCallbackData := mkCallbackData {
  params : HttpRequestParams;
  tsfn : bool
}.

(** Field assignments [callback->params.f = v]. *)
Definition set_errorMsg (v : string) (p : HttpRequestParams) : HttpRequestParams :=
  {| method := method p; downloadFilePath := downloadFilePath p;
     uploadFilePath := uploadFilePath p; downloadFile := downloadFile p;
     uploadFile := uploadFile p; resumeFromOffset := resumeFromOffset p;
     response := response p; responseCode := responseCode p;
     responseHeaders := responseHeaders p; errorMsg := v;
     requestId := requestId p; formData := formData p;
     lastProgress := lastProgress p; lastTime := lastTime p |}.

Definition set_responseCode (v : Z) (p : HttpRequestParams) : HttpRequestParams :=
  {| method := method p; downloadFilePath := downloadFilePath p;
     uploadFilePath := uploadFilePath p; downloadFile := downloadFile p;
     uploadFile := uploadFile p; resumeFromOffset := resumeFromOffset p;
     response := response p; responseCode := v;
     responseHeaders := responseHeaders p; errorMsg := errorMsg p;
     requestId := requestId p; formData := formData p;
     lastProgress := lastProgress p; lastTime := lastTime p |}.

Definition set_response (v : string) (p : HttpRequestParams) : HttpRequestParams :=
  {| method := method p; downloadFilePath := downloadFilePath p;
     uploadFilePath := uploadFilePath p; downloadFile := downloadFile p;
     uploadFile := uploadFile p; resumeFromOffset := resumeFromOffset p;
     response := v; responseCode := responseCode p;
     responseHeaders := responseHeaders p; errorMsg := errorMsg p;
     requestId := requestId p; formData := formData p;
     lastProgress := lastProgress p; lastTime := lastTime p |}.

Definition set_responseHeaders (v : string) (p : HttpRequestParams) : HttpRequestParams :=
  {| method := method p; downloadFilePath := downloadFilePath p;
     uploadFilePath := uploadFilePath p; downloadFile := downloadFile p;
     uploadFile := uploadFile p; resumeFromOffset := resumeFromOffset p;
     response := response p; responseCode := responseCode p;
     responseHeaders := v; errorMsg := errorMsg p;
     requestId := requestId p; formData := formData p;
     lastProgress := lastProgress p; lastTime := lastTime p |}.

Definition set_downloadFile (v : option openmode) (p : HttpRequestParams) : HttpRequestParams :=
  {| method := method p; downloadFilePath := downloadFilePath p;
     uploadFilePath := uploadFilePath p; downloadFile := v;
     uploadFile := uploadFile p; resumeFromOffset := resumeFromOffset p;
     response := response p; responseCode := responseCode p;
     responseHeaders := responseHeaders p; errorMsg := errorMsg p;
     requestId := requestId p; formData := formData p;
     lastProgress := lastProgress p; lastTime := lastTime p |}.

Definition set_uploadFile (v : bool) (p : HttpRequestParams) : HttpRequestParams :=
  {| method := method p; downloadFilePath := downloadFilePath p;
     uploadFilePath := uploadFilePath p; downloadFile := downloadFile p;
     uploadFile := v; resumeFromOffset := resumeFromOffset p;
     response := response p; responseCode := responseCode p;
     responseHeaders := responseHeaders p; errorMsg := errorMsg p;
     requestId := requestId p; formData := formData p;
     lastProgress := lastProgress p; lastTime := lastTime p |}.

(** The pair of assignments that ends each reporting block:
    [lastTime = now; lastProgress = n]. *)
Definition set_last (now n : Z) (p : HttpRequestParams) : HttpRequestParams :=
  {| method := method p; downloadFilePath := downloadFilePath p;
     uploadFilePath := uploadFilePath p; downloadFile := downloadFile p;
     uploadFile := uploadFile p; resumeFromOffset := resumeFromOffset p;
     response := response p; responseCode := responseCode p;
     responseHeaders := responseHeaders p; errorMsg := errorMsg p;
     requestId := requestId p; formData := formData p;
     lastProgress := n; lastTime := now |}.

Definition on_params (f : HttpRequestParams → HttpRequestParams)
    (callback : RequestCallbackData) : RequestCallbackData :=
  {| params := f (params callback); tsfn := tsfn callback |}.

(** ** The cancellation map

    [static std::map<std::int32_t, bool> mCancelRequestMap], guarded by
    [mCancel_mtx]: every access below is one critical section, modelled as
    one atomic function on the map. *)

Abbreviation CancelMap := (gmap Z bool).

(** Values crossing the N-API boundary, as far as the two entry points
    inspect them. *)
Inductive napi_value :=
  | js_undefined
  | js_number (n : Z)
  | js_bool (b : bool)
  | js_string (s : string).

(** [napi_get_value_int32]: succeeds on numbers only; the number is reduced
    to the signed 32-bit range. *)
Definition to_int32 (n : Z) : Z :=
  (n + 2147483648) mod 4294967296 - 2147483648.

Definition napi_get_value_int32 (v : napi_value) : option Z :=
  match v with
  | js_number n => Some (to_int32 n)
  | _ => None
  end.

(** [cancelRequest]: with exactly one argument of type number, set the flag
    of an existing entry; anything else leaves the map alone. *)
Definition cancelRequest (args : list napi_value) (m : CancelMap) : CancelMap :=
  match args with
  | [js_number n] =>
      let requestId := to_int32 n in
      if bool_decide (is_Some (m !! requestId))
      then <[requestId := true]> m
      else m
  | _ => m
  end.

(** ** The progress hook *)

(** One invocation of the hook by the transport: the clock reading taken on
    entry and the four counters. *)
Record Tick := mkTick {
  now : Z;
  dltotal : Z;
  dlnow : Z;
  ultotal : Z;
  ulnow : Z
}.

(** [duration_cast<seconds>(now - lastTime).count()]: truncation toward
    zero of a nanosecond difference. *)
Definition elapsed_seconds (now last : Z) : Z := (now - last) ÷ 1000000000.

(** Upload reporting block of [progress_callback]. *)
Definition report_upload (t : Tick) (callback : RequestCallbackData)
    : RequestCallbackData * list ProgressData :=
  let p := params callback in
  if (bool_decide (uploadFilePath p ≠ "") || bool_decide (formData p ≠ []))
     && tsfn callback
     && bool_decide (0 < ultotal t)
     && bool_decide (lastProgress p ≠ ulnow t)
     && (bool_decide (1 ≤ elapsed_seconds (now t) (lastTime p))
         || bool_decide (ulnow t = ultotal t))
  then (on_params (set_last (now t) (ulnow t)) callback,
        [ {| currentSize := ulnow t; totalSize := ultotal t |} ])
  else (callback, []).

(** Download reporting block of [progress_callback]. *)
Definition report_download (t : Tick) (callback : RequestCallbackData)
    : RequestCallbackData * list ProgressData :=
  let p := params callback in
  if bool_decide (downloadFilePath p ≠ "")
     && tsfn callback
     && bool_decide (0 < dltotal t)
     && bool_decide (lastProgress p ≠ dlnow t)
     && (bool_decide (1 ≤ elapsed_seconds (now t) (lastTime p))
         || bool_decide (dlnow t = dltotal t))
  then (on_params (set_last (now t) (dlnow t)) callback,
        [ {| currentSize := resumeFromOffset p + dlnow t;
             totalSize := resumeFromOffset p + dltotal t |} ])
  else (callback, []).

Definition canceled_message : string := "Request canceled by user".

(** Cancellation block of [progress_callback]: one critical section. *)
Definition check_canceled (callback : RequestCallbackData) (m : CancelMap)
    : Z * RequestCallbackData * CancelMap :=
  if bool_decide (requestId (params callback) ≠ 0) then
    match m !! requestId (params callback) with
    | Some true =>
        (1, on_params (set_errorMsg canceled_message) callback,
         delete (requestId (params callback)) m)
    | _ => (0, callback, m)
    end
  else (0, callback, m).

(** Result of one hook invocation: the return value (non-zero interrupts
    the transfer), the updated request state and map, and the samples passed
    to [napi_call_threadsafe_function], oldest first. *)
Record HookResult := mkHookResult {
  hook_rc : Z;
  hook_callback : RequestCallbackData;
  hook_map : CancelMap;
  hook_forwarded : list ProgressData
}.

Definition progress_callback (callback : RequestCallbackData) (m : CancelMap)
    (t : Tick) : HookResult :=
  let '(cb1, up) := report_upload t callback in
  let '(cb2, down) := report_download t cb1 in
  let '(rc, cb3, m') := check_canceled cb2 m in
  {| hook_rc := rc; hook_callback := cb3; hook_map := m';
     hook_forwarded := up ++ down |}.

(** ** Header parsing ([ParseHeaders]) *)

(** [std::isspace] in the "C" locale: space and the five controls
    [\t \n \v \f \r]. *)
Definition isspace (c : Ascii.ascii) : bool :=
  let n := Ascii.nat_of_ascii c in
  bool_decide (n = 32 ∨ 9 ≤ n ≤ 13)%nat.

(** [s.erase(s.begin(), find_if(s.begin(), s.end(), not-space))]. *)
Fixpoint erase_leading_space (s : string) : string :=
  match s with
  | String c s' => if isspace c then erase_leading_space s' else s
  | EmptyString => EmptyString
  end.

(** Both [erase] calls applied to a key or a value. *)
Definition trim (s : string) : string :=
  String.rev (erase_leading_space (String.rev (erase_leading_space s))).

(** [std::string::find]: index of the first occurrence, [None] is [npos]. *)
Fixpoint find_from (needle s : string) (i : nat) : option nat :=
  if String.prefix needle s then Some i
  else match s with
       | EmptyString => None
       | String _ s' => find_from needle s' (S i)
       end.

Definition find (s needle : string) : option nat := find_from needle s 0.

(** [s.find(needle) != std::string::npos]. *)
Definition contains (s needle : string) : bool :=
  bool_decide (is_Some (find s needle)).

(** The loop [while (std::getline(stream, line, '\n'))]: every newline ends
    a line; characters after the last newline form a final line, and nothing
    is produced for an empty remainder. *)
Fixpoint getlines_go (s : string) (line : string) : list string :=
  match s with
  | EmptyString => if bool_decide (line = "") then [] else [String.rev line]
  | String c s' =>
      if bool_decide (c = "010"%char)
      then String.rev line :: getlines_go s' ""
      else getlines_go s' (String c line)
  end.

Definition getlines (s : string) : list string := getlines_go s "".

(** Body of the loop: split at the first colon, trim both sides,
    [headers[key] = value]. *)
Definition parse_header_line (headers : gmap string string) (line : string)
    : gmap string string :=
  match find line ":" with
  | Some colonPos =>
      let key := String.substring 0 colonPos line in
      let value := String.substring (S colonPos) (String.length line - S colonPos) line in
      <[trim key := trim value]> headers
  | None => headers
  end.

Definition ParseHeaders (headerStr : string) : gmap string string :=
  foldl parse_header_line ∅ (getlines headerStr).

(** ** Request parsing and registration ([Request]) *)

(** The files the engine can see: readable regular files with their sizes,
    and the paths an output stream can be opened on. *)
Record FileSystem := mkFileSystem {
  readable : gmap string Z;
  writable : gset string
}.

(** [getFileSize]: [tellg] of a stream opened at the end; [-1] when the
    stream could not be opened. *)
Definition getFileSize (fs : FileSystem) (path : string) : Z :=
  default (-1) (readable fs !! path).

(** The properties of the options object that the embedded state depends
    on.  [None] is an absent property; [opt_onProgress] tells whether the
    [onProgress] property exists. *)
Record HttpRequestOptions := mkOptions {
  opt_method : option string;
  opt_requestID : napi_value;
  opt_multiFormDataList : option (list FormData);
  opt_downloadFilePath : option string;
  opt_uploadFilePath : option string;
  opt_onProgress : bool
}.

(** [new RequestCallbackData()]: value-initialised. *)
Definition new_RequestCallbackData : RequestCallbackData :=
  {| params :=
       {| method := ""; downloadFilePath := ""; uploadFilePath := "";
          downloadFile := None; uploadFile := false; resumeFromOffset := 0;
          response := ""; responseCode := 0; responseHeaders := "";
          errorMsg := ""; requestId := 0; formData := [];
          lastProgress := 0; lastTime := 0 |};
     tsfn := false |}.

(** [Request] on an options object: the parsed request state and the
    cancellation map after registration. *)
Definition Request (o : HttpRequestOptions) (fs : FileSystem) (m : CancelMap)
    : RequestCallbackData * CancelMap :=
  let method_ := default "GET" (opt_method o) in
  let formData_ :=
    match opt_multiFormDataList o with
    | Some fields => if bool_decide (method_ = "POST") then fields else []
    | None => []
    end in
  let '(requestId_, m') :=
    match napi_get_value_int32 (opt_requestID o) with
    | Some requestId => (requestId, <[requestId := false]> m)
    | None => (0, m)
    end in
  let downloadFilePath_ := default "" (opt_downloadFilePath o) in
  let resumeFromOffset_ :=
    if bool_decide (downloadFilePath_ ≠ "") then
      match readable fs !! downloadFilePath_ with
      | Some _ => getFileSize fs downloadFilePath_
      | None => 0
      end
    else 0 in
  ({| params :=
        {| method := method_; downloadFilePath := downloadFilePath_;
           uploadFilePath := default "" (opt_uploadFilePath o);
           downloadFile := None; uploadFile := false;
           resumeFromOffset := resumeFromOffset_;
           response := ""; responseCode := 0; responseHeaders := "";
           errorMsg := ""; requestId := requestId_; formData := formData_;
           lastProgress := 0; lastTime := 0 |};
      tsfn := opt_onProgress o |}, m').

(** ** The transport

    The transport library and its header are not among the sources; the
    engine's view of it is modelled below. *)

(** Modelled from the spec: the result codes of curl.h that the engine
    compares against and that the cancel scenario asserts: success, HTTP
    returned error, aborted by callback. *)
Definition CURLE_OK : Z := 0.
Definition CURLE_HTTP_RETURNED_ERROR : Z := 22.
Definition CURLE_ABORTED_BY_CALLBACK : Z := 42.

(** Modelled from the spec: connection-level failures of the transport
    itself, with their codes from curl.h. *)
Inductive NetFailure :=
  | CURLE_COULDNT_RESOLVE_HOST
  | CURLE_COULDNT_CONNECT
  | CURLE_OPERATION_TIMEDOUT
  | CURLE_SSL_CONNECT_ERROR
  | CURLE_RECV_ERROR.

Definition net_code (e : NetFailure) : Z :=
  match e with
  | CURLE_COULDNT_RESOLVE_HOST => 6
  | CURLE_COULDNT_CONNECT => 7
  | CURLE_OPERATION_TIMEDOUT => 28
  | CURLE_SSL_CONNECT_ERROR => 35
  | CURLE_RECV_ERROR => 56
  end.

(** Modelled from the spec: [curl_easy_strerror], the transport's own
    description of a code, never empty. *)
Definition curl_easy_strerror (res : Z) : string :=
  if bool_decide (res = 0) then "No error"
  else if bool_decide (res = 6) then "Couldn't resolve host name"
  else if bool_decide (res = 7) then "Couldn't connect to server"
  else if bool_decide (res = 22) then "HTTP response code said error"
  else if bool_decide (res = 28) then "Timeout was reached"
  else if bool_decide (res = 35) then "SSL connect error"
  else if bool_decide (res = 42) then "Operation was aborted by an application callback"
  else if bool_decide (res = 56) then "Failure when receiving data from the peer"
  else "Unknown error".

Inductive WriteTarget :=
  | WriteDownloadCallback
  | WriteCallback.

(** The [curl_easy_setopt] calls of [ExecuteRequest] that concern progress,
    method, upload and download. *)
Inductive CurlOpt :=
  | CURLOPT_NOPROGRESS (v : Z)
  | CURLOPT_XFERINFOFUNCTION
  | CURLOPT_FOLLOWLOCATION
  | CURLOPT_POST
  | CURLOPT_CUSTOMREQUEST (verb : string)
  | CURLOPT_HTTPGET
  | CURLOPT_UPLOAD
  | CURLOPT_INFILESIZE_LARGE (n : Z)
  | CURLOPT_RANGE (range : string)
  | CURLOPT_WRITEFUNCTION (target : WriteTarget)
  | CURLOPT_FAILONERROR.

#[global] Instance WriteTarget_eq_dec : EqDecision WriteTarget.
Proof. solve_decision. Defined.

#[global] Instance CurlOpt_eq_dec : EqDecision CurlOpt.
Proof. solve_decision. Defined.

(** What happens while [curl_easy_perform] blocks: hook invocations by the
    transport, and [cancelRequest] calls made meanwhile on the JS thread. *)
Inductive TransferEvent :=
  | ev_tick (t : Tick)
  | ev_cancelRequest (args : list napi_value).

(** How the exchange ends if nothing interrupts it. *)
Inductive Wire :=
  | wire_failure (e : NetFailure)
  | wire_exchange (status : Z) (headerBlock body : string).

Record Script := mkScript {
  events : list TransferEvent;
  wire : Wire
}.

(** Modelled from the spec: the blocking transfer.  Events are consumed in
    order; a tick reaches the hook only when progress is wired; the first
    non-zero hook result stops the transfer (the hook's own comment: a
    non-zero return interrupts it). *)
Record TransferState := mkTransferState {
  ts_aborted : bool;
  ts_callback : RequestCallbackData;
  ts_map : CancelMap;
  ts_forwarded : list ProgressData
}.

Fixpoint transfer (wired : bool) (evs : list TransferEvent)
    (callback : RequestCallbackData) (m : CancelMap)
    (forwarded : list ProgressData) : TransferState :=
  match evs with
  | [] => mkTransferState false callback m forwarded
  | ev_cancelRequest args :: evs' =>
      transfer wired evs' callback (cancelRequest args m) forwarded
  | ev_tick t :: evs' =>
      if wired then
        let r := progress_callback callback m t in
        if bool_decide (hook_rc r ≠ 0)
        then mkTransferState true (hook_callback r) (hook_map r)
               (forwarded ++ hook_forwarded r)
        else transfer wired evs' (hook_callback r) (hook_map r)
               (forwarded ++ hook_forwarded r)
      else transfer wired evs' callback m forwarded
  end.

(** Outcome of [curl_easy_perform]: the [CURLcode], what
    [CURLINFO_RESPONSE_CODE] reports afterwards, what the header and body
    write hooks accumulated in the two local strings, and the state the
    transfer left. *)
Record PerformResult := mkPerformResult {
  res : Z;
  response_code : Z;
  got_responseHeaders : string;
  got_responseBody : string;
  after : TransferState
}.

(** Progress is wired when [CURLOPT_NOPROGRESS] is 0 and the hook is
    installed. *)
Definition progress_wired (opts : list CurlOpt) : bool :=
  bool_decide (CURLOPT_NOPROGRESS 0 ∈ opts ∧ CURLOPT_XFERINFOFUNCTION ∈ opts).

(** Modelled from the spec: [curl_easy_perform].  An interrupted transfer
    returns the aborted-by-callback code; a connection failure returns its
    code; a finished exchange is a failure only under the fail-on-error
    option with a status of 400 or more (returned-error code, the status
    stays available), and a success otherwise, whatever the status.  The body
    reaches the in-memory string only through [WriteCallback]. *)
Definition curl_easy_perform (opts : list CurlOpt) (s : Script)
    (callback : RequestCallbackData) (m : CancelMap) : PerformResult :=
  let st := transfer (progress_wired opts) (events s) callback m [] in
  if ts_aborted st then mkPerformResult CURLE_ABORTED_BY_CALLBACK 0 "" "" st
  else
    match wire s with
    | wire_failure e => mkPerformResult (net_code e) 0 "" "" st
    | wire_exchange status headerBlock body =>
        let body' :=
          if bool_decide (CURLOPT_WRITEFUNCTION WriteCallback ∈ opts)
          then body else "" in
        if bool_decide (CURLOPT_FAILONERROR ∈ opts) && bool_decide (400 ≤ status)
        then mkPerformResult CURLE_HTTP_RETURNED_ERROR status headerBlock "" st
        else mkPerformResult CURLE_OK status headerBlock body' st
    end.

(** ** Executing a request ([ExecuteRequest]) *)

(** The environment of one execution. *)
Record World := mkWorld {
  curl_easy_init_ok : bool;
  files : FileSystem;
  script : Script
}.

(** Progress wiring block. *)
Definition progress_opts (p : HttpRequestParams) : list CurlOpt :=
  if bool_decide (requestId p ≠ 0) || bool_decide (downloadFilePath p ≠ "")
     || bool_decide (uploadFilePath p ≠ "") || bool_decide (formData p ≠ [])
  then [CURLOPT_NOPROGRESS 0; CURLOPT_XFERINFOFUNCTION]
       ++ (if bool_decide (downloadFilePath p ≠ "") then [CURLOPT_FOLLOWLOCATION] else [])
       ++ (if bool_decide (uploadFilePath p ≠ "") then [CURLOPT_FOLLOWLOCATION] else [])
  else [].

(** Method block: the [if / else if / else if / else] chain. *)
Definition method_opts (p : HttpRequestParams) : list CurlOpt :=
  if bool_decide (method p = "POST") then [CURLOPT_POST]
  else if bool_decide (method p = "PUT") then [CURLOPT_CUSTOMREQUEST "PUT"]
  else if bool_decide (method p = "DELETE") then [CURLOPT_CUSTOMREQUEST "DELETE"]
  else [CURLOPT_HTTPGET].

(** Early [return] of [ExecuteRequest] with an error recorded. *)
Definition fail_with (msg : string) (code : Z) (callback : RequestCallbackData)
    : RequestCallbackData :=
  on_params (set_responseCode code) (on_params (set_errorMsg msg) callback).

(** Upload block: open the stream, declare the size. *)
Definition upload_setup (fs : FileSystem) (callback : RequestCallbackData)
    : RequestCallbackData + RequestCallbackData * list CurlOpt :=
  let p := params callback in
  if bool_decide (uploadFilePath p ≠ "") then
    let callback' := on_params (set_uploadFile true) callback in
    match readable fs !! uploadFilePath p with
    | None => inl (fail_with "Failed to open file for upload" 101 callback')
    | Some _ =>
        let fileSize := getFileSize fs (uploadFilePath p) in
        inr (callback',
             [CURLOPT_UPLOAD]
             ++ (if bool_decide (0 < fileSize) then [CURLOPT_INFILESIZE_LARGE fileSize] else []))
    end
  else inr (callback, []).

(** Download block: open the target (appending when resuming), ask for the
    byte range, write to the file and fail on HTTP errors; without a target,
    write to the in-memory body. *)
Definition download_setup (fs : FileSystem) (callback : RequestCallbackData)
    : RequestCallbackData + RequestCallbackData * list CurlOpt :=
  let p := params callback in
  if bool_decide (downloadFilePath p ≠ "") then
    let mode :=
      if bool_decide (0 < resumeFromOffset p) then ios_out_binary_app
      else ios_out_binary in
    let callback' := on_params (set_downloadFile (Some mode)) callback in
    if bool_decide (downloadFilePath p ∈ writable fs) then
      inr (callback',
           (if bool_decide (0 < resumeFromOffset p)
            then [CURLOPT_RANGE (pretty (resumeFromOffset p) +:+ "-")] else [])
           ++ [CURLOPT_WRITEFUNCTION WriteDownloadCallback; CURLOPT_FAILONERROR])
    else inl (fail_with "Failed to open downloadFile" 101 callback')
  else inr (callback, [CURLOPT_WRITEFUNCTION WriteCallback]).

(** Everything before [curl_easy_perform]: either an early return with the
    error recorded, or the configured session. *)
Definition configure (w : World) (callback : RequestCallbackData)
    : RequestCallbackData + RequestCallbackData * list CurlOpt :=
  if curl_easy_init_ok w then
    let o1 := progress_opts (params callback) ++ method_opts (params callback) in
    match upload_setup (files w) callback with
    | inl failed => inl failed
    | inr (cb1, o2) =>
        match download_setup (files w) cb1 with
        | inl failed => inl failed
        | inr (cb2, o3) => inr (cb2, o1 ++ o2 ++ o3)
        end
    end
  else inl (fail_with "Curl initialization failed" 102 callback).

(** Result capture after [curl_easy_perform]. *)
Definition capture (r : PerformResult) (callback : RequestCallbackData)
    : RequestCallbackData :=
  if bool_decide (res r = CURLE_OK) then
    let cb1 := on_params (set_responseCode (response_code r)) callback in
    let cb2 := on_params (set_responseHeaders (got_responseHeaders r)) cb1 in
    if bool_decide (downloadFilePath (params callback) ≠ "")
    then on_params (set_response "download finished") cb2
    else on_params (set_response (got_responseBody r)) cb2
  else
    let code :=
      if bool_decide (res r = CURLE_HTTP_RETURNED_ERROR) then response_code r
      else res r in
    let cb1 := on_params (set_responseCode code) callback in
    if bool_decide (errorMsg (params cb1) = "")
    then on_params (set_errorMsg (curl_easy_strerror (res r))) cb1
    else cb1.

(** Cleanup: both streams are closed and their pointers reset. *)
Definition cleanup (callback : RequestCallbackData) : RequestCallbackData :=
  on_params (set_uploadFile false) (on_params (set_downloadFile None) callback).

(** What one execution leaves behind: the request state, the map, the
    samples forwarded, the options of the session and the transport's result
    code (the last two absent after an early return). *)
Record Execution := mkExecution {
  exec_callback : RequestCallbackData;
  exec_map : CancelMap;
  exec_forwarded : list ProgressData;
  exec_session : option (list CurlOpt);
  exec_res : option Z
}.

Definition ExecuteRequest (w : World) (callback : RequestCallbackData)
    (m : CancelMap) : Execution :=
  match configure w callback with
  | inl failed => mkExecution failed m [] None None
  | inr (cb, opts) =>
      let r := curl_easy_perform opts (script w) cb m in
      let st := after r in
      mkExecution (cleanup (capture r (ts_callback st))) (ts_map st)
        (ts_forwarded st) (Some opts) (Some (res r))
  end.

(** ** Settling the promise ([CompleteCB]) *)

Inductive Body :=
  | body_arraybuffer (bytes : string)
  | body_string (text : string).

Inductive Settlement :=
  | resolved (responseCode : Z) (headers : gmap string string) (body : Body)
  | rejected (code : Z) (message : string).

Definition napi_ok : Z := 0.

(** [ResponseErrorCB]. *)
Definition ResponseErrorCB (p : HttpRequestParams) : Settlement :=
  rejected (responseCode p) (errorMsg p).

(** The success branch of [CompleteCB]: header map, then the body by
    content type. *)
Definition assemble (p : HttpRequestParams) : Settlement :=
  let headersMap := ParseHeaders (responseHeaders p) in
  let contentType := default "" (headersMap !! "Content-Type") in
  let body :=
    if (contains contentType "application/octet-stream" || contains contentType "image/")
       && bool_decide (downloadFilePath p = "")
    then body_arraybuffer (response p)
    else body_string (response p) in
  resolved (responseCode p) headersMap body.

(** [CompleteCB]: settle, then clear the id of a request that has one. *)
Definition CompleteCB (status : Z) (callback : RequestCallbackData)
    (m : CancelMap) : Settlement * CancelMap :=
  let p := params callback in
  let settlement :=
    if bool_decide (status ≠ napi_ok)
    then ResponseErrorCB (set_responseCode (status + 1000) p)
    else if bool_decide (errorMsg p ≠ "") then ResponseErrorCB p
    else assemble p in
  let m' :=
    if bool_decide (requestId p ≠ 0) then delete (requestId p) m else m in
  (settlement, m').

(** ** One request from call to settlement

    [Request] on the JS thread, [ExecuteRequest] on the worker, [CompleteCB]
    back on the JS thread with [napi_ok] (the work item is never cancelled
    through N-API). *)
Record Lifecycle := mkLifecycle {
  settlement : Settlement;
  final_map : CancelMap;
  forwarded : list ProgressData;
  session : option (list CurlOpt);
  curl_code : option Z;
  parsed : RequestCallbackData
}.

Definition run (o : HttpRequestOptions) (w : World) (m : CancelMap) : Lifecycle :=
  let '(callback, m1) := Request o (files w) m in
  let e := ExecuteRequest w callback m1 in
  let '(s, m2) := CompleteCB napi_ok (exec_callback e) (exec_map e) in
  mkLifecycle s m2 (exec_forwarded e) (exec_session e) (exec_res e) callback.

(** ** Auxiliary notions

    Predicates used to state the properties, the decoded body, the emission
    rule as the specification words it, and the concrete requests at which
    the statements are instantiated. *)

(** The immutable part of the request state: what [Request] fixed. *)
Definition same_request (a b : RequestCallbackData) : Prop :=
  tsfn a = tsfn b
  ∧ method (params a) = method (params b)
  ∧ downloadFilePath (params a) = downloadFilePath (params b)
  ∧ uploadFilePath (params a) = uploadFilePath (params b)
  ∧ resumeFromOffset (params a) = resumeFromOffset (params b)
  ∧ requestId (params a) = requestId (params b)
  ∧ formData (params a) = formData (params b).


(** The mutable part that is still untouched when the transfer starts. *)
Definition fresh (callback : RequestCallbackData) : Prop :=
  errorMsg (params callback) = ""
  ∧ lastProgress (params callback) = 0
  ∧ lastTime (params callback) = 0.

(** A tick from its clock reading and counters. *)
Definition sample_tick (now_ dltotal_ dlnow_ ultotal_ ulnow_ : Z) : Tick :=
  {| now := now_; dltotal := dltotal_; dlnow := dlnow_;
     ultotal := ultotal_; ulnow := ulnow_ |}.

(** Options of a request without files and without progress callback. *)
Definition plain_options (verb : string) (id : napi_value) : HttpRequestOptions :=
  {| opt_method := Some verb; opt_requestID := id;
     opt_multiFormDataList := None; opt_downloadFilePath := None;
     opt_uploadFilePath := None; opt_onProgress := false |}.

(** Options of a download to [path] with a progress callback. *)
Definition download_options (path : string) (id : napi_value) : HttpRequestOptions :=
  {| opt_method := Some "GET"; opt_requestID := id;
     opt_multiFormDataList := None; opt_downloadFilePath := Some path;
     opt_uploadFilePath := None; opt_onProgress := true |}.

(** A file system holding the listed files, all readable and writable. *)
Definition disk (sizes : list (string * Z)) : FileSystem :=
  {| readable := list_to_map sizes; writable := list_to_set (sizes.*1) |}.

(** An environment in which the session can be created. *)
Definition world_of (fs : FileSystem) (evs : list TransferEvent) (end_ : Wire) : World :=
  {| curl_easy_init_ok := true; files := fs;
     script := {| events := evs; wire := end_ |} |}.

(** A transfer during which request 1001 is cancelled between two ticks. *)
Definition cancel_demo_events : list TransferEvent :=
  [ev_tick (sample_tick 1000000000 0 0 0 0);
   ev_cancelRequest [js_number 1001];
   ev_tick (sample_tick 1300000000 0 0 0 0);
   ev_tick (sample_tick 1600000000 0 0 0 0)].

Definition cancel_demo_world : World :=
  world_of (disk []) cancel_demo_events (wire_exchange 200 "" "ok").

(** The body the success branch hands back. *)
Definition decoded_body (headerBlock : string) (downloadPath : string)
    (body : string) : Body :=
  let contentType := default "" (ParseHeaders headerBlock !! "Content-Type") in
  let text := if bool_decide (downloadPath ≠ "") then "download finished" else body in
  if (contains contentType "application/octet-stream" || contains contentType "image/")
     && bool_decide (downloadPath = "")
  then body_arraybuffer text else body_string text.

(** A download during which request 7 is cancelled. *)
Definition canceled_download_world : World :=
  world_of (disk [("/data/a.bin", 0)])
    [ev_tick (sample_tick 2000000000 1000 100 0 0);
     ev_cancelRequest [js_number 7];
     ev_tick (sample_tick 2100000000 1000 200 0 0)]
    (wire_exchange 200 "Content-Type: application/octet-stream" "").

(** A header block as the header hook accumulates it. *)
Definition png_headers : string :=
  "HTTP/1.1 200 OK
Content-Type: image/png
Content-Length: 4
".


(** The emission rule in the words of the specification: a positive
    total, a byte count different from the last one reported, and a full
    second since the last report or a completed transfer.  Time is in
    nanoseconds. *)
Definition stated_emit (lastReportedBytes lastReportedAt now_ currentBytes totalBytes : Z)
    : Prop :=
  0 < totalBytes
  ∧ currentBytes ≠ lastReportedBytes
  ∧ (1000000000 ≤ now_ - lastReportedAt ∨ currentBytes = totalBytes).

(** A cancellable request with a progress callback and no file. *)
Definition progress_only_options : HttpRequestOptions :=
  {| opt_method := Some "GET"; opt_requestID := js_number 7;
     opt_multiFormDataList := None; opt_downloadFilePath := None;
     opt_uploadFilePath := None; opt_onProgress := true |}.

(** A parsed download request with id 9. *)
Definition flagged_download : RequestCallbackData :=
  (Request (download_options "/data/a.bin" (js_number 9)) (disk []) ∅).1.

(** A request that uploads one file and stores the response in another. *)
Definition both_ways_options : HttpRequestOptions :=
  {| opt_method := Some "PUT"; opt_requestID := js_undefined;
     opt_multiFormDataList := None; opt_downloadFilePath := Some "/data/d.bin";
     opt_uploadFilePath := Some "/data/u.bin"; opt_onProgress := true |}.

Definition both_ways : RequestCallbackData :=
  (Request both_ways_options (disk [("/data/u.bin", 100)]) ∅).1.





(** ** Notions used by the lifecycle properties *)

(** An event that is not a cancel call for [id]. *)
Definition not_cancel_of (id : Z) (ev : TransferEvent) : Prop :=
  ∀ n, ev = ev_cancelRequest [js_number n] → to_int32 n ≠ id.

(** No two samples in a row carry the same byte count. *)
Definition no_repeat (l : list ProgressData) : Prop :=
  ∀ i a b, l !! i = Some a → l !! S i = Some b → currentSize a ≠ currentSize b.

(** The state of a one-direction transfer: the stored count is the count of
    the sample forwarded last, up to the shift of that direction. *)
Definition last_matches (shift : Z) (callback : RequestCallbackData)
    (f : list ProgressData) : Prop :=
  ∀ x, last f = Some x → currentSize x = shift + lastProgress (params callback).

(** ** Lines and header entries *)

(** The line feed as a one-character string. *)
Definition LF : string := String "010"%char "".

(** Every line followed by a line feed, in order. *)
Definition unlines (ls : list string) : string :=
  foldr (λ l rest, l +:+ LF +:+ rest) "" ls.

(** Occurrence of a character in a string. *)
Fixpoint mem_char (c : Ascii.ascii) (s : string) : bool :=
  match s with
  | EmptyString => false
  | String a s' => bool_decide (a = c) || mem_char c s'
  end.

(** The entry a header line stands for, if it has a colon: what
    [parse_header_line] stores under which key. *)
Definition header_of_line (line : string) : option (string * string) :=
  match find line ":" with
  | Some colonPos =>
      Some (trim (String.substring 0 colonPos line),
            trim (String.substring (S colonPos) (String.length line - S colonPos) line))
  | None => None
  end.






(** No white space at the front, at the back. *)
Definition no_leading_space (s : string) : Prop :=
  match s with
  | String c _ => isspace c = false
  | EmptyString => True
  end.

Definition no_trailing_space (s : string) : Prop :=
  no_leading_space (String.rev s).

(** A text is terminated when it is empty or ends in a line feed. *)
Definition terminated (s : string) : bool :=
  match String.rev s with
  | EmptyString => true
  | String c _ => bool_decide (c = "010"%char)
  end.

(** ** Stream hooks ([read_callback], [WriteDownloadCallback],
    [WriteCallback], [HeaderCallback]) *)

(** [size * nmemb] in [size_t]. *)
Definition size_t_mul (size nmemb : Z) : Z := (size * nmemb) mod 2 ^ 64.

(** An input file stream: the bytes of the file, the read position, and
    the two state bits the hook depends on ([is_open], [good]). *)
Record ifstream := mkIfstream {
  in_open : bool;
  in_good : bool;
  in_data : list Byte.byte;
  in_pos : nat
}.

(** A [size_t] count converted to [std::streamsize], the signed 64-bit type
    of the count that [istream::read] takes: from 2^63 on it is negative. *)
Definition to_streamsize (n : Z) : Z :=
  if bool_decide (n < 2 ^ 63) then n else n - 2 ^ 64.

(** [stream.read(ptr, n)] followed by [gcount()], for a signed count [n]: a
    stream that is not good extracts nothing; otherwise up to [n] bytes are
    extracted, none for a count that is not positive, and [good] is cleared
    whenever the number extracted differs from [n]: at the end of the file,
    and for every negative count. *)
Definition ifstream_read (n : Z) (f : ifstream) : list Byte.byte * ifstream :=
  if in_good f then
    let got := take (Z.to_nat n) (drop (in_pos f) (in_data f)) in
    (got,
     {| in_open := in_open f;
        in_good := bool_decide (Z.of_nat (length got) = n);
        in_data := in_data f;
        in_pos := (in_pos f + length got)%nat |})
  else ([], f).

(** [read_callback]: the count returned to the transport, the bytes put
    into its buffer, and the stream afterwards.  A null or closed stream
    returns 0.  The buffer size is computed in [size_t] and handed to the
    stream as a [std::streamsize]. *)
Definition read_callback (size nmemb : Z) (uploadFile : option ifstream)
    : Z * list Byte.byte * option ifstream :=
  match uploadFile with
  | Some f =>
      if in_open f then
        let bufferSize := size_t_mul size nmemb in
        let '(got, f') := ifstream_read (to_streamsize bufferSize) f in
        (Z.of_nat (length got), got, Some f')
      else (0, [], uploadFile)
  | None => (0, [], None)
  end.

(** The transport pulling with a series of buffers [(size, nmemb)]: the
    chunks it receives and the stream afterwards. *)
Fixpoint pull (buffers : list (Z * Z)) (uploadFile : option ifstream)
    : list (list Byte.byte) * option ifstream :=
  match buffers with
  | [] => ([], uploadFile)
  | (size, nmemb) :: rest =>
      let '(_, got, f') := read_callback size nmemb uploadFile in
      let '(chunks, f'') := pull rest f' in
      (got :: chunks, f'')
  end.

(** [new std::ifstream(path, std::ios::binary)] on a readable file. *)
Definition ifstream_open (data : list Byte.byte) : ifstream :=
  {| in_open := true; in_good := true; in_data := data; in_pos := 0 |}.

(** An output file stream: whether it is open, and the bytes of the file. *)
Record ofstream := mkOfstream {
  out_open : bool;
  out_data : list Byte.byte
}.


(** [WriteDownloadCallback] (named with a suffix, the plain name being the
    write target above): writes [size * nmemb] bytes of [contents] when
    the stream is there and open; returns [size * nmemb] in every case. *)
Definition WriteDownloadCallback_hook (contents : list Byte.byte) (size nmemb : Z)
    (userp : option ofstream) : Z * option ofstream :=
  let totalSize := size_t_mul size nmemb in
  (totalSize,
   match userp with
   | Some file =>
       if out_open file
       then Some {| out_open := true;
                    out_data := out_data file ++ take (Z.to_nat totalSize) contents |}
       else userp
   | None => None
   end).

(** [WriteCallback] and [HeaderCallback] (the same body): append
    [size * nmemb] bytes to the string, return [size * nmemb]. *)
Definition WriteCallback_hook (contents : string) (size nmemb : Z) (userp : string)
    : Z * string :=
  (size_t_mul size nmemb,
   userp +:+ String.substring 0 (Z.to_nat (size_t_mul size nmemb)) contents).

Definition HeaderCallback (contents : string) (size nmemb : Z) (userp : string)
    : Z * string :=
  WriteCallback_hook contents size nmemb userp.


Definition deliver_to_string (chunks : list string) (userp : string) : string :=
  foldl (λ acc chunk,
           (HeaderCallback chunk 1 (Z.of_nat (String.length chunk)) acc).2)
    userp chunks.

(** The bytes a series of buffers can take from a file that is long enough:
    the buffer sizes added up as far as the first buffer of 2^63 bytes or
    more, which reaches the stream as a negative count, extracts nothing and
    leaves the stream failed. *)
Fixpoint served (buffers : list (Z * Z)) : Z :=
  match buffers with
  | [] => 0
  | (size, nmemb) :: rest =>
      if bool_decide (size_t_mul size nmemb < 2 ^ 63)
      then size_t_mul size nmemb + served rest
      else 0
  end.

(** ** Request settings ([Request], [convertRequestData],
    [convertRequestHeader], [convertFormData]) *)

#[global] Instance napi_value_eq_dec : EqDecision napi_value.
Proof. solve_decision. Defined.

(** [napi_get_value_bool]: succeeds on booleans only. *)
Definition napi_get_value_bool (v : napi_value) : option bool :=
  match v with
  | js_bool b => Some b
  | _ => None
  end.

(** [napi_get_value_string_utf8] on a text that fits the buffer and holds
    no NUL: succeeds on strings only. *)
Definition napi_get_value_string_utf8 (v : napi_value) : option string :=
  match v with
  | js_string s => Some s
  | _ => None
  end.

(** The value of [extraData], or of a form item's [data], by the tests made
    on it: [napi_typeof] is string; it is an object that
    [napi_is_arraybuffer] accepts, of the given byte length; it is another
    object, with what [JSON.stringify] gives for it; or it is anything
    else. *)
Inductive JsData :=
  | data_string (s : string)
  | data_arraybuffer (byteLength : Z)
  | data_object (json : string)
  | data_other.

(** The fields of [HttpRequestParams] that hold the settings of a request.
    A timeout of [None] is the indeterminate value of the local [int32_t]
    that a failed conversion leaves unset. *)
Record RequestSettings := mkSettings {
  extraDataStr : string;
  extraDataBufferSize : Z;
  isExtraDataArrayBuffer : bool;
  headers : gmap string string;
  readTimeout : option Z;
  connectTimeout : option Z;
  caPath : string;
  clientCertPath : string;
  isDebug : bool;
  isTLCP : bool;
  verifyServer : bool
}.

(** [convertRequestData]: the three body fields after the call, starting
    from their initial values. *)
Definition convertRequestData (extraDataProp : JsData) : string * Z * bool :=
  match extraDataProp with
  | data_string s => (s, 0, false)
  | data_arraybuffer bufferLen => ("", bufferLen, true)
  | data_object json => (json, 0, false)
  | data_other => ("", 0, false)
  end.

(** [convertRequestHeader] on the entries of the headers object in the
    order of its property names: each is stored with [headers[key] = value],
    and a binary body then fixes the content type. *)
Definition convertRequestHeader (isExtraDataArrayBuffer_ : bool)
    (headersProp : list (string * string)) : gmap string string :=
  let stored := foldl (λ h kv, <[kv.1 := kv.2]> h) ∅ headersProp in
  if isExtraDataArrayBuffer_
  then <["Content-Type" := "application/octet-stream"]> stored
  else stored.

(** One element of the [multiFormDataList] array.  [name] and
    [contentType] are read without a presence test; [filePath],
    [remoteFileName] and [data] only when the property exists. *)
Record FormItem := mkFormItem {
  item_name : napi_value;
  item_contentType : napi_value;
  item_filePath : option napi_value;
  item_remoteFileName : option napi_value;
  item_data : option JsData
}.

(** The body of the loop of [convertFormData]: the field pushed for one
    element.  The length of each text starts at 0 and its buffer zeroed, so
    a value that is not a string reads as the empty text; [data] goes
    through the same cases as the extra data of the request (string,
    ArrayBuffer, other object), written out again in the source. *)
Definition convertFormItem (item : FormItem) : FormData :=
  let name_ := default "" (napi_get_value_string_utf8 (item_name item)) in
  let '(dataStr_, dataBufferSize_, isDataArrayBuffer_) :=
    match item_data item with
    | Some dataValue => convertRequestData dataValue
    | None => ("", 0, false)
    end in
  {| name := name_;
     remoteFileName :=
       match item_remoteFileName item with
       | Some v => default "" (napi_get_value_string_utf8 v)
       | None => name_
       end;
     filePath :=
       match item_filePath item with
       | Some v => default "" (napi_get_value_string_utf8 v)
       | None => ""
       end;
     contentType := default "" (napi_get_value_string_utf8 (item_contentType item));
     dataStr := dataStr_;
     dataBufferSize := dataBufferSize_;
     isDataArrayBuffer := isDataArrayBuffer_ |}.

(** [convertFormData]: one field pushed per element, in order. *)
Definition convertFormData (formDataArray : list FormItem) : list FormData :=
  convertFormItem <$> formDataArray.

(** The properties of the options object that the settings depend on.  An
    [option] is [None] for an absent property; [opt_headers] is [None] also
    for a value that is not an object.  A property read without a presence
    test is [js_undefined] when absent. *)
Record SettingsOptions := mkSettingsOptions {
  opt_readTimeout : option napi_value;
  opt_connectTimeout : option napi_value;
  opt_extraData : option JsData;
  opt_headers : option (list (string * string));
  opt_caPath : napi_value;
  opt_clientCertPath : napi_value;
  opt_isTLCP : napi_value;
  opt_verifyServer : napi_value;
  opt_debug : napi_value
}.

(** The part of [Request] that fills the settings, for the method parsed
    before it.  The connect timeout is read under the presence test of the
    read timeout, as the source has it. *)
Definition Request_settings (method_ : string) (o : SettingsOptions) : RequestSettings :=
  let '(extraDataStr_, extraDataBufferSize_, isExtraDataArrayBuffer_) :=
    match opt_extraData o with
    | Some extraDataProp =>
        if bool_decide (method_ = "POST") || bool_decide (method_ = "PUT")
        then convertRequestData extraDataProp
        else ("", 0, false)
    | None => ("", 0, false)
    end in
  {| extraDataStr := extraDataStr_;
     extraDataBufferSize := extraDataBufferSize_;
     isExtraDataArrayBuffer := isExtraDataArrayBuffer_;
     headers :=
       match opt_headers o with
       | Some headersProp => convertRequestHeader isExtraDataArrayBuffer_ headersProp
       | None => ∅
       end;
     readTimeout :=
       match opt_readTimeout o with
       | Some readTimeoutProp => napi_get_value_int32 readTimeoutProp
       | None => Some 15
       end;
     connectTimeout :=
       match opt_readTimeout o with
       | Some _ => napi_get_value_int32 (default js_undefined (opt_connectTimeout o))
       | None => Some 15
       end;
     caPath := default "" (napi_get_value_string_utf8 (opt_caPath o));
     clientCertPath := default "" (napi_get_value_string_utf8 (opt_clientCertPath o));
     isDebug :=
       match napi_get_value_bool (opt_debug o) with
       | Some debug => debug
       | None => false
       end;
     isTLCP := default false (napi_get_value_bool (opt_isTLCP o));
     verifyServer :=
       match napi_get_value_bool (opt_verifyServer o) with
       | Some false => false
       | _ => true
       end |}.

(** ** Applying the settings ([ExecuteRequest]) *)

(** One part of a multipart form, by the [curl_formadd] call that adds it. *)
Inductive FormPart :=
  | CURLFORM_FILE (name_ filePath_ fileName contentType_ : string)
  | CURLFORM_COPYCONTENTS (name_ contents fileName contentType_ : string)
  | CURLFORM_PTRCONTENTS (name_ : string) (contentsLength : Z) (contentType_ : string).

(** What [CURLOPT_POSTFIELDS] points at. *)
Inductive PostFields :=
  | post_extraDataBuffer
  | post_extraDataStr (text : string).

(** The [curl_easy_setopt] calls of [ExecuteRequest] that concern TLS,
    debugging, timeouts, request headers and the request body. *)
Inductive CurlSetting :=
  | CURLOPT_CAINFO (path : string)
  | CURLOPT_SSL_VERIFYPEER (v : Z)
  | CURLOPT_SSL_VERIFYHOST (v : Z)
  | CURLOPT_SSLVERSION_NTLSv1_1
  | CURLOPT_SSLENCCERT (path : string)
  | CURLOPT_SSLENCKEY (path : string)
  | CURLOPT_SSLSIGNCERT (path : string)
  | CURLOPT_SSLSIGNKEY (path : string)
  | CURLOPT_SSLCERT (path : string)
  | CURLOPT_SSLKEY (path : string)
  | CURLOPT_VERBOSE
  | CURLOPT_DEBUGFUNCTION
  | CURLOPT_TIMEOUT (seconds : option Z)
  | CURLOPT_CONNECTTIMEOUT (seconds : option Z)
  | CURLOPT_HTTPHEADER (lines : list string)
  | CURLOPT_HTTPPOST (parts : list FormPart)
  | CURLOPT_POSTFIELDS (fields : PostFields)
  | CURLOPT_POSTFIELDSIZE (n : Z).

#[global] Instance FormPart_eq_dec : EqDecision FormPart.
Proof. solve_decision. Defined.

#[global] Instance PostFields_eq_dec : EqDecision PostFields.
Proof. solve_decision. Defined.

#[global] Instance CurlSetting_eq_dec : EqDecision CurlSetting.
Proof. solve_decision. Defined.

(** Certificate authority, peer and host verification, protocol version and
    client certificates. *)
Definition tls_opts (s : RequestSettings) : list CurlSetting :=
  (if bool_decide (caPath s ≠ "") then [CURLOPT_CAINFO (caPath s)] else [])
  ++ (if verifyServer s
      then [CURLOPT_SSL_VERIFYPEER 1; CURLOPT_SSL_VERIFYHOST 0]
      else [CURLOPT_SSL_VERIFYPEER 0; CURLOPT_SSL_VERIFYHOST 0])
  ++ (if isTLCP s then
        CURLOPT_SSLVERSION_NTLSv1_1 ::
        (if bool_decide (clientCertPath s ≠ "") then
           [CURLOPT_SSLENCCERT (clientCertPath s +:+ "client_enc.crt");
            CURLOPT_SSLENCKEY (clientCertPath s +:+ "client_enc.key");
            CURLOPT_SSLSIGNCERT (clientCertPath s +:+ "client_sign.crt");
            CURLOPT_SSLSIGNKEY (clientCertPath s +:+ "client_sign.key")]
         else [])
      else
        if bool_decide (clientCertPath s ≠ "") then
          [CURLOPT_SSLCERT (clientCertPath s +:+ "client.crt");
           CURLOPT_SSLKEY (clientCertPath s +:+ "client.key")]
        else []).

Definition debug_opts (s : RequestSettings) : list CurlSetting :=
  if isDebug s then [CURLOPT_VERBOSE; CURLOPT_DEBUGFUNCTION] else [].

(** The entries of a [std::map] in iteration order: ascending keys. *)
Definition by_key (a b : string * string) : Prop := String.le a.1 b.1.

#[global] Instance by_key_dec : RelDecision by_key.
Proof. intros a b. unfold by_key. apply _. Defined.

Definition map_entries (h : gmap string string) : list (string * string) :=
  merge_sort by_key (map_to_list h).

(** The [curl_slist] of request headers: the upload content type, the
    headers of the request, and a default content type when there are
    none. *)
Definition header_lines (s : RequestSettings) (p : HttpRequestParams) : list string :=
  (if bool_decide (uploadFilePath p ≠ "")
   then ["Content-Type: application/octet-stream"] else [])
  ++ ((λ pair, pair.1 +:+ ": " +:+ pair.2) <$> map_entries (headers s))
  ++ (if bool_decide (headers s = ∅) then
        if bool_decide (method p = "POST") || bool_decide (method p = "PUT")
           || bool_decide (method p = "DELETE")
        then ["Content-Type: application/json"]
        else ["Content-Type: application/x-www-form-urlencoded"]
      else []).

(** A request header line that sets the content type. *)
Definition is_content_type_line (line : string) : bool :=
  String.prefix "Content-Type: " line.

Definition isMultipart (s : RequestSettings) (p : HttpRequestParams) : bool :=
  bool_decide (method p = "POST") && negb (bool_decide (headers s = ∅))
  && match headers s !! "Content-Type" with
     | Some value => contains value "multipart/form-data"
     | None => false
     end.

Definition form_part (form : FormData) : FormPart :=
  if bool_decide (filePath form ≠ "") then
    CURLFORM_FILE (name form) (filePath form) (remoteFileName form) (contentType form)
  else if negb (isDataArrayBuffer form) then
    CURLFORM_COPYCONTENTS (name form) (dataStr form) (remoteFileName form)
      (contentType form)
  else
    CURLFORM_PTRCONTENTS (name form) (dataBufferSize form) (contentType form).

(** The request body: the form parts of a multipart request, otherwise the
    extra data of a request that is neither GET nor DELETE. *)
Definition body_opts (s : RequestSettings) (p : HttpRequestParams) : list CurlSetting :=
  if isMultipart s p then [CURLOPT_HTTPPOST (form_part <$> formData p)]
  else
    let not_get_delete :=
      negb (bool_decide (method p = "GET")) && negb (bool_decide (method p = "DELETE")) in
    if (isExtraDataArrayBuffer s && bool_decide (0 < extraDataBufferSize s) && not_get_delete)
       || (negb (bool_decide (extraDataStr s = "")) && not_get_delete)
    then
      if isExtraDataArrayBuffer s
      then [CURLOPT_POSTFIELDS post_extraDataBuffer;
            CURLOPT_POSTFIELDSIZE (extraDataBufferSize s)]
      else [CURLOPT_POSTFIELDS (post_extraDataStr (extraDataStr s))]
    else [].

(** The calls above in the order [ExecuteRequest] makes them on a run that
    reaches the transfer; a download ends with its own [CURLOPT_TIMEOUT]. *)
Definition settings_opts (s : RequestSettings) (p : HttpRequestParams) : list CurlSetting :=
  tls_opts s
  ++ debug_opts s
  ++ [CURLOPT_TIMEOUT (readTimeout s); CURLOPT_CONNECTTIMEOUT (connectTimeout s)]
  ++ [CURLOPT_HTTPHEADER (header_lines s p)]
  ++ body_opts s p
  ++ (if bool_decide (downloadFilePath p ≠ "") then [CURLOPT_TIMEOUT (Some 0)] else []).

(** A later [curl_easy_setopt] of an option replaces an earlier one: the
    timeouts in force when the transfer starts. *)
Definition timeout_in_force (opts : list CurlSetting) : option (option Z) :=
  last (omap (λ opt, match opt with CURLOPT_TIMEOUT t => Some t | _ => None end) opts).

Definition connect_timeout_in_force (opts : list CurlSetting) : option (option Z) :=
  last (omap (λ opt, match opt with CURLOPT_CONNECTTIMEOUT t => Some t | _ => None end) opts).

(** ** Sample requests for the further properties *)

(** A download that the server answers with 404. *)
Definition not_found_world : World :=
  world_of (disk [("/data/a.bin", 0)]) [] (wire_exchange 404 "" "").

(** A request whose connection is refused. *)
Definition refused_world : World :=
  world_of (disk []) [] (wire_failure CURLE_COULDNT_CONNECT).

(** A transfer during which another request, 8, is cancelled. *)
Definition other_cancel_world : World :=
  world_of (disk [])
    [ev_tick (sample_tick 1000000000 0 0 0 0);
     ev_cancelRequest [js_number 8];
     ev_tick (sample_tick 1300000000 0 0 0 0)]
    (wire_exchange 200 "" "ok").

(** A download reporting the same count twice. *)
Definition repeating_world : World :=
  world_of (disk [("/data/a.bin", 0)])
    [ev_tick (sample_tick 1000000000 100 50 0 0);
     ev_tick (sample_tick 3000000000 100 50 0 0);
     ev_tick (sample_tick 5000000000 100 100 0 0)]
    (wire_exchange 200 "" "").

(** Five bytes to upload, forty bytes already downloaded, and three bytes
    that arrive. *)
Definition five_bytes : list Byte.byte :=
  [Byte.x68; Byte.x65; Byte.x6c; Byte.x6c; Byte.x6f].



(** Options without any of the settings properties. *)
Definition no_settings : SettingsOptions :=
  {| opt_readTimeout := None; opt_connectTimeout := None; opt_extraData := None;
     opt_headers := None; opt_caPath := js_undefined;
     opt_clientCertPath := js_undefined; opt_isTLCP := js_undefined;
     opt_verifyServer := js_undefined; opt_debug := js_undefined |}.

(** Extra data and headers only. *)
Definition body_settings (data : JsData) (headersProp : option (list (string * string)))
    : SettingsOptions :=
  {| opt_readTimeout := None; opt_connectTimeout := None; opt_extraData := Some data;
     opt_headers := headersProp; opt_caPath := js_undefined;
     opt_clientCertPath := js_undefined; opt_isTLCP := js_undefined;
     opt_verifyServer := js_undefined; opt_debug := js_undefined |}.

(** A connect timeout without a read timeout. *)
Definition connect_only_settings : SettingsOptions :=
  {| opt_readTimeout := None; opt_connectTimeout := Some (js_number 3);
     opt_extraData := None; opt_headers := None; opt_caPath := js_undefined;
     opt_clientCertPath := js_undefined; opt_isTLCP := js_undefined;
     opt_verifyServer := js_undefined; opt_debug := js_undefined |}.

(** A read timeout of half a minute. *)
Definition slow_settings : SettingsOptions :=
  {| opt_readTimeout := Some (js_number 30); opt_connectTimeout := Some (js_number 5);
     opt_extraData := None; opt_headers := None; opt_caPath := js_undefined;
     opt_clientCertPath := js_undefined; opt_isTLCP := js_undefined;
     opt_verifyServer := js_undefined; opt_debug := js_undefined |}.

(** A form element with a file and a text. *)
Definition avatar_item : FormItem :=
  {| item_name := js_string "avatar"; item_contentType := js_string "image/png";
     item_filePath := Some (js_string "/data/a.png"); item_remoteFileName := None;
     item_data := Some (data_string "ignored") |}.

Definition note_item : FormItem :=
  {| item_name := js_string "note"; item_contentType := js_string "text/plain";
     item_filePath := None; item_remoteFileName := None;
     item_data := Some (data_string "hello") |}.

(** A POST with a form list. *)
Definition form_options (items : list FormItem) : HttpRequestOptions :=
  {| opt_method := Some "POST"; opt_requestID := js_undefined;
     opt_multiFormDataList := Some (convertFormData items);
     opt_downloadFilePath := None; opt_uploadFilePath := None;
     opt_onProgress := false |}.

(** An upload of one file. *)
Definition upload_options : HttpRequestOptions :=
  {| opt_method := Some "PUT"; opt_requestID := js_undefined;
     opt_multiFormDataList := None; opt_downloadFilePath := None;
     opt_uploadFilePath := Some "/data/u.bin"; opt_onProgress := false |}.

(** A GET that names a file to upload, and the disk that holds it. *)
Definition get_with_upload : HttpRequestOptions :=
  {| opt_method := Some "GET"; opt_requestID := js_undefined;
     opt_multiFormDataList := None; opt_downloadFilePath := None;
     opt_uploadFilePath := Some "/data/u.bin"; opt_onProgress := false |}.

Definition upload_world : World :=
  world_of (disk [("/data/u.bin", 100)]) [] (wire_exchange 200 "" "").

(** * Properties *)

#[global] Arguments report_upload : simpl never.
#[global] Arguments report_download : simpl never.
#[global] Arguments check_canceled : simpl never.
#[global] Arguments progress_callback : simpl never.
#[global] Arguments cancelRequest : simpl never.
#[global] Arguments ParseHeaders : simpl never.
#[global] Arguments curl_easy_strerror : simpl never.

(** ** Substring search

    [contains] is substring containment: the search finds the needle exactly
    when the text splits around a copy of it. *)

Lemma prefix_app needle s :
  String.prefix needle s = true ↔ ∃ post, s = needle +:+ post.
Proof.
  revert s. induction needle as [|a needle IH]; intros s.
  - split; [intros _; by exists s|]. intros _. by destruct s.
  - destruct s as [|b s]; cbn [String.prefix].
    + split; [done|]. by intros (post & ?).
    + destruct (ascii_dec a b) as [->|Hne].
      * rewrite IH. split.
        -- intros (post & ->). by exists post.
        -- intros (post & [= ->]). by exists post.
      * split; [done|]. intros (post & [= ? _]). done.
Qed.



(** ** The cancellation map under [cancelRequest] *)

Lemma cancelRequest_number (n : Z) (m : CancelMap) :
  cancelRequest [js_number n] m =
    if bool_decide (is_Some (m !! to_int32 n)) then <[to_int32 n := true]> m else m.
Proof. reflexivity. Qed.

Lemma cancelRequest_absent (n : Z) (m : CancelMap) :
  m !! to_int32 n = None → cancelRequest [js_number n] m = m.
Proof.
  intros Hnone. rewrite cancelRequest_number.
  rewrite bool_decide_eq_false_2; [done|].
  rewrite Hnone. by intros [? ?].
Qed.


(** Either nothing happens or an existing entry is overwritten with
    [true]. *)
Lemma cancelRequest_cases (args : list napi_value) (m : CancelMap) :
  cancelRequest args m = m
  ∨ ∃ k, is_Some (m !! k) ∧ cancelRequest args m = <[k := true]> m.
Proof.
  destruct args as [|[| n | |] [|]]; try (by left).
  rewrite cancelRequest_number. case_bool_decide; [right|by left].
  by exists (to_int32 n).
Qed.

Lemma cancelRequest_dom (args : list napi_value) (m : CancelMap) :
  dom (cancelRequest args m) = dom m.
Proof.
  destruct (cancelRequest_cases args m) as [->|(k & Hk & ->)]; [done|].
  rewrite dom_insert_L. apply subseteq_union_1_L, singleton_subseteq_l.
  by apply elem_of_dom.
Qed.

Lemma cancelRequest_is_Some (args : list napi_value) (m : CancelMap) (k : Z) :
  is_Some (cancelRequest args m !! k) ↔ is_Some (m !! k).
Proof. by rewrite <- !elem_of_dom, cancelRequest_dom. Qed.

Lemma cancelRequest_keeps_true (args : list napi_value) (m : CancelMap) (k : Z) :
  m !! k = Some true → cancelRequest args m !! k = Some true.
Proof.
  intros Hk.
  destruct (cancelRequest_cases args m) as [->|(j & _ & ->)]; [done|].
  destruct (decide (j = k)) as [->|Hne].
  - by rewrite lookup_insert_eq.
  - by rewrite lookup_insert_ne.
Qed.

(** ** The hook *)

Lemma same_request_refl a : same_request a a.
Proof. by repeat split. Qed.

Lemma same_request_trans a b c :
  same_request a b → same_request b c → same_request a c.
Proof.
  unfold same_request. intros (?&?&?&?&?&?&?) (?&?&?&?&?&?&?).
  repeat split; congruence.
Qed.

Lemma report_upload_same t callback :
  same_request callback (report_upload t callback).1
  ∧ errorMsg (params (report_upload t callback).1) = errorMsg (params callback).
Proof.
  unfold report_upload. case_match; simpl; split; try done; by repeat split.
Qed.

Lemma report_download_same t callback :
  same_request callback (report_download t callback).1
  ∧ errorMsg (params (report_download t callback).1) = errorMsg (params callback).
Proof.
  unfold report_download. case_match; simpl; split; try done; by repeat split.
Qed.

(** The poll, case by case. *)
Lemma check_canceled_spec callback m :
  let id := requestId (params callback) in
  (id ≠ 0 ∧ m !! id = Some true
   ∧ check_canceled callback m
     = (1, on_params (set_errorMsg canceled_message) callback, delete id m))
  ∨ (¬ (id ≠ 0 ∧ m !! id = Some true)
     ∧ check_canceled callback m = (0, callback, m)).
Proof.
  cbv zeta. unfold check_canceled. case_bool_decide as Hid.
  - destruct (m !! requestId (params callback)) as [[|]|] eqn:Hm.
    + left. done.
    + right. split; [|done]. intros [_ ?]. done.
    + right. split; [|done]. intros [_ ?]. done.
  - right. split; [|done]. intros [? _]. done.
Qed.

(** The hook as a whole: the two reporting blocks in sequence, then the
    poll on the state they leave. *)
Lemma progress_callback_unfold callback m t :
  let cb1 := (report_upload t callback).1 in
  let cb2 := (report_download t cb1).1 in
  let c := check_canceled cb2 m in
  progress_callback callback m t =
    {| hook_rc := c.1.1; hook_callback := c.1.2; hook_map := c.2;
       hook_forwarded := (report_upload t callback).2 ++ (report_download t cb1).2 |}.
Proof.
  cbv zeta. unfold progress_callback.
  destruct (report_upload t callback) as [cb1 up]. cbn [fst snd].
  destruct (report_download t cb1) as [cb2 down]. cbn [fst snd].
  by destruct (check_canceled cb2 m) as [[rc cb3] m'].
Qed.

Lemma progress_callback_spec callback m t :
  let r := progress_callback callback m t in
  let id := requestId (params callback) in
  same_request callback (hook_callback r)
  ∧ ((hook_rc r = 1 ∧ id ≠ 0 ∧ m !! id = Some true
      ∧ hook_map r = delete id m
      ∧ errorMsg (params (hook_callback r)) = canceled_message)
     ∨ (hook_rc r = 0 ∧ ¬ (id ≠ 0 ∧ m !! id = Some true)
        ∧ hook_map r = m
        ∧ errorMsg (params (hook_callback r)) = errorMsg (params callback))).
Proof.
  cbv zeta. rewrite progress_callback_unfold. cbv zeta.
  cbn [hook_rc hook_callback hook_map hook_forwarded].
  destruct (report_upload_same t callback) as [Hs1 He1].
  destruct (report_download_same t (report_upload t callback).1) as [Hs2 He2].
  pose proof (same_request_trans _ _ _ Hs1 Hs2) as Hs.
  assert (requestId (params (report_download t (report_upload t callback).1).1)
          = requestId (params callback)) as Hid.
  { symmetry. apply Hs. }
  destruct (check_canceled_spec (report_download t (report_upload t callback).1).1 m)
    as [(Hne & Hm & ->)|(Hno & ->)]; cbn [fst snd].
  - rewrite Hid in *. split.
    + eapply same_request_trans; [exact Hs|]. by repeat split.
    + left. done.
  - rewrite Hid in *. split; [done|]. right. repeat split; try done; try congruence.
Qed.



(** ** The transfer loop *)


(** What the loop maintains: the immutable request fields; while running,
    the error message and the set of registered ids; after an interruption,
    the cancel message with the request's own entry gone. *)
Lemma transfer_spec wired evs callback m f :
  let st := transfer wired evs callback m f in
  let id := requestId (params callback) in
  same_request callback (ts_callback st)
  ∧ (ts_aborted st = false →
       errorMsg (params (ts_callback st)) = errorMsg (params callback)
       ∧ dom (ts_map st) = dom m)
  ∧ (ts_aborted st = true →
       wired = true ∧ id ≠ 0
       ∧ errorMsg (params (ts_callback st)) = canceled_message
       ∧ ts_map st !! id = None)
  ∧ (∀ k, k ≠ id ∨ id = 0 → is_Some (ts_map st !! k) ↔ is_Some (m !! k)).
Proof.
  cbv zeta. revert callback m f.
  induction evs as [|[t|args] evs IH]; intros callback m f; cbn [transfer].
  - cbn [ts_aborted ts_callback ts_map]. split; [apply same_request_refl|].
    repeat split; try done.
  - destruct wired; [|apply IH].
    destruct (progress_callback_spec callback m t) as [Hs Hr]. cbv zeta in Hs, Hr.
    assert (requestId (params (hook_callback (progress_callback callback m t)))
            = requestId (params callback)) as Hid by (symmetry; apply Hs).
    destruct Hr as [(Hrc & Hne & Hm & Hmap & Hmsg)|(Hrc & Hno & Hmap & Hmsg)].
    + rewrite bool_decide_eq_true_2 by (rewrite Hrc; lia).
      cbn [ts_aborted ts_callback ts_map]. split; [done|].
      split; [done|]. split.
      * intros _. rewrite Hmap, lookup_delete_eq. done.
      * intros k [Hk|Hk]; [|done]. by rewrite Hmap, lookup_delete_ne.
    + rewrite bool_decide_eq_false_2 by (rewrite Hrc; lia).
      specialize (IH (hook_callback (progress_callback callback m t))
                     (hook_map (progress_callback callback m t))
                     (f ++ hook_forwarded (progress_callback callback m t))).
      destruct IH as (IH1 & IH2 & IH3 & IH4).
      split; [eapply same_request_trans; eassumption|].
      split; [|split].
      * intros Ha. destruct (IH2 Ha) as [-> ->]. by rewrite Hmsg, Hmap.
      * intros Ha. destruct (IH3 Ha) as (? & ? & ? & ?). by rewrite <- Hid.
      * intros k Hk. rewrite IH4 by (by rewrite Hid). by rewrite Hmap.
  - specialize (IH callback (cancelRequest args m) f).
    destruct IH as (IH1 & IH2 & IH3 & IH4).
    split; [done|]. split; [|split; [done|]].
    + intros Ha. destruct (IH2 Ha) as [? ->]. by rewrite cancelRequest_dom.
    + intros k Hk. rewrite (IH4 k Hk). apply cancelRequest_is_Some.
Qed.



(** ** Parsing, configuration, capture *)

#[global] Arguments Request : simpl never.
#[global] Arguments configure : simpl never.
#[global] Arguments upload_setup : simpl never.
#[global] Arguments download_setup : simpl never.
#[global] Arguments capture : simpl never.
#[global] Arguments curl_easy_perform : simpl never.
#[global] Arguments CompleteCB : simpl never.
#[global] Arguments assemble : simpl never.
#[global] Arguments progress_opts : simpl never.
#[global] Arguments method_opts : simpl never.

Lemma Request_spec o fs m :
  let callback := (Request o fs m).1 in
  let p := params callback in
  fresh callback
  ∧ tsfn callback = opt_onProgress o
  ∧ method p = default "GET" (opt_method o)
  ∧ downloadFilePath p = default "" (opt_downloadFilePath o)
  ∧ uploadFilePath p = default "" (opt_uploadFilePath o)
  ∧ requestId p = default 0 (napi_get_value_int32 (opt_requestID o))
  ∧ (Request o fs m).2 =
      match napi_get_value_int32 (opt_requestID o) with
      | Some requestId => <[requestId := false]> m
      | None => m
      end.
Proof.
  cbv zeta. unfold Request.
  destruct (napi_get_value_int32 (opt_requestID o)); cbn; by repeat split.
Qed.


Lemma fail_with_spec msg code callback :
  same_request callback (fail_with msg code callback)
  ∧ errorMsg (params (fail_with msg code callback)) = msg
  ∧ responseCode (params (fail_with msg code callback)) = code.
Proof. by repeat split. Qed.

Lemma upload_setup_inr fs callback cb opts :
  upload_setup fs callback = inr (cb, opts) →
  same_request callback cb
  ∧ errorMsg (params cb) = errorMsg (params callback)
  ∧ lastProgress (params cb) = lastProgress (params callback)
  ∧ lastTime (params cb) = lastTime (params callback)
  ∧ downloadFile (params cb) = downloadFile (params callback)
  ∧ ∀ opt, opt ∈ opts → opt = CURLOPT_UPLOAD ∨ ∃ n, opt = CURLOPT_INFILESIZE_LARGE n.
Proof.
  unfold upload_setup. case_bool_decide.
  - destruct (readable fs !! uploadFilePath (params callback)); [|done].
    intros [= <- <-]. repeat split.
    intros opt [->|Hopt]%elem_of_cons; [by left|].
    case_bool_decide.
    + apply list_elem_of_singleton in Hopt as ->. right. eauto.
    + by apply elem_of_nil in Hopt.
  - intros [= <- <-]. repeat split. by intros opt ?%elem_of_nil.
Qed.

Lemma download_setup_inr fs callback cb opts :
  download_setup fs callback = inr (cb, opts) →
  same_request callback cb
  ∧ errorMsg (params cb) = errorMsg (params callback)
  ∧ lastProgress (params cb) = lastProgress (params callback)
  ∧ lastTime (params cb) = lastTime (params callback)
  ∧ ((downloadFilePath (params callback) = ""
      ∧ downloadFile (params cb) = downloadFile (params callback)
      ∧ opts = [CURLOPT_WRITEFUNCTION WriteCallback])
     ∨ (downloadFilePath (params callback) ≠ ""
        ∧ resumeFromOffset (params callback) ≤ 0
        ∧ downloadFile (params cb) = Some ios_out_binary
        ∧ opts = [CURLOPT_WRITEFUNCTION WriteDownloadCallback; CURLOPT_FAILONERROR])
     ∨ (downloadFilePath (params callback) ≠ ""
        ∧ 0 < resumeFromOffset (params callback)
        ∧ downloadFile (params cb) = Some ios_out_binary_app
        ∧ opts = [CURLOPT_RANGE (pretty (resumeFromOffset (params callback)) +:+ "-");
                  CURLOPT_WRITEFUNCTION WriteDownloadCallback; CURLOPT_FAILONERROR])).
Proof.
  unfold download_setup. case_bool_decide as Hd.
  - case_bool_decide; [|done]. intros [= <- <-].
    repeat split. right.
    case_bool_decide; [right|left]; repeat split; try done. lia.
  - intros [= <- <-]. repeat split. left.
    repeat split. destruct (decide (downloadFilePath (params callback) = "")); [done|].
    by destruct Hd.
Qed.

Lemma upload_setup_inl fs callback failed :
  upload_setup fs callback = inl failed →
  same_request callback failed ∧ errorMsg (params failed) ≠ "".
Proof.
  unfold upload_setup. case_bool_decide; [|done].
  destruct (readable fs !! uploadFilePath (params callback)); [done|].
  intros [= <-]. by repeat split.
Qed.

Lemma download_setup_inl fs callback failed :
  download_setup fs callback = inl failed →
  same_request callback failed ∧ errorMsg (params failed) ≠ "".
Proof.
  unfold download_setup. case_bool_decide; [|done].
  case_bool_decide; [done|].
  intros [= <-]. by repeat split.
Qed.

Lemma progress_opts_elem p opt :
  opt ∈ progress_opts p →
  opt = CURLOPT_NOPROGRESS 0 ∨ opt = CURLOPT_XFERINFOFUNCTION
  ∨ opt = CURLOPT_FOLLOWLOCATION.
Proof.
  unfold progress_opts. case_match; [|by intros ?%elem_of_nil].
  rewrite !elem_of_app. intros [Ho|[Ho|Ho]].
  - apply elem_of_cons in Ho as [->|Ho]; [by left|].
    apply list_elem_of_singleton in Ho as ->. by right; left.
  - case_bool_decide; [|by apply elem_of_nil in Ho].
    apply list_elem_of_singleton in Ho as ->. by right; right.
  - case_bool_decide; [|by apply elem_of_nil in Ho].
    apply list_elem_of_singleton in Ho as ->. by right; right.
Qed.

Lemma progress_opts_wired p :
  requestId p ≠ 0 ∨ downloadFilePath p ≠ "" ∨ uploadFilePath p ≠ "" ∨ formData p ≠ [] →
  CURLOPT_NOPROGRESS 0 ∈ progress_opts p ∧ CURLOPT_XFERINFOFUNCTION ∈ progress_opts p.
Proof.
  intros H. unfold progress_opts.
  assert (bool_decide (requestId p ≠ 0) || bool_decide (downloadFilePath p ≠ "")
          || bool_decide (uploadFilePath p ≠ "") || bool_decide (formData p ≠ []) = true)
    as ->.
  { rewrite !orb_true_iff, !bool_decide_eq_true. tauto. }
  split; apply elem_of_app; left.
  - apply list_elem_of_here.
  - apply list_elem_of_further, list_elem_of_here.
Qed.

Lemma method_opts_elem p opt :
  opt ∈ method_opts p →
  opt = CURLOPT_POST ∨ opt = CURLOPT_HTTPGET ∨ ∃ verb, opt = CURLOPT_CUSTOMREQUEST verb.
Proof.
  unfold method_opts. repeat case_bool_decide;
    intros ->%list_elem_of_singleton; eauto.
Qed.

(** A configured session, taken apart. *)
Lemma configure_inr w callback cb opts :
  configure w callback = inr (cb, opts) →
  ∃ cb1 o2 o3,
    upload_setup (files w) callback = inr (cb1, o2)
    ∧ download_setup (files w) cb1 = inr (cb, o3)
    ∧ opts = (progress_opts (params callback) ++ method_opts (params callback))
             ++ o2 ++ o3.
Proof.
  unfold configure. destruct (curl_easy_init_ok w); [|done].
  destruct (upload_setup (files w) callback) as [|[cb1 o2]]; [done|].
  destruct (download_setup (files w) cb1) as [|[cb2 o3]] eqn:Hd; [done|].
  intros [= <- <-]. by exists cb1, o2, o3.
Qed.

Lemma configure_inl w callback failed :
  configure w callback = inl failed →
  same_request callback failed ∧ errorMsg (params failed) ≠ "".
Proof.
  unfold configure. destruct (curl_easy_init_ok w).
  - destruct (upload_setup (files w) callback) as [f1|[cb1 o2]] eqn:Hu.
    + intros [= <-]. by apply upload_setup_inl in Hu.
    + apply upload_setup_inr in Hu as (Hs & _).
      destruct (download_setup (files w) cb1) as [f2|[cb2 o3]] eqn:Hd; [|done].
      intros [= <-]. apply download_setup_inl in Hd as [Hs' ?].
      split; [|done]. eapply same_request_trans; eassumption.
  - intros [= <-]. by repeat split.
Qed.

(** What a configured session guarantees about the request state and the
    options the properties below talk about. *)
Lemma configure_spec w callback cb opts :
  configure w callback = inr (cb, opts) →
  let p := params callback in
  same_request callback cb
  ∧ errorMsg (params cb) = errorMsg p
  ∧ lastProgress (params cb) = lastProgress p
  ∧ lastTime (params cb) = lastTime p
  ∧ (requestId p ≠ 0 ∨ downloadFilePath p ≠ "" ∨ uploadFilePath p ≠ "" ∨ formData p ≠ []
     → progress_wired opts = true)
  ∧ (CURLOPT_FAILONERROR ∈ opts ↔ downloadFilePath p ≠ "")
  ∧ (CURLOPT_WRITEFUNCTION WriteCallback ∈ opts ↔ downloadFilePath p = "")
  ∧ (∀ opt, opt ∈ method_opts p → opt ∈ opts)
  ∧ (downloadFilePath p ≠ "" → 0 < resumeFromOffset p →
       CURLOPT_RANGE (pretty (resumeFromOffset p) +:+ "-") ∈ opts
       ∧ downloadFile (params cb) = Some ios_out_binary_app).
Proof.
  intros (cb1 & o2 & o3 & Hu & Hd & ->)%configure_inr. cbv zeta.
  apply upload_setup_inr in Hu as (Hs1 & He1 & Hp1 & Ht1 & _ & Ho2).
  apply download_setup_inr in Hd as (Hs2 & He2 & Hp2 & Ht2 & Hcase).
  pose proof Hs1 as (_ & _ & Hdl & _ & Hres & _).
  rewrite <- Hdl, <- Hres in Hcase.
  split; [eapply same_request_trans; eassumption|].
  split; [congruence|]. split; [congruence|]. split; [congruence|].
  assert (∀ opt, opt ∈ (progress_opts (params callback) ++ method_opts (params callback)) ++ o2
            → opt ≠ CURLOPT_FAILONERROR ∧ opt ≠ CURLOPT_WRITEFUNCTION WriteCallback)
    as Hfront.
  { intros opt [[Ho|Ho]%elem_of_app|Ho]%elem_of_app.
    - apply progress_opts_elem in Ho as [->|[->| ->]]; done.
    - apply method_opts_elem in Ho as [->|[->|[verb ->]]]; done.
    - apply Ho2 in Ho as [->|[n ->]]; done. }
  split; [|split; [|split; [|split]]].
  - intros Hw. apply progress_opts_wired in Hw as [H1 H2].
    unfold progress_wired. apply bool_decide_eq_true.
    split; rewrite !elem_of_app; left; left; done.
  - rewrite app_assoc, elem_of_app. split.
    + intros [Ho|Ho]; [by apply Hfront in Ho as [? _]|].
      destruct Hcase as [(_ & _ & ->)|[(? & _)|(? & _)]]; [|done..].
      apply list_elem_of_singleton in Ho. done.
    + intros Hne. right.
      destruct Hcase as [(? & _)|[(_ & _ & _ & ->)|(_ & _ & _ & ->)]]; [done|..].
      * apply list_elem_of_further, list_elem_of_here.
      * do 2 apply list_elem_of_further. apply list_elem_of_here.
  - rewrite app_assoc, elem_of_app. split.
    + intros [Ho|Ho]; [by apply Hfront in Ho as [_ ?]|].
      destruct Hcase as [(? & _)|[(_ & _ & _ & ->)|(_ & _ & _ & ->)]]; [done|..].
      * apply elem_of_cons in Ho as [?|Ho]; [done|].
        by apply list_elem_of_singleton in Ho.
      * apply elem_of_cons in Ho as [?|Ho]; [done|].
        apply elem_of_cons in Ho as [?|Ho]; [done|].
        by apply list_elem_of_singleton in Ho.
    + intros He. right.
      destruct Hcase as [(_ & _ & ->)|[(? & _)|(? & _)]]; [|done..].
      apply list_elem_of_here.
  - intros opt Ho. rewrite app_assoc. do 2 (apply elem_of_app; left).
    apply elem_of_app. by right.
  - intros Hne Hpos.
    destruct Hcase as [(? & _)|[(_ & ? & _)|(_ & _ & Hmode & ->)]]; [done|lia|].
    split; [|done]. rewrite app_assoc. apply elem_of_app. right.
    apply list_elem_of_here.
Qed.

Lemma curl_easy_strerror_nonempty code : curl_easy_strerror code ≠ "".
Proof. unfold curl_easy_strerror. repeat case_bool_decide; done. Qed.

(** The transport's result, case by case. *)
Lemma curl_easy_perform_spec opts s callback m :
  let r := curl_easy_perform opts s callback m in
  let st := transfer (progress_wired opts) (events s) callback m [] in
  after r = st
  ∧ ((ts_aborted st = true ∧ res r = CURLE_ABORTED_BY_CALLBACK)
     ∨ (ts_aborted st = false ∧ ∃ e, wire s = wire_failure e ∧ res r = net_code e)
     ∨ (ts_aborted st = false
        ∧ ∃ status headerBlock body, wire s = wire_exchange status headerBlock body
          ∧ response_code r = status
          ∧ ((CURLOPT_FAILONERROR ∈ opts ∧ 400 ≤ status
              ∧ res r = CURLE_HTTP_RETURNED_ERROR)
             ∨ (¬ (CURLOPT_FAILONERROR ∈ opts ∧ 400 ≤ status)
                ∧ res r = CURLE_OK
                ∧ got_responseHeaders r = headerBlock
                ∧ got_responseBody r =
                    if bool_decide (CURLOPT_WRITEFUNCTION WriteCallback ∈ opts)
                    then body else "")))).
Proof.
  cbv zeta. unfold curl_easy_perform.
  destruct (ts_aborted (transfer _ _ _ _ _)) eqn:Ha; cbn [after res].
  - split; [done|]. by left.
  - destruct (wire s) as [e|status headerBlock body]; cbn [after res].
    + split; [done|]. right; left. eauto.
    + destruct (bool_decide (CURLOPT_FAILONERROR ∈ opts) && bool_decide (400 ≤ status))
        eqn:Hf; cbn [after res response_code got_responseHeaders got_responseBody].
      * split; [done|]. right; right. split; [done|].
        exists status, headerBlock, body. repeat split; try done. left.
        apply andb_true_iff in Hf as [?%bool_decide_eq_true ?%bool_decide_eq_true].
        done.
      * split; [done|]. right; right. split; [done|].
        exists status, headerBlock, body. repeat split; try done. right.
        split; [|done]. intros [? ?].
        apply andb_false_iff in Hf as [?%bool_decide_eq_false|?%bool_decide_eq_false];
          done.
Qed.

Lemma capture_ok r callback :
  res r = CURLE_OK →
  let cb := capture r callback in
  same_request callback cb
  ∧ errorMsg (params cb) = errorMsg (params callback)
  ∧ responseCode (params cb) = response_code r
  ∧ responseHeaders (params cb) = got_responseHeaders r
  ∧ response (params cb) =
      if bool_decide (downloadFilePath (params callback) ≠ "")
      then "download finished" else got_responseBody r.
Proof.
  intros Hok. cbv zeta. unfold capture.
  rewrite bool_decide_eq_true_2 by done.
  case_bool_decide; by repeat split.
Qed.

Lemma capture_failed r callback :
  res r ≠ CURLE_OK →
  let cb := capture r callback in
  same_request callback cb
  ∧ responseCode (params cb) =
      (if bool_decide (res r = CURLE_HTTP_RETURNED_ERROR) then response_code r
       else res r)
  ∧ errorMsg (params cb) =
      (if bool_decide (errorMsg (params callback) = "")
       then curl_easy_strerror (res r) else errorMsg (params callback))
  ∧ errorMsg (params cb) ≠ "".
Proof.
  intros Hfail. cbv zeta. unfold capture.
  rewrite bool_decide_eq_false_2 by done.
  cbn [on_params params set_responseCode errorMsg].
  case_bool_decide as He; cbn [on_params params set_errorMsg set_responseCode errorMsg responseCode];
    repeat split; try done.
  apply curl_easy_strerror_nonempty.
Qed.

Lemma cleanup_spec callback :
  same_request callback (cleanup callback)
  ∧ errorMsg (params (cleanup callback)) = errorMsg (params callback)
  ∧ responseCode (params (cleanup callback)) = responseCode (params callback)
  ∧ responseHeaders (params (cleanup callback)) = responseHeaders (params callback)
  ∧ response (params (cleanup callback)) = response (params callback)
  ∧ downloadFile (params (cleanup callback)) = None
  ∧ uploadFile (params (cleanup callback)) = false.
Proof. by repeat split. Qed.

Lemma ExecuteRequest_inr w callback m cb opts :
  configure w callback = inr (cb, opts) →
  let r := curl_easy_perform opts (script w) cb m in
  ExecuteRequest w callback m =
    mkExecution (cleanup (capture r (ts_callback (after r)))) (ts_map (after r))
      (ts_forwarded (after r)) (Some opts) (Some (res r)).
Proof. intros Hc. cbv zeta. unfold ExecuteRequest. by rewrite Hc. Qed.

Lemma ExecuteRequest_inl w callback m failed :
  configure w callback = inl failed →
  ExecuteRequest w callback m = mkExecution failed m [] None None.
Proof. intros Hc. unfold ExecuteRequest. by rewrite Hc. Qed.

Lemma CompleteCB_ok callback m :
  CompleteCB napi_ok callback m =
    (if bool_decide (errorMsg (params callback) ≠ "")
     then ResponseErrorCB (params callback) else assemble (params callback),
     if bool_decide (requestId (params callback) ≠ 0)
     then delete (requestId (params callback)) m else m).
Proof. reflexivity. Qed.

Lemma run_unfold o w m :
  let rq := Request o (files w) m in
  let e := ExecuteRequest w rq.1 rq.2 in
  let c := CompleteCB napi_ok (exec_callback e) (exec_map e) in
  run o w m =
    mkLifecycle c.1 c.2 (exec_forwarded e) (exec_session e) (exec_res e) rq.1.
Proof.
  cbv zeta. unfold run. destruct (Request o (files w) m) as [callback m1].
  cbn [fst snd]. by destruct (CompleteCB napi_ok _ _).
Qed.

(** The request an execution ends with is the one it started with. *)
Lemma ExecuteRequest_same w callback m :
  same_request callback (exec_callback (ExecuteRequest w callback m)).
Proof.
  destruct (configure w callback) as [failed|[cb opts]] eqn:Hc.
  - rewrite (ExecuteRequest_inl _ _ _ _ Hc). cbn [exec_callback].
    by apply configure_inl in Hc as [? _].
  - rewrite (ExecuteRequest_inr _ _ _ _ _ Hc). cbn [exec_callback].
    apply configure_spec in Hc as (Hs & _).
    destruct (curl_easy_perform_spec opts (script w) cb m) as [Hafter _].
    cbv zeta in Hafter. rewrite Hafter.
    destruct (transfer_spec (progress_wired opts) (events (script w)) cb m [])
      as (Hs' & _).
    eapply same_request_trans; [exact Hs|].
    eapply same_request_trans; [exact Hs'|].
    eapply same_request_trans; [|apply cleanup_spec].
    destruct (decide (res (curl_easy_perform opts (script w) cb m) = CURLE_OK)) as [Hok|Hno].
    + by apply capture_ok.
    + by apply capture_failed.
Qed.

(** After settlement the request's own id is not in the map. *)
Lemma run_clears_id o w m :
  requestId (params (parsed (run o w m))) ≠ 0 →
  final_map (run o w m) !! requestId (params (parsed (run o w m))) = None.
Proof.
  rewrite run_unfold. cbv zeta. cbn [parsed final_map].
  rewrite CompleteCB_ok. cbn [snd].
  pose proof (ExecuteRequest_same w (Request o (files w) m).1 (Request o (files w) m).2)
    as (_ & _ & _ & _ & _ & Hid & _).
  rewrite <- Hid. intros Hne.
  rewrite bool_decide_eq_true_2 by done. apply lookup_delete_eq.
Qed.

(** An interrupted transfer settles as the cancel rejection. *)
Lemma run_aborted o w m cb opts :
  configure w (Request o (files w) m).1 = inr (cb, opts) →
  ts_aborted (transfer (progress_wired opts) (events (script w)) cb
                (Request o (files w) m).2 []) = true →
  settlement (run o w m) = rejected CURLE_ABORTED_BY_CALLBACK canceled_message
  ∧ curl_code (run o w m) = Some CURLE_ABORTED_BY_CALLBACK.
Proof.
  intros Hc Ha. rewrite run_unfold. cbv zeta. cbn [settlement curl_code].
  rewrite (ExecuteRequest_inr _ _ _ _ _ Hc). cbn [exec_callback exec_map exec_res].
  rewrite CompleteCB_ok. cbn [fst].
  destruct (curl_easy_perform_spec opts (script w) cb (Request o (files w) m).2)
    as [Hafter Hcases]. cbv zeta in Hafter, Hcases.
  destruct Hcases as [[_ Hres]|[[Hna _]|[Hna _]]]; [|congruence..].
  rewrite Hafter.
  destruct (transfer_spec (progress_wired opts) (events (script w)) cb
              (Request o (files w) m).2 []) as (_ & _ & Hab & _).
  destruct (Hab Ha) as (_ & _ & Hmsg & _).
  set (st := transfer _ _ _ _ _) in *.
  set (r := curl_easy_perform _ _ _ _) in *.
  assert (res r ≠ CURLE_OK) as Hfail by (rewrite Hres; done).
  destruct (capture_failed r (ts_callback st) Hfail) as (_ & Hcode & Herr & Hne).
  destruct (cleanup_spec (capture r (ts_callback st))) as (_ & Hce & Hcc & _).
  split; [|by rewrite Hres].
  rewrite bool_decide_eq_true_2 by (by rewrite Hce).
  unfold ResponseErrorCB. rewrite Hce, Hcc, Hcode, Herr, Hres, Hmsg.
  reflexivity.
Qed.


(** ** Cancellation of an in-flight request *)



(** ** Every way a request can end *)

Lemma net_code_not_special e :
  net_code e ≠ CURLE_OK ∧ net_code e ≠ CURLE_HTTP_RETURNED_ERROR
  ∧ net_code e ≠ CURLE_ABORTED_BY_CALLBACK.
Proof. by destruct e. Qed.

Lemma run_cases o w m :
  let rq := Request o (files w) m in
  let dl := downloadFilePath (params rq.1) in
  (∃ failed, configure w rq.1 = inl failed
     ∧ settlement (run o w m) = rejected (responseCode (params failed)) (errorMsg (params failed))
     ∧ errorMsg (params failed) ≠ ""
     ∧ session (run o w m) = None ∧ curl_code (run o w m) = None)
  ∨ (∃ cb opts, configure w rq.1 = inr (cb, opts)
       ∧ session (run o w m) = Some opts
       ∧ let st := transfer (progress_wired opts) (events (script w)) cb rq.2 [] in
         (ts_aborted st = true
          ∧ settlement (run o w m) = rejected CURLE_ABORTED_BY_CALLBACK canceled_message
          ∧ curl_code (run o w m) = Some CURLE_ABORTED_BY_CALLBACK)
         ∨ (ts_aborted st = false
            ∧ ∃ e, wire (script w) = wire_failure e
              ∧ settlement (run o w m) = rejected (net_code e) (curl_easy_strerror (net_code e))
              ∧ curl_code (run o w m) = Some (net_code e))
         ∨ (ts_aborted st = false
            ∧ ∃ status headerBlock body,
                wire (script w) = wire_exchange status headerBlock body
                ∧ ((dl ≠ "" ∧ 400 ≤ status
                    ∧ settlement (run o w m)
                        = rejected status (curl_easy_strerror CURLE_HTTP_RETURNED_ERROR)
                    ∧ curl_code (run o w m) = Some CURLE_HTTP_RETURNED_ERROR)
                   ∨ (¬ (dl ≠ "" ∧ 400 ≤ status)
                      ∧ settlement (run o w m)
                          = resolved status (ParseHeaders headerBlock)
                              (decoded_body headerBlock dl body)
                      ∧ curl_code (run o w m) = Some CURLE_OK)))).
Proof.
  cbv zeta. rewrite run_unfold. cbv zeta. cbn [settlement session curl_code].
  rewrite CompleteCB_ok. cbn [fst].
  destruct (Request_spec o (files w) m) as ((Hfresh & _ & _) & _).
  set (rq := Request o (files w) m) in *.
  destruct (configure w rq.1) as [failed|[cb opts]] eqn:Hc.
  - left. exists failed. rewrite (ExecuteRequest_inl _ _ _ _ Hc).
    cbn [exec_callback exec_session exec_res].
    apply configure_inl in Hc as [_ Hmsg].
    rewrite bool_decide_eq_true_2 by done. done.
  - right. exists cb, opts. rewrite (ExecuteRequest_inr _ _ _ _ _ Hc).
    cbn [exec_callback exec_session exec_res].
    split; [done|]. split; [done|].
    destruct (configure_spec _ _ _ _ Hc) as (Hs & Hmsg0 & _ & _ & _ & Hfo & Hwc & _).
    cbv zeta in Hfo, Hwc. rewrite Hfresh in Hmsg0.
    destruct (curl_easy_perform_spec opts (script w) cb rq.2) as [Hafter Hcases].
    cbv zeta in Hafter, Hcases. rewrite Hafter.
    destruct (transfer_spec (progress_wired opts) (events (script w)) cb rq.2 [])
      as (Hs' & Hrun & Hab & _).
    set (st := transfer _ _ _ _ _) in *.
    set (r := curl_easy_perform _ _ _ _) in *.
    destruct (cleanup_spec (capture r (ts_callback st)))
      as (_ & Hce & Hcc & Hch & Hcr & _).
    assert (downloadFilePath (params (ts_callback st))
            = downloadFilePath (params rq.1)) as Hdl.
    { destruct Hs as (_ & _ & -> & _). by destruct Hs' as (_ & _ & -> & _). }
    destruct Hcases as [[Ha Hres]|[[Ha (e & Hwire & Hres)]|
      [Ha (status & headerBlock & body & Hwire & Hrc & Hsub)]]].
    + left. split; [done|]. split; [|by rewrite Hres].
      destruct (Hab Ha) as (_ & _ & Hmsg & _).
      assert (res r ≠ CURLE_OK) as Hfail by (by rewrite Hres).
      destruct (capture_failed r (ts_callback st) Hfail) as (_ & Hcode & Herr & Hne).
      rewrite bool_decide_eq_true_2 by (by rewrite Hce).
      unfold ResponseErrorCB. rewrite Hce, Hcc, Hcode, Herr, Hres, Hmsg.
      reflexivity.
    + right; left. split; [done|]. exists e. split; [done|].
      split; [|by rewrite Hres].
      destruct (Hrun Ha) as [Hmsg _]. rewrite Hmsg0 in Hmsg.
      destruct (net_code_not_special e) as (Hn0 & Hn22 & _).
      assert (res r ≠ CURLE_OK) as Hfail by (by rewrite Hres).
      destruct (capture_failed r (ts_callback st) Hfail) as (_ & Hcode & Herr & Hne).
      rewrite bool_decide_eq_true_2 by (by rewrite Hce).
      unfold ResponseErrorCB. rewrite Hce, Hcc, Hcode, Herr, Hres, Hmsg.
      rewrite bool_decide_eq_false_2 by done.
      by rewrite bool_decide_eq_true_2 by done.
    + right; right. split; [done|]. exists status, headerBlock, body.
      split; [done|].
      destruct (Hrun Ha) as [Hmsg _]. rewrite Hmsg0 in Hmsg.
      destruct Hsub as [(Hin & Hge & Hres)|(Hno & Hres & Hh & Hb)].
      * left. apply Hfo in Hin. split; [done|]. split; [done|].
        split; [|by rewrite Hres].
        assert (res r ≠ CURLE_OK) as Hfail by (by rewrite Hres).
        destruct (capture_failed r (ts_callback st) Hfail) as (_ & Hcode & Herr & Hne).
        rewrite bool_decide_eq_true_2 by (by rewrite Hce).
        unfold ResponseErrorCB. rewrite Hce, Hcc, Hcode, Herr, Hres, Hmsg, Hrc.
        by rewrite !bool_decide_eq_true_2 by done.
      * right. split; [by rewrite <- Hfo|]. split; [|by rewrite Hres].
        destruct (capture_ok r (ts_callback st) Hres)
          as (Hsr & Herr & Hcode & Hhdr & Hresp).
        rewrite bool_decide_eq_false_2 by (rewrite Hce, Herr, Hmsg; by intros ?).
        unfold assemble, decoded_body.
        assert (downloadFilePath (params (cleanup (capture r (ts_callback st))))
                = downloadFilePath (params rq.1)) as Hdl'.
        { destruct (cleanup_spec (capture r (ts_callback st))) as ((_ & _ & <- & _) & _).
          destruct Hsr as (_ & _ & <- & _). done. }
        rewrite Hdl', Hcc, Hch, Hcr, Hcode, Hhdr, Hresp, Hrc, Hh, Hb, Hdl.
        destruct (decide (downloadFilePath (params rq.1) = "")) as [He|Hne].
        -- rewrite (bool_decide_eq_true_2 _ (proj2 Hwc He)). done.
        -- rewrite (bool_decide_eq_true_2 _ Hne). done.
Qed.

(** ** The cancel rejection *)

(** C10.  The hook returns non-zero only with the message "Request canceled
    by user" stored in the request state; on a failed transfer the result
    capture keeps a message that is already there and takes the transport's
    description only for an empty one.  Hence a request whose transfer the
    hook interrupted is rejected with code 42 (aborted by callback) and
    exactly that message. *)
Theorem canceled_request_rejection
    (o : HttpRequestOptions) (w : World) (m : CancelMap)
    (cb : RequestCallbackData) (opts : list CurlOpt) :
  configure w (Request o (files w) m).1 = inr (cb, opts) →
  ts_aborted (transfer (progress_wired opts) (events (script w)) cb
                (Request o (files w) m).2 []) = true →
  (∀ callback m' t,
     hook_rc (progress_callback callback m' t) ≠ 0 →
     errorMsg (params (hook_callback (progress_callback callback m' t)))
       = "Request canceled by user")
  ∧ (∀ r callback,
       res r ≠ CURLE_OK →
       errorMsg (params (capture r callback)) =
         if bool_decide (errorMsg (params callback) = "")
         then curl_easy_strerror (res r) else errorMsg (params callback))
  ∧ errorMsg (params (ts_callback
       (transfer (progress_wired opts) (events (script w)) cb
          (Request o (files w) m).2 []))) = "Request canceled by user"
  ∧ settlement (run o w m) = rejected 42 "Request canceled by user"
  ∧ curl_code (run o w m) = Some 42.
Proof.
  intros Hc Ha. split; [|split; [|split]].
  - intros callback m' t Hrc.
    destruct (progress_callback_spec callback m' t) as [_ Hr]. cbv zeta in Hr.
    destruct Hr as [(_ & _ & _ & _ & Hmsg)|(Hz & _)]; [exact Hmsg|].
    by rewrite Hz in Hrc.
  - intros r callback Hfail. by apply capture_failed.
  - destruct (transfer_spec (progress_wired opts) (events (script w)) cb
                (Request o (files w) m).2 []) as (_ & _ & Hab & _).
    by destruct (Hab Ha) as (_ & _ & Hmsg & _).
  - exact (run_aborted o w m cb opts Hc Ha).
Qed.

Lemma canceled_request_rejection_witness :
  settlement (run (download_options "/data/a.bin" (js_number 7))
                canceled_download_world ∅)
    = rejected 42 "Request canceled by user".
Proof.
  refine (proj1 (proj2 (proj2 (proj2
    (canceled_request_rejection
       (download_options "/data/a.bin" (js_number 7)) canceled_download_world ∅
       (on_params (set_downloadFile (Some ios_out_binary))
          (Request (download_options "/data/a.bin" (js_number 7))
             (files canceled_download_world) ∅).1)
       [CURLOPT_NOPROGRESS 0; CURLOPT_XFERINFOFUNCTION; CURLOPT_FOLLOWLOCATION;
        CURLOPT_HTTPGET; CURLOPT_WRITEFUNCTION WriteDownloadCallback;
        CURLOPT_FAILONERROR] _ _))))).
  - vm_compute. reflexivity.
  - vm_compute. reflexivity.
Defined.

(** ** HTTP error statuses *)

(** C9.  A request without a download path whose session was configured
    does not carry the fail-on-error option; when its exchange completes
    with status [status] (the transfer was not interrupted), the promise is
    resolved with [status] as the response code, whatever the status is.
    For every request the option is set exactly when a download path is, and
    the transport's returned-error result, the only one that surfaces the
    HTTP status as an error code, occurs only with a download path. *)
Theorem status_resolved_without_download
    (o : HttpRequestOptions) (w : World) (m : CancelMap)
    (cb : RequestCallbackData) (opts : list CurlOpt)
    (status : Z) (headerBlock body : string) :
  downloadFilePath (params (Request o (files w) m).1) = "" →
  configure w (Request o (files w) m).1 = inr (cb, opts) →
  wire (script w) = wire_exchange status headerBlock body →
  ts_aborted (transfer (progress_wired opts) (events (script w)) cb
                (Request o (files w) m).2 []) = false →
  (CURLOPT_FAILONERROR ∉ opts)
  ∧ settlement (run o w m)
      = resolved status (ParseHeaders headerBlock) (decoded_body headerBlock "" body)
  ∧ (∀ o' w' m' cb' opts',
       configure w' (Request o' (files w') m').1 = inr (cb', opts') →
       (CURLOPT_FAILONERROR ∈ opts'
        ↔ downloadFilePath (params (Request o' (files w') m').1) ≠ ""))
  ∧ (∀ o' w' m',
       curl_code (run o' w' m') = Some CURLE_HTTP_RETURNED_ERROR →
       downloadFilePath (params (parsed (run o' w' m'))) ≠ "").
Proof.
  intros Hdl Hc Hwire Ha. split; [|split; [|split]].
  - destruct (configure_spec _ _ _ _ Hc) as (_ & _ & _ & _ & _ & Hfo & _).
    cbv zeta in Hfo. rewrite Hfo. by intros ?.
  - destruct (run_cases o w m) as [(failed & Hc' & _)|(cb' & opts' & Hc' & _ & Hcases)];
      cbv zeta in *; [congruence|].
    rewrite Hc in Hc'. injection Hc' as <- <-.
    destruct Hcases as [(Ha' & _)|[(_ & e & Hw' & _)|
      (_ & st' & h' & b' & Hw' & Hsub)]]; [congruence..|].
    rewrite Hwire in Hw'. injection Hw' as <- <- <-.
    destruct Hsub as [(Hne & _)|(_ & Hs & _)]; [done|].
    by rewrite Hdl in Hs.
  - intros o' w' m' cb' opts' Hc'.
    by destruct (configure_spec _ _ _ _ Hc') as (_ & _ & _ & _ & _ & Hfo & _).
  - intros o' w' m' Hcode.
    assert (parsed (run o' w' m') = (Request o' (files w') m').1) as ->.
    { by rewrite run_unfold. }
    destruct (run_cases o' w' m')
      as [(failed & _ & _ & _ & _ & Hn)|(cb' & opts' & _ & _ & Hcases)];
      cbv zeta in *; [congruence|].
    destruct Hcases as [(_ & _ & Hcc)|[(_ & e & _ & _ & Hcc)|
      (_ & st' & h' & b' & _ & Hsub)]].
    + rewrite Hcc in Hcode. done.
    + rewrite Hcc in Hcode. injection Hcode as Hcode.
      by destruct (net_code_not_special e) as (_ & ? & _).
    + destruct Hsub as [(Hne & _)|(_ & _ & Hcc)]; [done|].
      rewrite Hcc in Hcode. done.
Qed.

Lemma status_resolved_without_download_witness :
  settlement (run (plain_options "GET" js_undefined)
                (world_of (disk []) [] (wire_exchange 404 "Content-Type: text/plain" "gone"))
                ∅)
    = resolved 404 {[ "Content-Type" := "text/plain" ]} (body_string "gone").
Proof.
  refine (proj1 (proj2
    (status_resolved_without_download
       (plain_options "GET" js_undefined)
       (world_of (disk []) [] (wire_exchange 404 "Content-Type: text/plain" "gone")) ∅
       (Request (plain_options "GET" js_undefined) (disk []) ∅).1
       [CURLOPT_HTTPGET; CURLOPT_WRITEFUNCTION WriteCallback]
       404 "Content-Type: text/plain" "gone" _ _ _ _))).
  - reflexivity.
  - vm_compute. reflexivity.
  - reflexivity.
  - reflexivity.
Defined.

(** ** Body decoding *)


(** The header map under one name, and the search in its value, in terms of
    the lines of the header block and of substrings. *)
Lemma parse_header_line_entry (headers : gmap string string) line :
  parse_header_line headers line =
    match header_of_line line with
    | Some (key, value) => <[key := value]> headers
    | None => headers
    end.
Proof. unfold parse_header_line, header_of_line. by destruct (find line ":"). Qed.

Lemma foldl_parse_last (lines : list string) (k v : string) :
  foldl parse_header_line ∅ lines !! k = Some v
  ↔ ∃ before line after,
      lines = before ++ line :: after
      ∧ header_of_line line = Some (k, v)
      ∧ Forall (λ l, ∀ v', header_of_line l ≠ Some (k, v')) after.
Proof.
  induction lines as [|l lines IH] using rev_ind.
  - split; [done|]. intros (before & line & after & Heq & _).
    by destruct before.
  - rewrite foldl_app. cbn [foldl]. rewrite parse_header_line_entry.
    destruct (header_of_line l) as [[k' v']|] eqn:Hl.
    + destruct (decide (k' = k)) as [->|Hne].
      * rewrite lookup_insert_eq. split.
        -- intros [= <-]. exists lines, l, []. by repeat split.
        -- intros (before & line & after & Heq & Hline & Hafter).
           destruct after as [|a after _] using rev_ind.
           ++ apply app_inj_tail in Heq as [_ <-]. congruence.
           ++ rewrite app_comm_cons, app_assoc in Heq.
              apply app_inj_tail in Heq as [_ <-].
              rewrite Forall_app, Forall_singleton in Hafter.
              destruct Hafter as [_ Ha]. by destruct (Ha v').
      * rewrite lookup_insert_ne by done. rewrite IH. split.
        -- intros (before & line & after & -> & Hline & Hafter).
           exists before, line, (after ++ [l]).
           split; [by rewrite <- app_assoc|]. split; [done|].
           rewrite Forall_app, Forall_singleton. split; [done|].
           intros v''. congruence.
        -- intros (before & line & after & Heq & Hline & Hafter).
           destruct after as [|a after _] using rev_ind.
           ++ apply app_inj_tail in Heq as [_ <-]. congruence.
           ++ rewrite app_comm_cons, app_assoc in Heq.
              apply app_inj_tail in Heq as [-> <-].
              apply Forall_app in Hafter as [Hafter _]. by exists before, line, after.
    + rewrite IH. split.
      * intros (before & line & after & -> & Hline & Hafter).
        exists before, line, (after ++ [l]).
        split; [by rewrite <- app_assoc|]. split; [done|].
        rewrite Forall_app, Forall_singleton. split; [done|].
        intros v''. congruence.
      * intros (before & line & after & Heq & Hline & Hafter).
        destruct after as [|a after _] using rev_ind.
        -- apply app_inj_tail in Heq as [_ <-]. congruence.
        -- rewrite app_comm_cons, app_assoc in Heq.
           apply app_inj_tail in Heq as [-> <-].
           apply Forall_app in Hafter as [Hafter _]. by exists before, line, after.
Qed.






(** Later header lines overwrite earlier ones with the same name; names and
    values are trimmed; lines without a colon are skipped. *)
Example ParseHeaders_last_wins :
  ParseHeaders "HTTP/1.1 200 OK
 X-Tag :  one 
X-Tag: two
" = {[ "X-Tag" := "two" ]}.
Proof. vm_compute. reflexivity. Qed.

(** ** Progress throttling *)

(** The truncated count of seconds is at least one exactly when a full
    second has passed. *)
Lemma elapsed_seconds_ge_1 now_ last :
  1 ≤ elapsed_seconds now_ last ↔ 1000000000 ≤ now_ - last.
Proof.
  unfold elapsed_seconds.
  destruct (Z_lt_le_dec (now_ - last) 0) as [Hneg|Hpos].
  - split; [|lia]. intros H.
    assert ((now_ - last) ÷ 1000000000 ≤ 0); [|lia].
    apply Z.quot_le_upper_bound; lia.
  - rewrite Z.quot_div_nonneg by lia. split; intros H.
    + assert (1000000000 * ((now_ - last) `div` 1000000000) ≤ now_ - last)
        by (apply Z.mul_div_le; lia). lia.
    + apply Z.div_le_lower_bound; lia.
Qed.

Section Throttling.

(** One tick and the request state it finds. *)
Variables (t : Tick) (callback : RequestCallbackData).

Lemma report_upload_emits :
  (report_upload t callback).2 ≠ []
  ↔ (uploadFilePath (params callback) ≠ "" ∨ formData (params callback) ≠ [])
    ∧ tsfn callback = true
    ∧ stated_emit (lastProgress (params callback)) (lastTime (params callback))
        (now t) (ulnow t) (ultotal t).
Proof.
  unfold report_upload, stated_emit.
  destruct (_ && _) eqn:Hc; cbn [snd].
  - split; [intros _|done].
    rewrite !andb_true_iff, !orb_true_iff, !bool_decide_eq_true in Hc.
    rewrite elapsed_seconds_ge_1 in Hc.
    destruct Hc as ((((? & ?) & ?) & ?) & ?). repeat split; try done; try congruence.
  - split; [done|]. intros (Hsrc & Hts & Hpos & Hne & Hwhen).
    apply not_true_iff_false in Hc. destruct Hc.
    rewrite !andb_true_iff, !orb_true_iff, !bool_decide_eq_true.
    rewrite elapsed_seconds_ge_1. repeat split; try done; try congruence.
Qed.

Lemma report_download_emits :
  (report_download t callback).2 ≠ []
  ↔ downloadFilePath (params callback) ≠ ""
    ∧ tsfn callback = true
    ∧ stated_emit (lastProgress (params callback)) (lastTime (params callback))
        (now t) (dlnow t) (dltotal t).
Proof.
  unfold report_download, stated_emit.
  destruct (_ && _) eqn:Hc; cbn [snd].
  - split; [intros _|done].
    rewrite !andb_true_iff, !orb_true_iff, !bool_decide_eq_true in Hc.
    rewrite elapsed_seconds_ge_1 in Hc.
    destruct Hc as ((((? & ?) & ?) & ?) & ?). repeat split; try done; try congruence.
  - split; [done|]. intros (Hsrc & Hts & Hpos & Hne & Hwhen).
    apply not_true_iff_false in Hc. destruct Hc.
    rewrite !andb_true_iff, !orb_true_iff, !bool_decide_eq_true.
    rewrite elapsed_seconds_ge_1. repeat split; try done; try congruence.
Qed.

Lemma report_upload_effect :
  ((report_upload t callback).2 ≠ [] →
     (report_upload t callback).2 = [mkProgressData (ulnow t) (ultotal t)]
     ∧ lastProgress (params (report_upload t callback).1) = ulnow t
     ∧ lastTime (params (report_upload t callback).1) = now t)
  ∧ ((report_upload t callback).2 = [] → (report_upload t callback).1 = callback).
Proof. unfold report_upload. by destruct (_ && _). Qed.

Lemma report_download_effect :
  ((report_download t callback).2 ≠ [] →
     (report_download t callback).2
       = [mkProgressData (resumeFromOffset (params callback) + dlnow t)
            (resumeFromOffset (params callback) + dltotal t)]
     ∧ lastProgress (params (report_download t callback).1) = dlnow t
     ∧ lastTime (params (report_download t callback).1) = now t)
  ∧ ((report_download t callback).2 = [] → (report_download t callback).1 = callback).
Proof. unfold report_download. by destruct (_ && _). Qed.

(** A cancellable request with a progress callback and no file path: a
    download sample that satisfies the stated rule is not forwarded. *)
Lemma progress_rule_needs_file_path :
  lastProgress (params (Request progress_only_options (disk []) ∅).1) = 0
  ∧ lastTime (params (Request progress_only_options (disk []) ∅).1) = 0
  ∧ stated_emit 0 0 5000000000 10 100
  ∧ tsfn (Request progress_only_options (disk []) ∅).1 = true
  ∧ hook_forwarded
      (progress_callback (Request progress_only_options (disk []) ∅).1
         (Request progress_only_options (disk []) ∅).2
         (sample_tick 5000000000 100 10 0 0)) = [].
Proof.
  split; [reflexivity|]. split; [reflexivity|].
  split; [|split; reflexivity].
  unfold stated_emit. lia.
Qed.

(** C2 (amended).  A sample of a direction is forwarded to the progress
    callback exactly when the direction has its file source (upload: an
    upload path or multipart fields; download: a download path), a progress
    callback is registered, the total is positive, the byte count differs
    from the stored last count, and a full second has passed since the
    stored time or the count equals the total.  An emission forwards one
    sample and stores the count and the clock reading of the tick; without
    an emission the state is untouched.  The hook forwards the upload sample
    first, then the download sample judged on the state the upload block
    left. *)
Theorem progress_emission_rule :
  let p := params callback in
  let up := report_upload t callback in
  let down := report_download t callback in
  (up.2 ≠ []
   ↔ (uploadFilePath p ≠ "" ∨ formData p ≠ []) ∧ tsfn callback = true
     ∧ stated_emit (lastProgress p) (lastTime p) (now t) (ulnow t) (ultotal t))
  ∧ (down.2 ≠ []
     ↔ downloadFilePath p ≠ "" ∧ tsfn callback = true
       ∧ stated_emit (lastProgress p) (lastTime p) (now t) (dlnow t) (dltotal t))
  ∧ (up.2 ≠ [] →
       up.2 = [mkProgressData (ulnow t) (ultotal t)]
       ∧ lastProgress (params up.1) = ulnow t ∧ lastTime (params up.1) = now t)
  ∧ (down.2 ≠ [] →
       down.2 = [mkProgressData (resumeFromOffset p + dlnow t)
                   (resumeFromOffset p + dltotal t)]
       ∧ lastProgress (params down.1) = dlnow t ∧ lastTime (params down.1) = now t)
  ∧ (up.2 = [] → up.1 = callback)
  ∧ (down.2 = [] → down.1 = callback)
  ∧ (∀ m, hook_forwarded (progress_callback callback m t)
          = up.2 ++ (report_download t up.1).2).
Proof.
  cbv zeta.
  split; [apply report_upload_emits|]. split; [apply report_download_emits|].
  split; [apply report_upload_effect|]. split; [apply report_download_effect|].
  split; [apply report_upload_effect|]. split; [apply report_download_effect|].
  intros m. by rewrite progress_callback_unfold.
Qed.

End Throttling.

(** ** Order of reporting and poll *)

(** A tick on which the poll finds the flag still forwards its sample. *)
Lemma canceled_tick_forwards_sample :
  hook_rc (progress_callback flagged_download {[ 9 := true ]}
             (sample_tick 5000000000 100 10 0 0)) = 1
  ∧ hook_forwarded (progress_callback flagged_download {[ 9 := true ]}
                      (sample_tick 5000000000 100 10 0 0))
    = [mkProgressData 10 100].
Proof. split; vm_compute; reflexivity. Qed.

(** C5 (amended).  Within a tick the two reporting blocks run first and
    the poll of the cancellation map runs last.  What a tick forwards does
    not depend on the map; the hook returns non-zero exactly when the
    request has a non-zero id whose flag is raised, and then it returns 1
    with the entry erased and the cancel message stored, on top of the state
    the reporting blocks left.  A non-zero return ends the transfer at that
    tick, later events are not processed, and the request is rejected: a
    configured request whose transfer was interrupted never resolves. *)
Theorem poll_follows_reporting (callback : RequestCallbackData) (m : CancelMap)
    (t : Tick) :
  let r := progress_callback callback m t in
  let id := requestId (params callback) in
  let reported := (report_download t (report_upload t callback).1).1 in
  (∀ m', hook_forwarded (progress_callback callback m' t) = hook_forwarded r)
  ∧ (hook_rc r ≠ 0 ↔ id ≠ 0 ∧ m !! id = Some true)
  ∧ (hook_rc r ≠ 0 →
       hook_rc r = 1 ∧ hook_map r = delete id m
       ∧ hook_callback r = on_params (set_errorMsg canceled_message) reported)
  ∧ (hook_rc r = 0 → hook_map r = m ∧ hook_callback r = reported)
  ∧ (∀ evs f,
       hook_rc r ≠ 0 →
       transfer true (ev_tick t :: evs) callback m f
         = mkTransferState true (hook_callback r) (hook_map r)
             (f ++ hook_forwarded r))
  ∧ (∀ o w m0 cb opts,
       configure w (Request o (files w) m0).1 = inr (cb, opts) →
       ts_aborted (transfer (progress_wired opts) (events (script w)) cb
                     (Request o (files w) m0).2 []) = true →
       settlement (run o w m0)
         = rejected CURLE_ABORTED_BY_CALLBACK canceled_message).
Proof.
  cbv zeta.
  assert (requestId (params (report_download t (report_upload t callback).1).1)
          = requestId (params callback)) as Hid.
  { destruct (report_upload_same t callback) as [(_&_&_&_&_& -> &_) _].
    by destruct (report_download_same t (report_upload t callback).1)
      as [(_&_&_&_&_& -> &_) _]. }
  split; [|split; [|split; [|split; [|split]]]].
  - intros m'. by rewrite !progress_callback_unfold.
  - rewrite progress_callback_unfold. cbv zeta. cbn [hook_rc].
    destruct (check_canceled_spec (report_download t (report_upload t callback).1).1 m)
      as [(? & ? & ->)|(? & ->)]; rewrite Hid in *; cbn [fst]; split; try done.
  - rewrite progress_callback_unfold. cbv zeta. cbn [hook_rc hook_map hook_callback].
    destruct (check_canceled_spec (report_download t (report_upload t callback).1).1 m)
      as [(? & ? & ->)|(? & ->)]; rewrite Hid in *; cbn [fst snd]; done.
  - rewrite progress_callback_unfold. cbv zeta. cbn [hook_rc hook_map hook_callback].
    destruct (check_canceled_spec (report_download t (report_upload t callback).1).1 m)
      as [(? & ? & ->)|(? & ->)]; cbn [fst snd]; done.
  - intros evs f Hrc. cbn [transfer]. by rewrite bool_decide_eq_true_2.
  - intros o w m0 cb opts Hc Ha. by destruct (run_aborted o w m0 cb opts Hc Ha).
Qed.

(** ** One throttling state for both directions *)

(** A request that uploads a file and stores the response in a file: on
    its own the download sample of this tick would be forwarded, but the
    upload emission of the same tick rewrites the stored count and time, and
    the download sample is dropped. *)
Lemma upload_emission_suppresses_download :
  (report_download (sample_tick 5000000000 100 10 100 50) both_ways).2
    = [mkProgressData 10 100]
  ∧ (report_upload (sample_tick 5000000000 100 10 100 50) both_ways).2
    = [mkProgressData 50 100]
  ∧ lastProgress (params both_ways) = 0
  ∧ lastProgress
      (params (report_upload (sample_tick 5000000000 100 10 100 50) both_ways).1) = 50
  ∧ hook_forwarded
      (progress_callback both_ways ∅ (sample_tick 5000000000 100 10 100 50))
    = [mkProgressData 50 100].
Proof. repeat split; vm_compute; reflexivity. Qed.

(** C7 (amended).  The request has a single pair of throttling fields,
    [lastProgress] and [lastTime], read and written by both directions.  An
    upload emission stores the upload count and the tick's clock reading in
    that pair; the download check of the same tick is judged against it, so
    it emits only a completed download whose count differs from the upload
    count.  A download emission likewise sets the pair that the upload check
    of any later tick consults. *)
Theorem directions_share_throttle_state (t : Tick) (callback : RequestCallbackData) :
  (report_upload t callback).2 ≠ [] →
  let cb1 := (report_upload t callback).1 in
  lastProgress (params cb1) = ulnow t
  ∧ lastTime (params cb1) = now t
  ∧ ((report_download t cb1).2 ≠ []
     ↔ downloadFilePath (params callback) ≠ "" ∧ tsfn callback = true
       ∧ 0 < dltotal t ∧ dlnow t ≠ ulnow t ∧ dlnow t = dltotal t)
  ∧ (∀ t' cb,
       (report_download t cb).2 ≠ [] →
       (report_upload t' (report_download t cb).1).2 ≠ []
       ↔ (uploadFilePath (params cb) ≠ "" ∨ formData (params cb) ≠ [])
         ∧ tsfn cb = true
         ∧ stated_emit (dlnow t) (now t) (now t') (ulnow t') (ultotal t')).
Proof.
  intros Hup. cbv zeta.
  destruct (report_upload_effect t callback) as [Heff _].
  destruct (Heff Hup) as (_ & Hlp & Hlt).
  destruct (report_upload_same t callback) as [(Hts & _ & Hdl & _) _].
  split; [done|]. split; [done|]. split.
  - rewrite report_download_emits, Hlp, Hlt, <- Hdl, <- Hts.
    unfold stated_emit. split.
    + intros (? & ? & ? & ? & [?|?]); [lia|done].
    + intros (? & ? & ? & ? & ?). repeat split; try done. by right.
  - intros t' cb Hdown.
    destruct (report_download_effect t cb) as [Heff' _].
    destruct (Heff' Hdown) as (_ & Hlp' & Hlt').
    destruct (report_download_same t cb) as [(Hts' & _ & _ & Hul & _ & _ & Hfd) _].
    by rewrite report_upload_emits, Hlp', Hlt', <- Hul, <- Hfd, <- Hts'.
Qed.

Lemma directions_share_throttle_state_witness :
  lastProgress
    (params (report_upload (sample_tick 5000000000 100 10 100 50) both_ways).1) = 50
  ∧ lastTime
      (params (report_upload (sample_tick 5000000000 100 10 100 50) both_ways).1)
    = 5000000000.
Proof.
  assert ((report_upload (sample_tick 5000000000 100 10 100 50) both_ways).2 ≠ [])
    as H by (vm_compute; discriminate).
  split.
  - exact (proj1 (directions_share_throttle_state
                    (sample_tick 5000000000 100 10 100 50) both_ways H)).
  - exact (proj1 (proj2 (directions_share_throttle_state
                           (sample_tick 5000000000 100 10 100 50) both_ways H))).
Defined.

(** ** Resuming a download *)




(** ** Methods outside GET, POST, PUT, DELETE *)

(** Any method string other than the three that select an option of their
    own falls through to the plain GET option. *)
Lemma method_opts_fallthrough p :
  method p ≠ "POST" → method p ≠ "PUT" → method p ≠ "DELETE" →
  method_opts p = [CURLOPT_HTTPGET].
Proof.
  intros H1 H2 H3. unfold method_opts.
  by rewrite !bool_decide_eq_false_2 by done.
Qed.

(** C6 (evaluation of the code).  A request with method "PATCH" is not
    rejected: its session is configured with the plain GET option, the
    transfer runs, and the promise is resolved with the server's answer. *)
Theorem patch_request_runs_as_get :
  method (params (parsed (run (plain_options "PATCH" js_undefined)
                            (world_of (disk []) [] (wire_exchange 200 "" "ok")) ∅)))
    = "PATCH"
  ∧ session (run (plain_options "PATCH" js_undefined)
               (world_of (disk []) [] (wire_exchange 200 "" "ok")) ∅)
    = Some [CURLOPT_HTTPGET; CURLOPT_WRITEFUNCTION WriteCallback]
  ∧ settlement (run (plain_options "PATCH" js_undefined)
                  (world_of (disk []) [] (wire_exchange 200 "" "ok")) ∅)
    = resolved 200 ∅ (body_string "ok").
Proof. repeat split; vm_compute; reflexivity. Qed.

(** ** Registering the id 0 *)

(** C8 (evaluation of the code).  When the [requestID] property is the
    number 0, [Request] inserts an entry for 0 with a lowered flag, and the
    entry is still in the map after the request has settled: neither the
    poll nor the final clearing touches the id 0. *)
Theorem zero_id_is_registered (o : HttpRequestOptions) (w : World) (m : CancelMap) :
  opt_requestID o = js_number 0 →
  (Request o (files w) m).2 = <[0 := false]> m
  ∧ requestId (params (Request o (files w) m).1) = 0
  ∧ is_Some (final_map (run o w m) !! 0).
Proof.
  intros Hid.
  destruct (Request_spec o (files w) m) as (_ & _ & _ & _ & _ & Hrid & Hmap).
  cbv zeta in Hrid, Hmap. rewrite Hid in Hrid, Hmap.
  change (napi_get_value_int32 (js_number 0)) with (Some 0) in Hrid, Hmap.
  change (requestId (params (Request o (files w) m).1) = 0) in Hrid.
  split; [done|]. split; [done|].
  rewrite run_unfold. cbv zeta. cbn [final_map]. rewrite CompleteCB_ok. cbn [snd].
  pose proof (ExecuteRequest_same w (Request o (files w) m).1 (Request o (files w) m).2)
    as (_ & _ & _ & _ & _ & Hsame & _).
  rewrite <- Hsame, Hrid. rewrite bool_decide_eq_false_2 by (by intros ?).
  destruct (configure w (Request o (files w) m).1) as [failed|[cb opts]] eqn:Hc.
  - rewrite (ExecuteRequest_inl _ _ _ _ Hc). cbn [exec_map].
    rewrite Hmap, lookup_insert_eq. eauto.
  - rewrite (ExecuteRequest_inr _ _ _ _ _ Hc). cbn [exec_map].
    destruct (curl_easy_perform_spec opts (script w) cb (Request o (files w) m).2)
      as [-> _].
    destruct (configure_spec _ _ _ _ Hc) as ((_ & _ & _ & _ & _ & Hcid & _) & _).
    destruct (transfer_spec (progress_wired opts) (events (script w)) cb
                (Request o (files w) m).2 []) as (_ & _ & _ & Hkeep).
    apply Hkeep; [right; congruence|].
    rewrite Hmap, lookup_insert_eq. eauto.
Qed.

Lemma zero_id_is_registered_witness :
  (Request (plain_options "GET" (js_number 0)) (disk []) ∅).2 = {[ 0 := false ]}
  ∧ final_map (run (plain_options "GET" (js_number 0))
                 (world_of (disk []) [ev_tick (sample_tick 1000000000 10 10 0 0)]
                    (wire_exchange 200 "" "ok")) ∅) !! 0 = Some false.
Proof.
  split.
  - exact (proj1 (zero_id_is_registered (plain_options "GET" (js_number 0))
                    (world_of (disk []) [ev_tick (sample_tick 1000000000 10 10 0 0)]
                       (wire_exchange 200 "" "ok")) ∅ eq_refl)).
  - vm_compute. reflexivity.
Defined.

(** * Further properties of the engine *)

(** ** Failures before the transfer *)

Lemma configure_cases w callback :
  let p := params callback in
  let upload_unreadable :=
    uploadFilePath p ≠ "" ∧ readable (files w) !! uploadFilePath p = None in
  let download_unwritable :=
    downloadFilePath p ≠ "" ∧ downloadFilePath p ∉ writable (files w) in
  (curl_easy_init_ok w = false
   ∧ configure w callback = inl (fail_with "Curl initialization failed" 102 callback))
  ∨ (curl_easy_init_ok w = true ∧ upload_unreadable
     ∧ ∃ failed, configure w callback = inl failed
         ∧ errorMsg (params failed) = "Failed to open file for upload"
         ∧ responseCode (params failed) = 101
         ∧ uploadFile (params failed) = true)
  ∨ (curl_easy_init_ok w = true ∧ ¬ upload_unreadable ∧ download_unwritable
     ∧ ∃ failed, configure w callback = inl failed
         ∧ errorMsg (params failed) = "Failed to open downloadFile"
         ∧ responseCode (params failed) = 101
         ∧ is_Some (downloadFile (params failed)))
  ∨ (curl_easy_init_ok w = true ∧ ¬ upload_unreadable ∧ ¬ download_unwritable
     ∧ ∃ cb opts, configure w callback = inr (cb, opts)).
Proof.
  cbv zeta. unfold configure. destruct (curl_easy_init_ok w); [|by left].
  right. unfold upload_setup. case_bool_decide as Hu.
  - destruct (readable (files w) !! uploadFilePath (params callback)) eqn:Hr.
    + right. unfold download_setup.
      cbn [on_params params set_uploadFile downloadFilePath resumeFromOffset].
      case_bool_decide as Hd.
      * case_bool_decide as Hw.
        -- right. split; [done|]. split; [by intros [_ ?]|].
           split; [by intros [_ ?]|]. eauto.
        -- left. split; [done|]. split; [by intros [_ ?]|]. split; [done|].
           eexists. split; [done|]. cbn. eauto.
      * right. split; [done|]. split; [by intros [_ ?]|].
        split; [by intros [? _]|]. eauto.
    + left. split; [done|]. split; [done|]. eexists. split; [done|]. by cbn.
  - right. unfold download_setup. case_bool_decide as Hd.
    + case_bool_decide as Hw.
      * right. split; [done|]. split; [by intros [? _]|].
        split; [by intros [_ ?]|]. eauto.
      * left. split; [done|]. split; [by intros [? _]|]. split; [done|].
        eexists. split; [done|]. cbn. eauto.
    + right. split; [done|]. split; [by intros [? _]|].
      split; [by intros [? _]|]. eauto.
Qed.

(** X1.  A request fails before any transfer exactly when the session cannot be
    created, the upload file cannot be opened for reading, or the download
    target cannot be opened for writing, checked in this order.  The promise
    is then rejected with 102 / 101 and the fixed message of the failing
    step; nothing is transferred and no sample is forwarded. *)
Theorem setup_failure_outcomes (o : HttpRequestOptions) (w : World) (m : CancelMap) :
  let p := params (Request o (files w) m).1 in
  let upload_unreadable :=
    uploadFilePath p ≠ "" ∧ readable (files w) !! uploadFilePath p = None in
  let download_unwritable :=
    downloadFilePath p ≠ "" ∧ downloadFilePath p ∉ writable (files w) in
  (curl_easy_init_ok w = false →
     settlement (run o w m) = rejected 102 "Curl initialization failed")
  ∧ (curl_easy_init_ok w = true → upload_unreadable →
       settlement (run o w m) = rejected 101 "Failed to open file for upload")
  ∧ (curl_easy_init_ok w = true → ¬ upload_unreadable → download_unwritable →
       settlement (run o w m) = rejected 101 "Failed to open downloadFile")
  ∧ (session (run o w m) = None
     ↔ curl_easy_init_ok w = false ∨ upload_unreadable ∨ download_unwritable)
  ∧ (session (run o w m) = None →
       forwarded (run o w m) = [] ∧ curl_code (run o w m) = None).
Proof.
  cbv zeta.
  pose proof (configure_cases w (Request o (files w) m).1) as Hcfg. cbv zeta in Hcfg.
  pose proof (run_cases o w m) as Hrun. cbv zeta in Hrun.
  assert (∀ failed, configure w (Request o (files w) m).1 = inl failed →
            settlement (run o w m)
              = rejected (responseCode (params failed)) (errorMsg (params failed))
            ∧ session (run o w m) = None ∧ forwarded (run o w m) = []
            ∧ curl_code (run o w m) = None) as Hinl.
  { intros failed Hc.
    destruct Hrun as [(f' & Hc' & Hs & _ & Hse & Hcc)|(cb & opts & Hc' & _)];
      [|congruence].
    rewrite Hc in Hc'. injection Hc' as <-. repeat split; try done.
    rewrite run_unfold. cbv zeta. cbn [forwarded].
    by rewrite (ExecuteRequest_inl _ _ _ _ Hc). }
  assert (∀ cb opts, configure w (Request o (files w) m).1 = inr (cb, opts) →
            session (run o w m) = Some opts) as Hinr.
  { intros cb opts Hc.
    destruct Hrun as [(f' & Hc' & _)|(cb' & opts' & Hc' & Hse & _)]; [congruence|].
    rewrite Hc in Hc'. by injection Hc' as <- <-. }
  destruct Hcfg as [(Hi & Hc)|[(Hi & Hu & failed & Hc & Hm & Hr & _)|
    [(Hi & Hnu & Hd & failed & Hc & Hm & Hr & _)|(Hi & Hnu & Hnd & cb & opts & Hc)]]].
  - destruct (Hinl _ Hc) as (Hs & Hse & Hf & Hcc).
    split; [by intros _|]. split; [congruence|]. split; [congruence|].
    split; [|done]. split; [by left|done].
  - destruct (Hinl _ Hc) as (Hs & Hse & Hf & Hcc). rewrite Hm, Hr in Hs.
    split; [congruence|]. split; [done|]. split; [done|].
    split; [|done]. split; [by right; left|done].
  - destruct (Hinl _ Hc) as (Hs & Hse & Hf & Hcc). rewrite Hm, Hr in Hs.
    split; [congruence|]. split; [done|]. split; [done|].
    split; [|done]. split; [by right; right|done].
  - rewrite (Hinr _ _ Hc).
    split; [congruence|]. split; [done|]. split; [done|].
    split; [|done]. split; [done|]. intros [?|[?|?]]; [congruence|done..].
Qed.

(** X2.  Every performed transfer ends with both stream pointers reset; an early
    return after a failed open leaves the pointer of the stream that failed
    set, the cleanup block is not reached. *)
Theorem streams_reset_only_after_transfer (w : World) (callback : RequestCallbackData)
    (m : CancelMap) :
  let e := ExecuteRequest w callback m in
  let p := params callback in
  (is_Some (exec_session e) →
     downloadFile (params (exec_callback e)) = None
     ∧ uploadFile (params (exec_callback e)) = false)
  ∧ (curl_easy_init_ok w = true → uploadFilePath p ≠ "" →
       readable (files w) !! uploadFilePath p = None →
       exec_session e = None ∧ uploadFile (params (exec_callback e)) = true)
  ∧ (curl_easy_init_ok w = true →
       ¬ (uploadFilePath p ≠ "" ∧ readable (files w) !! uploadFilePath p = None) →
       downloadFilePath p ≠ "" → downloadFilePath p ∉ writable (files w) →
       exec_session e = None ∧ is_Some (downloadFile (params (exec_callback e)))
       ∧ (uploadFilePath p ≠ "" → uploadFile (params (exec_callback e)) = true)).
Proof.
  cbv zeta. split; [|split].
  - intros [opts Hs].
    destruct (configure w callback) as [failed|[cb opts']] eqn:Hc.
    + by rewrite (ExecuteRequest_inl _ _ _ _ Hc) in Hs.
    + rewrite (ExecuteRequest_inr _ _ _ _ _ Hc). cbn [exec_callback].
      by destruct (cleanup_spec (capture (curl_easy_perform opts' (script w) cb m)
        (ts_callback (after (curl_easy_perform opts' (script w) cb m)))))
        as (_ & _ & _ & _ & _ & ? & ?).
  - intros Hi Hu Hr.
    destruct (configure_cases w callback) as [(Hi' & _)|[(_ & _ & failed & Hc & _ & _ & Hup)|
      [(_ & Hnu & _)|(_ & Hnu & _)]]]; cbv zeta in *; [congruence| |by destruct Hnu..].
    by rewrite (ExecuteRequest_inl _ _ _ _ Hc).
  - intros Hi Hnu Hd Hw.
    unfold ExecuteRequest, configure. rewrite Hi. unfold upload_setup.
    case_bool_decide as Hu.
    + destruct (readable (files w) !! uploadFilePath (params callback)) eqn:Hr;
        [|by destruct Hnu].
      unfold download_setup.
      cbn [on_params params set_uploadFile downloadFilePath resumeFromOffset].
      rewrite bool_decide_eq_true_2 by done. rewrite bool_decide_eq_false_2 by done.
      cbn. split; [done|]. split; [eauto|done].
    + unfold download_setup.
      rewrite bool_decide_eq_true_2 by done. rewrite bool_decide_eq_false_2 by done.
      cbn. split; [done|]. split; [eauto|done].
Qed.

(** ** Outcomes of a performed transfer *)

(** X3.  A download whose exchange completes is rejected with the HTTP status
    itself as the error code when the status is 400 or more, and resolved
    with that status and the marker text as body otherwise. *)
Theorem download_status_outcome
    (o : HttpRequestOptions) (w : World) (m : CancelMap)
    (cb : RequestCallbackData) (opts : list CurlOpt)
    (status : Z) (headerBlock body : string) :
  downloadFilePath (params (Request o (files w) m).1) ≠ "" →
  configure w (Request o (files w) m).1 = inr (cb, opts) →
  wire (script w) = wire_exchange status headerBlock body →
  ts_aborted (transfer (progress_wired opts) (events (script w)) cb
                (Request o (files w) m).2 []) = false →
  (400 ≤ status →
     settlement (run o w m)
       = rejected status (curl_easy_strerror CURLE_HTTP_RETURNED_ERROR))
  ∧ (status < 400 →
       settlement (run o w m)
         = resolved status (ParseHeaders headerBlock) (body_string "download finished")).
Proof.
  intros Hdl Hc Hwire Ha.
  destruct (run_cases o w m) as [(failed & Hc' & _)|(cb' & opts' & Hc' & _ & Hcases)];
    cbv zeta in *; [congruence|].
  rewrite Hc in Hc'. injection Hc' as <- <-.
  destruct Hcases as [(Ha' & _)|[(_ & e & Hw' & _)|
    (_ & st' & h' & b' & Hw' & Hsub)]]; [congruence..|].
  rewrite Hwire in Hw'. injection Hw' as <- <- <-.
  destruct Hsub as [(_ & Hge & Hs & _)|(Hno & Hs & _)].
  - split; [done|]. lia.
  - split.
    + intros Hge. destruct Hno. done.
    + intros _. rewrite Hs. unfold decoded_body.
      rewrite (bool_decide_eq_true_2 _ Hdl).
      rewrite (bool_decide_eq_false_2 (downloadFilePath _ = "")) by done.
      by rewrite andb_false_r.
Qed.

Lemma download_status_outcome_witness :
  settlement (run (download_options "/data/a.bin" js_undefined) not_found_world ∅)
    = rejected 404 (curl_easy_strerror CURLE_HTTP_RETURNED_ERROR).
Proof.
  assert (downloadFilePath
            (params (Request (download_options "/data/a.bin" js_undefined)
                       (files not_found_world) ∅).1) ≠ "") as Hdl
    by (vm_compute; discriminate).
  assert (400 ≤ 404) as Hstatus by lia.
  refine (proj1 (download_status_outcome
                   (download_options "/data/a.bin" js_undefined) not_found_world ∅
                   _ _ 404 "" "" Hdl _ eq_refl _) Hstatus).
  - vm_compute. reflexivity.
  - vm_compute. reflexivity.
Defined.

(** X4.  A connection-level failure of a performed, uninterrupted transfer is
    handed to the caller unchanged: the transport's code with the transport's
    description, never the success, HTTP-error or cancel code. *)
Theorem transport_failure_outcome
    (o : HttpRequestOptions) (w : World) (m : CancelMap)
    (cb : RequestCallbackData) (opts : list CurlOpt) (e : NetFailure) :
  configure w (Request o (files w) m).1 = inr (cb, opts) →
  wire (script w) = wire_failure e →
  ts_aborted (transfer (progress_wired opts) (events (script w)) cb
                (Request o (files w) m).2 []) = false →
  settlement (run o w m) = rejected (net_code e) (curl_easy_strerror (net_code e))
  ∧ curl_easy_strerror (net_code e) ≠ ""
  ∧ net_code e ≠ CURLE_ABORTED_BY_CALLBACK.
Proof.
  intros Hc Hwire Ha.
  destruct (run_cases o w m) as [(failed & Hc' & _)|(cb' & opts' & Hc' & _ & Hcases)];
    cbv zeta in *; [congruence|].
  rewrite Hc in Hc'. injection Hc' as <- <-.
  destruct Hcases as [(Ha' & _)|[(_ & e' & Hw' & Hs & _)|
    (_ & st' & h' & b' & Hw' & _)]]; [congruence| |congruence].
  rewrite Hwire in Hw'. injection Hw' as <-.
  split; [done|]. split; [apply curl_easy_strerror_nonempty|].
  by destruct (net_code_not_special e) as (_ & _ & ?).
Qed.

Lemma transport_failure_outcome_witness :
  settlement (run (plain_options "GET" js_undefined) refused_world ∅)
    = rejected 7 (curl_easy_strerror 7).
Proof.
  refine (proj1 (transport_failure_outcome
                   (plain_options "GET" js_undefined) refused_world ∅
                   _ _ CURLE_COULDNT_CONNECT _ eq_refl _)).
  - vm_compute. reflexivity.
  - vm_compute. reflexivity.
Defined.

(** ** Who can interrupt a transfer *)

Lemma cancelRequest_other args m id :
  (∀ n, args = [js_number n] → to_int32 n ≠ id) →
  cancelRequest args m !! id = m !! id.
Proof.
  intros Hargs. destruct args as [|[| n | |] [|]]; try done.
  rewrite cancelRequest_number. case_bool_decide; [|done].
  rewrite lookup_insert_ne; [done|]. by apply Hargs.
Qed.

Lemma transfer_not_flagged wired evs callback m f :
  m !! requestId (params callback) ≠ Some true →
  Forall (not_cancel_of (requestId (params callback))) evs →
  ts_aborted (transfer wired evs callback m f) = false.
Proof.
  intros Hm Hevs. revert callback m f Hm Hevs.
  induction evs as [|[t|args] evs IH]; intros callback m f Hm Hevs; cbn [transfer].
  - done.
  - apply Forall_cons in Hevs as [_ Hevs]. destruct wired; [|by apply IH].
    destruct (progress_callback_spec callback m t) as [Hs Hr]. cbv zeta in Hs, Hr.
    assert (requestId (params (hook_callback (progress_callback callback m t)))
            = requestId (params callback)) as Hid by (symmetry; apply Hs).
    destruct Hr as [(_ & _ & Hflag & _)|(Hrc & _ & Hmap & _)]; [done|].
    rewrite bool_decide_eq_false_2 by (rewrite Hrc; lia).
    apply IH; rewrite Hid; [by rewrite Hmap|done].
  - apply Forall_cons in Hevs as [Hev Hevs]. apply IH; [|done].
    rewrite cancelRequest_other; [done|].
    intros n ->. by apply Hev.
Qed.

(** X5.  A request is interrupted only by a cancel call made with its own id
    while it is being transferred.  A request without an id (or with id 0)
    is never interrupted, and neither is a request for whose id no cancel
    call arrives during the transfer, whatever the map held before the
    request was issued: registration lowers the flag. *)
Theorem never_canceled_without_call (o : HttpRequestOptions) (w : World) (m : CancelMap) :
  requestId (params (Request o (files w) m).1) = 0
  ∨ Forall (not_cancel_of (requestId (params (Request o (files w) m).1)))
      (events (script w)) →
  curl_code (run o w m) ≠ Some CURLE_ABORTED_BY_CALLBACK
  ∧ ∀ message, settlement (run o w m) ≠ rejected CURLE_ABORTED_BY_CALLBACK message.
Proof.
  intros Hcond.
  destruct (Request_spec o (files w) m) as (_ & _ & _ & _ & _ & Hrid & Hmap).
  cbv zeta in Hrid, Hmap.
  destruct (run_cases o w m) as [(failed & Hc & Hs & _ & _ & Hcc)|
    (cb & opts & Hc & _ & Hcases)]; cbv zeta in *.
  - split; [by rewrite Hcc|]. intros message. rewrite Hs.
    destruct (configure_cases w (Request o (files w) m).1)
      as [(_ & Hc')|[(_ & _ & f' & Hc' & _ & Hr & _)|
         [(_ & _ & _ & f' & Hc' & _ & Hr & _)|(_ & _ & _ & ? & ? & Hc')]]];
      cbv zeta in Hc'; rewrite Hc in Hc'; try done; injection Hc' as ->.
    + done.
    + by rewrite Hr.
    + by rewrite Hr.
  - destruct (configure_spec _ _ _ _ Hc) as ((_ & _ & _ & _ & _ & Hcid & _) & _).
    assert (ts_aborted (transfer (progress_wired opts) (events (script w)) cb
                          (Request o (files w) m).2 []) = false) as Hna.
    { destruct (decide (requestId (params (Request o (files w) m).1) = 0)) as [Hz|Hnz].
      - destruct (transfer_spec (progress_wired opts) (events (script w)) cb
                    (Request o (files w) m).2 []) as (_ & _ & Hab & _).
        destruct (ts_aborted _) eqn:Ha; [|done].
        destruct (Hab eq_refl) as (_ & Hne & _). by rewrite <- Hcid, Hz in Hne.
      - destruct Hcond as [?|Hevs]; [done|].
        apply transfer_not_flagged; rewrite <- Hcid; [|done].
        rewrite Hmap.
        destruct (napi_get_value_int32 (opt_requestID o)) as [id|] eqn:Hn.
        + rewrite Hrid. change (default 0 (Some id)) with id.
          by rewrite lookup_insert_eq.
        + by rewrite Hrid in Hnz. }
    destruct Hcases as [(Ha & _)|[(_ & e & _ & Hs & Hcc)|
      (_ & status & h & b & _ & [(_ & Hge & Hs & Hcc)|(_ & Hs & Hcc)])]].
    + congruence.
    + destruct (net_code_not_special e) as (_ & _ & Hn42).
      split; [rewrite Hcc; congruence|]. intros message. rewrite Hs. congruence.
    + split; [by rewrite Hcc|]. intros message. rewrite Hs.
      intros [= Hst _]. rewrite Hst in Hge. done.
    + split; [by rewrite Hcc|]. intros message. by rewrite Hs.
Qed.

Lemma never_canceled_without_call_witness :
  curl_code (run (plain_options "GET" (js_number 7)) other_cancel_world ∅)
    ≠ Some CURLE_ABORTED_BY_CALLBACK.
Proof.
  refine (proj1 (never_canceled_without_call
                   (plain_options "GET" (js_number 7)) other_cancel_world ∅ _)).
  right. repeat constructor; intros n Hev; [discriminate| |discriminate].
  injection Hev as <-. vm_compute. discriminate.
Defined.

(** ** Entries of other requests *)

Lemma cancelRequest_only_raises args (m : CancelMap) k :
  cancelRequest args m !! k = Some false → m !! k = Some false.
Proof.
  destruct (cancelRequest_cases args m) as [->|(j & _ & ->)]; [done|].
  destruct (decide (j = k)) as [->|Hne].
  - by rewrite lookup_insert_eq.
  - by rewrite lookup_insert_ne.
Qed.

Lemma transfer_other_flags wired evs callback m f k :
  k ≠ requestId (params callback) →
  let st := transfer wired evs callback m f in
  (m !! k = Some true → ts_map st !! k = Some true)
  ∧ (ts_map st !! k = Some false → m !! k = Some false).
Proof.
  intros Hk. cbv zeta. revert callback m f Hk.
  induction evs as [|[t|args] evs IH]; intros callback m f Hk; cbn [transfer].
  - done.
  - destruct wired; [|by apply IH].
    destruct (progress_callback_spec callback m t) as [Hs Hr]. cbv zeta in Hs, Hr.
    assert (requestId (params (hook_callback (progress_callback callback m t)))
            = requestId (params callback)) as Hid by (symmetry; apply Hs).
    destruct Hr as [(Hrc & _ & _ & Hmap & _)|(Hrc & _ & Hmap & _)].
    + rewrite bool_decide_eq_true_2 by (rewrite Hrc; lia). cbn [ts_map].
      by rewrite Hmap, lookup_delete_ne.
    + rewrite bool_decide_eq_false_2 by (rewrite Hrc; lia).
      specialize (IH (hook_callback (progress_callback callback m t))
                     (hook_map (progress_callback callback m t))
                     (f ++ hook_forwarded (progress_callback callback m t))).
      rewrite Hid, Hmap in IH. rewrite Hmap. by apply IH.
  - destruct (IH callback (cancelRequest args m) f Hk) as [IH1 IH2]. split.
    + intros Hm. by apply IH1, cancelRequest_keeps_true.
    + intros Hm. by apply cancelRequest_only_raises with args, IH2.
Qed.

(** X6.  One request's lifecycle leaves the entries of every other id in place:
    it neither creates nor removes them, and their flags change only from
    lowered to raised (by cancel calls made meanwhile). *)
Theorem other_entries_preserved (o : HttpRequestOptions) (w : World) (m : CancelMap)
    (k : Z) :
  k ≠ requestId (params (Request o (files w) m).1) →
  (is_Some (final_map (run o w m) !! k) ↔ is_Some (m !! k))
  ∧ (m !! k = Some true → final_map (run o w m) !! k = Some true)
  ∧ (final_map (run o w m) !! k = Some false → m !! k = Some false).
Proof.
  intros Hk.
  destruct (Request_spec o (files w) m) as (_ & _ & _ & _ & _ & Hrid & Hmap).
  cbv zeta in Hrid, Hmap.
  assert ((Request o (files w) m).2 !! k = m !! k) as Hreg.
  { rewrite Hmap. destruct (napi_get_value_int32 (opt_requestID o)) as [rid|]; [|done].
    change (default 0 (Some rid)) with rid in Hrid.
    rewrite lookup_insert_ne; [done|]. congruence. }
  rewrite run_unfold. cbv zeta. cbn [final_map]. rewrite CompleteCB_ok. cbn [snd].
  pose proof (ExecuteRequest_same w (Request o (files w) m).1 (Request o (files w) m).2)
    as (_ & _ & _ & _ & _ & Hsame & _).
  assert (∀ m' : CancelMap,
            (if bool_decide (requestId (params (exec_callback
                 (ExecuteRequest w (Request o (files w) m).1 (Request o (files w) m).2))) ≠ 0)
             then delete (requestId (params (exec_callback
                 (ExecuteRequest w (Request o (files w) m).1 (Request o (files w) m).2)))) m'
             else m') !! k = m' !! k) as Hclear.
  { intros m'. rewrite <- Hsame. case_bool_decide; [|done]. by rewrite lookup_delete_ne. }
  rewrite Hclear.
  destruct (configure w (Request o (files w) m).1) as [failed|[cb opts]] eqn:Hc.
  - rewrite (ExecuteRequest_inl _ _ _ _ Hc). cbn [exec_map]. by rewrite Hreg.
  - rewrite (ExecuteRequest_inr _ _ _ _ _ Hc). cbn [exec_map].
    destruct (curl_easy_perform_spec opts (script w) cb (Request o (files w) m).2)
      as [-> _].
    destruct (configure_spec _ _ _ _ Hc) as ((_ & _ & _ & _ & _ & Hcid & _) & _).
    rewrite Hcid in Hk.
    destruct (transfer_spec (progress_wired opts) (events (script w)) cb
                (Request o (files w) m).2 []) as (_ & _ & _ & Hdom).
    destruct (transfer_other_flags (progress_wired opts) (events (script w)) cb
                (Request o (files w) m).2 [] k Hk) as [Hup Hdown].
    rewrite <- Hreg. split; [apply Hdom; by left|]. done.
Qed.

Lemma other_entries_preserved_witness :
  final_map (run (plain_options "GET" (js_number 7)) other_cancel_world
               {[ 8 := false ]}) !! 8 = Some true
  ∧ is_Some (final_map (run (plain_options "GET" (js_number 7)) other_cancel_world
                          {[ 8 := false ]}) !! 8).
Proof.
  split; [vm_compute; reflexivity|].
  assert (8 ≠ requestId
                (params (Request (plain_options "GET" (js_number 7))
                           (files other_cancel_world) {[ 8 := false ]}).1)) as Hk
    by (vm_compute; discriminate).
  refine (proj2 (proj1 (other_entries_preserved
                          (plain_options "GET" (js_number 7)) other_cancel_world
                          {[ 8 := false ]} 8 Hk)) _).
  vm_compute. eauto.
Defined.

(** ** Repeated byte counts *)

Lemma no_repeat_snoc l y :
  no_repeat l →
  (∀ x, last l = Some x → currentSize x ≠ currentSize y) →
  no_repeat (l ++ [y]).
Proof.
  intros Hl Hlast i a b Ha Hb.
  destruct (decide (S i < length l)%nat) as [Hlt|Hge].
  - rewrite lookup_app_l in Ha by lia. rewrite lookup_app_l in Hb by lia. eauto.
  - assert (S i = length l) as Hi.
    { apply lookup_lt_Some in Hb. rewrite length_app in Hb. cbn in Hb. lia. }
    rewrite lookup_app_l in Ha by lia.
    rewrite lookup_app_r in Hb by lia. rewrite Hi, Nat.sub_diag in Hb.
    injection Hb as <-. apply Hlast. rewrite last_lookup.
    by replace (Nat.pred (length l)) with i by lia.
Qed.

Lemma transfer_no_repeat wired evs callback m f :
  downloadFilePath (params callback) = ""
  ∨ (uploadFilePath (params callback) = "" ∧ formData (params callback) = []) →
  let shift :=
    if bool_decide (downloadFilePath (params callback) = "") then 0
    else resumeFromOffset (params callback) in
  no_repeat f → last_matches shift callback f →
  no_repeat (ts_forwarded (transfer wired evs callback m f)).
Proof.
  intros Hdir. cbv zeta. revert callback m f Hdir.
  induction evs as [|[t|args] evs IH]; intros callback m f Hdir Hf Hlast; cbn [transfer].
  - done.
  - destruct wired; [|by apply IH].
    set (r := progress_callback callback m t).
    destruct (progress_callback_spec callback m t) as [Hs _]. cbv zeta in Hs. fold r in Hs.
    destruct Hs as (_ & _ & Hd & Hu & Hres & _ & Hfd).
    assert (no_repeat (f ++ hook_forwarded r)
            ∧ last_matches
                (if bool_decide (downloadFilePath (params callback) = "") then 0
                 else resumeFromOffset (params callback))
                (hook_callback r) (f ++ hook_forwarded r)) as [Hf' Hlast'].
    { subst r. rewrite progress_callback_unfold. cbv zeta.
      cbn [hook_forwarded hook_callback].
      assert (∀ cb', lastProgress (params (check_canceled cb' m).1.2)
                     = lastProgress (params cb')) as Hchk.
      { intros cb'. by destruct (check_canceled_spec cb' m) as [(_ & _ & ->)|(_ & ->)]. }
      unfold last_matches in *. rewrite Hchk.
      destruct Hdir as [Hnd|[Hnu Hnf]].
      - (* upload only *)
        rewrite (bool_decide_eq_true_2 _ Hnd) in *.
        assert ((report_download t (report_upload t callback).1).2 = []
                ∧ (report_download t (report_upload t callback).1).1
                  = (report_upload t callback).1) as [-> ->].
        { destruct (report_upload_same t callback) as [(_ & _ & Hd' & _) _].
          unfold report_download. rewrite <- Hd'.
          rewrite (bool_decide_eq_false_2 (downloadFilePath _ ≠ "")) by (by intros ?).
          done. }
        rewrite app_nil_r.
        destruct (decide ((report_upload t callback).2 = [])) as [He|Hne].
        + destruct (report_upload_effect t callback) as [_ Hsame].
          rewrite He, (Hsame He), app_nil_r. done.
        + destruct (report_upload_effect t callback) as [Heff _].
          destruct (Heff Hne) as (-> & Hlp & _).
          apply report_upload_emits in Hne as (_ & _ & _ & Hneq & _).
          split.
          * apply no_repeat_snoc; [done|]. intros x Hx. cbn.
            rewrite (Hlast x Hx). lia.
          * intros x. rewrite last_snoc. intros [= <-]. cbn. lia.
      - (* download only *)
        assert ((report_upload t callback).2 = []
                ∧ (report_upload t callback).1 = callback) as [-> ->].
        { unfold report_upload.
          rewrite (bool_decide_eq_false_2 (uploadFilePath _ ≠ "")) by (by intros ?).
          rewrite (bool_decide_eq_false_2 (formData _ ≠ [])) by (by intros ?).
          done. }
        rewrite app_nil_l.
        destruct (decide ((report_download t callback).2 = [])) as [He|Hne].
        + destruct (report_download_effect t callback) as [_ Hsame].
          rewrite He, (Hsame He), app_nil_r. done.
        + destruct (report_download_effect t callback) as [Heff _].
          destruct (Heff Hne) as (-> & Hlp & _).
          apply report_download_emits in Hne as (Hdl & _ & _ & Hneq & _).
          rewrite (bool_decide_eq_false_2 _ Hdl) in *.
          split.
          * apply no_repeat_snoc; [done|]. intros x Hx. cbn.
            rewrite (Hlast x Hx). lia.
          * intros x. rewrite last_snoc. intros [= <-]. cbn. lia. }
    destruct (bool_decide (hook_rc r ≠ 0)); [done|].
    specialize (IH (hook_callback r) (hook_map r) (f ++ hook_forwarded r)).
    rewrite <- Hd, <- Hu, <- Hres, <- Hfd in IH. by apply IH.
  - by apply IH.
Qed.

(** X7.  A request that reports one direction only (a download without upload
    source, or an upload without download path) never forwards the same byte
    count twice in a row. *)
Theorem forwarded_counts_never_repeat (o : HttpRequestOptions) (w : World)
    (m : CancelMap) :
  let p := params (parsed (run o w m)) in
  downloadFilePath p = "" ∨ (uploadFilePath p = "" ∧ formData p = []) →
  no_repeat (forwarded (run o w m)).
Proof.
  cbv zeta. rewrite run_unfold. cbv zeta. cbn [parsed forwarded]. intros Hdir.
  destruct (configure w (Request o (files w) m).1) as [failed|[cb opts]] eqn:Hc.
  - rewrite (ExecuteRequest_inl _ _ _ _ Hc). cbn [exec_forwarded].
    by intros i a b ?.
  - rewrite (ExecuteRequest_inr _ _ _ _ _ Hc). cbn [exec_forwarded].
    destruct (curl_easy_perform_spec opts (script w) cb (Request o (files w) m).2)
      as [-> _].
    destruct (configure_spec _ _ _ _ Hc) as ((_ & _ & Hd & Hu & _ & _ & Hfd) & _).
    apply transfer_no_repeat.
    + by rewrite <- Hd, <- Hu, <- Hfd.
    + by intros i a b ?.
    + by intros x ?.
Qed.

Lemma forwarded_counts_never_repeat_witness :
  no_repeat (forwarded (run (download_options "/data/a.bin" js_undefined)
                          repeating_world ∅))
  ∧ length (forwarded (run (download_options "/data/a.bin" js_undefined)
                         repeating_world ∅)) = 2%nat.
Proof.
  split; [|vm_compute; reflexivity].
  refine (forwarded_counts_never_repeat
            (download_options "/data/a.bin" js_undefined) repeating_world ∅ _).
  right. vm_compute. split; reflexivity.
Defined.

(** ** Strings *)

Lemma str_app_cons c s1 s2 : String c s1 +:+ s2 = String c (s1 +:+ s2).
Proof. reflexivity. Qed.

Lemma str_app_nil_r s : s +:+ "" = s.
Proof. induction s as [|c s IH]; [done|]. by rewrite str_app_cons, IH. Qed.

Lemma str_app_assoc s1 s2 s3 : (s1 +:+ s2) +:+ s3 = s1 +:+ (s2 +:+ s3).
Proof. induction s1 as [|c s1 IH]; [done|]. by rewrite !str_app_cons, IH. Qed.

Lemma rev_app_spec s1 s2 : String.rev_app s1 s2 = String.rev s1 +:+ s2.
Proof.
  revert s2. induction s1 as [|c s1 IH]; intros s2; [done|].
  unfold String.rev. cbn [String.rev_app].
  rewrite (IH (String c s2)), (IH (String c "")).
  by rewrite str_app_assoc.
Qed.

Lemma str_rev_cons c s : String.rev (String c s) = String.rev s +:+ String c "".
Proof. unfold String.rev at 1. cbn [String.rev_app]. apply rev_app_spec. Qed.

Lemma str_rev_app s1 s2 : String.rev (s1 +:+ s2) = String.rev s2 +:+ String.rev s1.
Proof.
  induction s1 as [|c s1 IH].
  - by rewrite str_app_nil_r.
  - by rewrite str_app_cons, !str_rev_cons, IH, str_app_assoc.
Qed.

Lemma str_rev_involutive s : String.rev (String.rev s) = s.
Proof.
  induction s as [|c s IH]; [done|].
  by rewrite str_rev_cons, str_rev_app, IH.
Qed.

Lemma mem_char_app c s1 s2 : mem_char c (s1 +:+ s2) = mem_char c s1 || mem_char c s2.
Proof.
  induction s1 as [|a s1 IH]; [done|].
  rewrite str_app_cons. cbn [mem_char]. by rewrite IH, orb_assoc.
Qed.

Lemma mem_char_rev c s : mem_char c (String.rev s) = mem_char c s.
Proof.
  induction s as [|a s IH]; [done|].
  rewrite str_rev_cons, mem_char_app, IH. cbn [mem_char].
  by rewrite orb_false_r, orb_comm.
Qed.

(** ** Lines *)

Lemma getlines_go_push l s acc :
  mem_char "010" l = false →
  getlines_go (l +:+ s) acc = getlines_go s (String.rev_app l acc).
Proof.
  revert acc. induction l as [|c l IH]; intros acc Hl; [done|].
  cbn [mem_char] in Hl. apply orb_false_iff in Hl as [Hc Hl].
  apply bool_decide_eq_false in Hc.
  rewrite str_app_cons. cbn [getlines_go String.rev_app].
  rewrite bool_decide_eq_false_2 by done. by apply IH.
Qed.

Lemma getlines_go_no_newline s acc l :
  mem_char "010" acc = false →
  l ∈ getlines_go s acc → mem_char "010" l = false.
Proof.
  revert acc. induction s as [|c s IH]; intros acc Hacc; cbn [getlines_go].
  - case_bool_decide; [by intros ?%elem_of_nil|].
    intros ->%list_elem_of_singleton. by rewrite mem_char_rev.
  - case_bool_decide as Hc.
    + intros [->|Hl]%elem_of_cons; [by rewrite mem_char_rev|]. by apply (IH "").
    + apply IH. cbn [mem_char]. by rewrite bool_decide_eq_false_2.
Qed.

Lemma getlines_go_unlines (ls : list string) :
  Forall (λ l, mem_char "010" l = false) ls →
  getlines_go (unlines ls) "" = ls.
Proof.
  induction 1 as [|l ls Hl _ IH]; [done|].
  cbn [unlines foldr]. rewrite getlines_go_push by done.
  unfold LF. rewrite str_app_cons. cbn [getlines_go].
  rewrite bool_decide_eq_true_2 by done.
  rewrite rev_app_spec, str_app_nil_r, str_rev_involutive. f_equal. exact IH.
Qed.

(** X8.  Splitting undoes line termination, and no line holds a line feed. *)
Theorem getlines_unlines (ls : list string) :
  Forall (λ l, mem_char "010" l = false) ls →
  getlines (unlines ls) = ls.
Proof. apply getlines_go_unlines. Qed.

Lemma getlines_unlines_witness :
  getlines (unlines ["Content-Type: image/png"; ""; "Content-Length: 4"])
    = ["Content-Type: image/png"; ""; "Content-Length: 4"].
Proof.
  refine (getlines_unlines ["Content-Type: image/png"; ""; "Content-Length: 4"] _).
  repeat constructor.
Defined.

Lemma getlines_no_newline s l : l ∈ getlines s → mem_char "010" l = false.
Proof. by apply getlines_go_no_newline. Qed.

Lemma str_rev_nonempty s : s ≠ "" → ∃ c r, String.rev s = String c r.
Proof.
  intros Hs. destruct (String.rev s) as [|c r] eqn:Hr; [|eauto].
  destruct Hs. by rewrite <- (str_rev_involutive s), Hr.
Qed.

Lemma terminated_app a b : b ≠ "" → terminated (a +:+ b) = terminated b.
Proof.
  intros Hb. unfold terminated. rewrite str_rev_app.
  destruct (str_rev_nonempty b Hb) as (c & r & ->). by rewrite str_app_cons.
Qed.

Lemma unlines_getlines_go s acc :
  mem_char "010" acc = false →
  unlines (getlines_go s acc) =
    if terminated (String.rev acc +:+ s) then String.rev acc +:+ s
    else String.rev acc +:+ s +:+ LF.
Proof.
  revert acc. induction s as [|c s IH]; intros acc Hacc; cbn [getlines_go].
  - rewrite str_app_nil_r. case_bool_decide as He.
    + by rewrite He.
    + unfold terminated. rewrite str_rev_involutive.
      destruct acc as [|a acc]; [done|]. cbn [mem_char] in Hacc.
      apply orb_false_iff in Hacc as [Ha _]. rewrite Ha.
      cbn [unlines foldr]. by rewrite (str_app_nil_r LF).
  - case_bool_decide as Hc.
    + subst c. cbn [unlines foldr]. fold (unlines (getlines_go s "")).
      rewrite (IH "") by done. change (String.rev "" +:+ s) with s.
      destruct s as [|c' s'].
      * change (terminated "") with true. cbn iota.
        change (String "010" "") with LF. rewrite (str_app_nil_r LF).
        assert (terminated (String.rev acc +:+ LF) = true) as ->; [|done].
        unfold terminated. by rewrite str_rev_app.
      * change (String "010" (String c' s')) with (LF +:+ String c' s').
        change (String.rev "" +:+ String c' s') with (String c' s').
        rewrite (terminated_app (String.rev acc) (LF +:+ String c' s')) by done.
        rewrite (terminated_app LF (String c' s')) by done.
        destruct (terminated (String c' s')); [done|].
        by rewrite !str_app_assoc.
    + rewrite IH by (cbn [mem_char]; by rewrite bool_decide_eq_false_2).
      rewrite str_rev_cons, !str_app_assoc. done.
Qed.

(** X9.  Terminating the lines of a text gives the text back, with the line
    feed supplied that a last, unterminated line lacks. *)
Theorem unlines_getlines (s : string) :
  unlines (getlines s) = if terminated s then s else s +:+ LF.
Proof. by apply (unlines_getlines_go s ""). Qed.

(** ** Header entries *)

(** X10.  The parsed map holds, under each name, the value of the last line that
    carries this name; lines without a colon contribute nothing. *)
Theorem ParseHeaders_last_line_wins (headerStr k v : string) :
  ParseHeaders headerStr !! k = Some v
  ↔ ∃ before line after,
      getlines headerStr = before ++ line :: after
      ∧ header_of_line line = Some (k, v)
      ∧ Forall (λ l, ∀ v', header_of_line l ≠ Some (k, v')) after.
Proof. apply foldl_parse_last. Qed.

(** ** Trimming *)

Lemma erase_leading_space_no_lead s : no_leading_space (erase_leading_space s).
Proof.
  induction s as [|c s IH]; [done|]. cbn [erase_leading_space].
  destruct (isspace c) eqn:Hc; [done|]. exact Hc.
Qed.

Lemma erase_leading_space_suffix s : ∃ sp, s = sp +:+ erase_leading_space s.
Proof.
  induction s as [|c s [sp IH]]; [by exists ""|]. cbn [erase_leading_space].
  destruct (isspace c).
  - exists (String c sp). by rewrite str_app_cons, <- IH.
  - by exists "".
Qed.

Lemma trim_no_trailing_space s : no_trailing_space (trim s).
Proof.
  unfold no_trailing_space, trim. rewrite str_rev_involutive.
  apply erase_leading_space_no_lead.
Qed.

Lemma trim_no_leading_space s : no_leading_space (trim s).
Proof.
  unfold trim.
  pose proof (erase_leading_space_no_lead s) as Hy.
  destruct (erase_leading_space_suffix (String.rev (erase_leading_space s)))
    as [sp Hsp].
  set (y := erase_leading_space s) in *.
  set (x := erase_leading_space (String.rev y)) in *.
  assert (y = String.rev x +:+ String.rev sp) as Hyx.
  { by rewrite <- str_rev_app, <- Hsp, str_rev_involutive. }
  destruct (String.rev x) as [|c r]; [done|].
  rewrite Hyx, str_app_cons in Hy. exact Hy.
Qed.

Lemma mem_char_erase c s :
  mem_char c (erase_leading_space s) = true → mem_char c s = true.
Proof.
  destruct (erase_leading_space_suffix s) as [sp Hsp]. intros H.
  rewrite Hsp, mem_char_app, H. apply orb_true_r.
Qed.

Lemma mem_char_trim c s : mem_char c (trim s) = true → mem_char c s = true.
Proof.
  unfold trim. rewrite mem_char_rev. intros H%mem_char_erase.
  rewrite mem_char_rev in H. by apply mem_char_erase.
Qed.

Lemma prefix_colon s :
  String.prefix ":" s = true ↔ ∃ s', s = String ":" s'.
Proof.
  rewrite prefix_app. split; intros [s' ->]; by exists s'.
Qed.

Lemma find_from_colon s i p :
  find_from ":" s i = Some p →
  (i ≤ p)%nat ∧ mem_char ":" (String.substring 0 (p - i) s) = false.
Proof.
  revert i. induction s as [|c s IH]; intros i; cbn [find_from].
  - change (String.prefix ":" "") with false. done.
  - destruct (String.prefix ":" (String c s)) eqn:Hp.
    + intros [= <-]. split; [done|]. by rewrite Nat.sub_diag.
    + intros H. destruct (IH _ H) as [Hle Hmem]. split; [lia|].
      replace (p - i)%nat with (S (p - S i)) by lia. cbn [String.substring mem_char].
      rewrite Hmem, orb_false_r. apply bool_decide_eq_false. intros ->.
      assert (String.prefix ":" (String ":" s) = true) as Hp'; [|congruence].
      apply prefix_colon. eauto.
Qed.

Lemma mem_char_substring c n k s :
  mem_char c (String.substring n k s) = true → mem_char c s = true.
Proof.
  revert n k. induction s as [|a s IH]; intros n k.
  - by destruct n, k.
  - destruct n as [|n]; cbn [String.substring mem_char].
    + destruct k as [|k]; [done|]. cbn [mem_char].
      intros [->|H]%orb_true_iff; [done|]. rewrite (IH _ _ H). apply orb_true_r.
    + intros H. rewrite (IH _ _ H). apply orb_true_r.
Qed.

(** X11.  Names and values of the parsed map carry no surrounding white space,
    names hold no colon, and neither holds a line feed. *)
Theorem ParseHeaders_entries_trimmed (headerStr k v : string) :
  ParseHeaders headerStr !! k = Some v →
  (no_leading_space k ∧ no_trailing_space k)
  ∧ (no_leading_space v ∧ no_trailing_space v)
  ∧ mem_char ":" k = false
  ∧ mem_char "010" k = false ∧ mem_char "010" v = false.
Proof.
  intros Hentry. unfold ParseHeaders in Hentry.
  apply foldl_parse_last in Hentry as (before & line & after & Hlines & Hline & _).
  assert (mem_char "010" line = false) as Hnl.
  { apply (getlines_no_newline headerStr). rewrite Hlines.
    apply elem_of_app. right. apply list_elem_of_here. }
  unfold header_of_line in Hline.
  destruct (find line ":") as [colonPos|] eqn:Hfind; [|done].
  injection Hline as <- <-.
  split; [split; [apply trim_no_leading_space|apply trim_no_trailing_space]|].
  split; [split; [apply trim_no_leading_space|apply trim_no_trailing_space]|].
  split; [|split].
  - destruct (mem_char ":" (trim _)) eqn:Hm; [|done].
    apply mem_char_trim in Hm.
    apply find_from_colon in Hfind as [_ Hno]. rewrite Nat.sub_0_r in Hno. congruence.
  - destruct (mem_char "010" (trim _)) eqn:Hm; [|done].
    apply mem_char_trim, mem_char_substring in Hm. congruence.
  - destruct (mem_char "010" (trim _)) eqn:Hm; [|done].
    apply mem_char_trim, mem_char_substring in Hm. congruence.
Qed.

Lemma ParseHeaders_entries_trimmed_witness :
  no_leading_space "image/png" ∧ no_trailing_space "image/png".
Proof.
  assert (ParseHeaders png_headers !! "Content-Type" = Some "image/png") as Hentry
    by (vm_compute; reflexivity).
  exact (proj1 (proj2 (ParseHeaders_entries_trimmed png_headers
                         "Content-Type" "image/png" Hentry))).
Defined.

(** ** Upload reads *)

Lemma size_t_mul_range size nmemb : 0 ≤ size_t_mul size nmemb < 2 ^ 64.
Proof. unfold size_t_mul. apply Z.mod_pos_bound. lia. Qed.

Lemma size_t_mul_small n : 0 ≤ n < 2 ^ 64 → size_t_mul 1 n = n.
Proof. intros Hn. unfold size_t_mul. rewrite Z.mul_1_l. by apply Z.mod_small. Qed.

Lemma to_streamsize_small n : 0 ≤ n < 2 ^ 63 → to_streamsize n = n.
Proof. intros Hn. unfold to_streamsize. rewrite bool_decide_eq_true_2; lia. Qed.

Lemma to_streamsize_large n : 2 ^ 63 ≤ n < 2 ^ 64 → to_streamsize n < 0.
Proof. intros Hn. unfold to_streamsize. rewrite bool_decide_eq_false_2; lia. Qed.

Lemma served_nonneg (buffers : list (Z * Z)) : 0 ≤ served buffers.
Proof.
  induction buffers as [|[size nmemb] rest IH]; cbn [served]; [done|].
  pose proof (size_t_mul_range size nmemb). case_bool_decide; lia.
Qed.

Lemma served_small (buffers : list (Z * Z)) :
  Forall (λ b, size_t_mul b.1 b.2 < 2 ^ 63) buffers →
  served buffers = foldr (λ b total, size_t_mul b.1 b.2 + total) 0 buffers.
Proof.
  induction 1 as [|[size nmemb] rest Hb _ IH]; [done|].
  cbn [served foldr fst snd] in *. by rewrite bool_decide_eq_true_2, IH.
Qed.

(** One call on an open stream: what it extracts, and the stream it leaves. *)
Lemma read_callback_step size nmemb f :
  in_open f = true →
  let r := read_callback size nmemb (Some f) in
  let n := to_streamsize (size_t_mul size nmemb) in
  r.1.2 = (if in_good f then take (Z.to_nat n) (drop (in_pos f) (in_data f)) else [])
  ∧ r.1.1 = Z.of_nat (length r.1.2)
  ∧ ∃ f', r.2 = Some f' ∧ in_open f' = true
      ∧ in_data f' = in_data f
      ∧ in_pos f' = (in_pos f + length r.1.2)%nat
      ∧ in_good f' = in_good f && bool_decide (Z.of_nat (length r.1.2) = n).
Proof.
  intros Hopen. cbv zeta. unfold read_callback. rewrite Hopen.
  unfold ifstream_read. destruct (in_good f) eqn:Hg; cbn [fst snd andb].
  - split; [done|]. split; [done|]. eexists. split; [done|].
    by cbn [in_open in_good in_data in_pos].
  - split; [done|]. split; [done|]. exists f. split; [done|].
    split; [done|]. split; [done|]. split; [cbn [length]; lia|done].
Qed.

(** A stream that is no longer good hands out nothing, whatever is offered. *)
Lemma pull_bad buffers f :
  in_open f = true → in_good f = false →
  concat (pull buffers (Some f)).1 = [] ∧ (pull buffers (Some f)).2 = Some f.
Proof.
  intros Hopen Hbad. induction buffers as [|[size nmemb] rest IH]; [done|].
  cbn [pull]. unfold read_callback. rewrite Hopen. unfold ifstream_read.
  rewrite Hbad. destruct (pull rest (Some f)) as [chunks fo].
  cbn [fst snd concat app] in *. done.
Qed.

Lemma pull_spec buffers f :
  in_open f = true → in_good f = true →
  let r := pull buffers (Some f) in
  concat r.1 = take (Z.to_nat (served buffers)) (drop (in_pos f) (in_data f))
  ∧ ∃ f', r.2 = Some f' ∧ in_open f' = true ∧ in_data f' = in_data f
      ∧ in_pos f' = (in_pos f + length (concat r.1))%nat.
Proof.
  cbv zeta. revert f. induction buffers as [|[size nmemb] rest IH];
    intros f Hopen Hgood.
  - cbn [pull served fst snd concat]. rewrite take_0. split; [done|].
    exists f. split; [done|]. split; [done|]. split; [done|]. cbn [length]. lia.
  - cbn [pull served].
    destruct (read_callback_step size nmemb f Hopen)
      as (Hgot & _ & f' & Hf' & Hopen' & Hdata & Hpos & Hgood').
    cbv zeta in Hgot, Hf', Hpos, Hgood'. rewrite Hgood in Hgot, Hgood'.
    cbn [andb] in Hgood'.
    destruct (read_callback size nmemb (Some f)) as [[ret got] fo].
    cbn [fst snd] in *. subst fo.
    pose proof (size_t_mul_range size nmemb) as Hr.
    pose proof (served_nonneg rest) as Htot.
    set (n := size_t_mul size nmemb) in *.
    set (l := drop (in_pos f) (in_data f)) in *.
    destruct (decide (n < 2 ^ 63)) as [Hn|Hn];
      [rewrite (bool_decide_eq_true_2 _ Hn)|rewrite (bool_decide_eq_false_2 _ Hn)].
    + rewrite to_streamsize_small in Hgot, Hgood' by lia.
      destruct (in_good f') eqn:Hg'.
      * symmetry in Hgood'. apply bool_decide_eq_true in Hgood'.
        destruct (IH f' Hopen' Hg') as (IHc & f'' & IHf & IHo & IHdata & IHpos).
        destruct (pull rest (Some f')) as [chunks fo] eqn:Hp.
        cbn [fst snd concat] in *. split.
        -- rewrite IHc, Hdata, Hpos.
           rewrite <- (drop_drop (in_data f) (length got) (in_pos f)).
           fold l. rewrite Z2Nat.inj_add by lia.
           assert (length got = Z.to_nat n) as Hlen by lia. rewrite Hlen.
           subst got. apply take_take_drop.
        -- exists f''. split; [done|]. split; [done|]. split; [congruence|].
           rewrite IHpos, Hpos, length_app. lia.
      * symmetry in Hgood'. apply bool_decide_eq_false in Hgood'.
        destruct (pull_bad rest f' Hopen' Hg') as [Hnil Hsame].
        destruct (pull rest (Some f')) as [chunks fo] eqn:Hp.
        cbn [fst snd concat] in *. rewrite Hnil, app_nil_r. split.
        -- subst got. rewrite length_take in Hgood'.
           rewrite !take_ge by lia. done.
        -- exists f'. split; [done|]. split; [done|]. split; [done|].
           by rewrite Hpos.
    + assert (to_streamsize n < 0) as Hneg by (apply to_streamsize_large; lia).
      assert (got = []) as ->.
      { rewrite Hgot. replace (Z.to_nat (to_streamsize n)) with 0%nat by lia.
        apply take_0. }
      assert (in_good f' = false) as Hg'.
      { rewrite Hgood'. apply bool_decide_eq_false. cbn [length]. lia. }
      destruct (pull_bad rest f' Hopen' Hg') as [Hnil Hsame].
      destruct (pull rest (Some f')) as [chunks fo] eqn:Hp.
      cbn [fst snd concat app] in *. rewrite Hnil. split; [by rewrite take_0|].
      exists f'. split; [done|]. split; [done|]. split; [done|].
      rewrite Hpos. cbn [length]. lia.
Qed.

(** X12.  Whatever buffers the transport offers, the chunks it receives are, in
    order and without gap or repetition, the leading bytes of the file: as
    many as the buffers hold up to the first one of 2^63 bytes or more, at
    most the whole file.  Such a buffer is a negative count for the stream:
    it and every later one receive nothing.  With all buffers below 2^63
    the count is the sum of their sizes.  No chunk is longer than its
    buffer. *)
Theorem pull_delivers_prefix (buffers : list (Z * Z)) (data : list Byte.byte) :
  concat (pull buffers (Some (ifstream_open data))).1
    = take (Z.to_nat (served buffers)) data
  ∧ (Forall (λ b, size_t_mul b.1 b.2 < 2 ^ 63) buffers →
     concat (pull buffers (Some (ifstream_open data))).1
       = take (Z.to_nat (foldr (λ b total, size_t_mul b.1 b.2 + total) 0 buffers))
           data)
  ∧ (∀ size nmemb rest,
       buffers = (size, nmemb) :: rest → 2 ^ 63 ≤ size_t_mul size nmemb →
       concat (pull buffers (Some (ifstream_open data))).1 = [])
  ∧ Forall2 (λ chunk b, Z.of_nat (length chunk) ≤ size_t_mul b.1 b.2)
      (pull buffers (Some (ifstream_open data))).1 buffers.
Proof.
  assert (concat (pull buffers (Some (ifstream_open data))).1
          = take (Z.to_nat (served buffers)) data) as Hserved.
  { destruct (pull_spec buffers (ifstream_open data) eq_refl eq_refl) as [-> _].
    cbn [ifstream_open in_pos in_data]. by rewrite drop_0. }
  split; [done|]. split; [|split].
  - intros Hsmall. by rewrite Hserved, served_small.
  - intros size nmemb rest -> Hbig. rewrite Hserved. cbn [served].
    rewrite bool_decide_eq_false_2 by lia. apply take_0.
  - clear Hserved. generalize (Some (ifstream_open data)).
    induction buffers as [|[size nmemb] rest IH]; intros fo; cbn [pull].
    + by constructor.
    + assert (Z.of_nat (length (read_callback size nmemb fo).1.2)
              ≤ size_t_mul size nmemb) as Hlen.
      { pose proof (size_t_mul_range size nmemb) as Hr.
        unfold read_callback. destruct fo as [f|]; [|cbn; lia].
        destruct (in_open f); [|cbn; lia].
        unfold ifstream_read. destruct (in_good f); cbn [fst snd length]; [|lia].
        rewrite length_take. unfold to_streamsize. case_bool_decide; lia. }
      destruct (read_callback size nmemb fo) as [[ret got] fo'].
      specialize (IH fo'). destruct (pull rest fo') as [chunks fo''].
      cbn [fst snd] in *. by constructor.
Qed.

Lemma pull_delivers_prefix_witness :
  concat (pull [(1, 2); (2 ^ 63, 1); (1, 2)] (Some (ifstream_open five_bytes))).1
    = take 2 five_bytes
  ∧ concat (pull [(1, 2); (1, 2)] (Some (ifstream_open five_bytes))).1
    = take 4 five_bytes.
Proof.
  split.
  - exact (proj1 (pull_delivers_prefix [(1, 2); (2 ^ 63, 1); (1, 2)] five_bytes)).
  - refine (proj1 (proj2 (pull_delivers_prefix [(1, 2); (1, 2)] five_bytes)) _).
    repeat constructor.
Defined.

(** X13.  Once the buffers offered so far cover the file, none of those needed
    being of 2^63 bytes or more, the whole file has been handed out and
    every further call returns 0, the end-of-data signal. *)
Theorem pull_reaches_end (buffers : list (Z * Z)) (data : list Byte.byte)
    (size nmemb : Z) :
  Z.of_nat (length data) ≤ served buffers →
  concat (pull buffers (Some (ifstream_open data))).1 = data
  ∧ (read_callback size nmemb (pull buffers (Some (ifstream_open data))).2).1
    = (0, []).
Proof.
  intros Hcover.
  destruct (pull_spec buffers (ifstream_open data) eq_refl eq_refl)
    as (Hc & f' & Hf' & Hopen' & Hdata & Hpos).
  cbv zeta in *. cbn [ifstream_open in_pos in_data] in Hc, Hdata, Hpos.
  rewrite drop_0 in Hc. rewrite take_ge in Hc by lia. split; [done|].
  rewrite Hf'. destruct (read_callback_step size nmemb f' Hopen') as (Hgot & Hret & _).
  cbv zeta in *. rewrite Hdata, Hpos, Hc, Nat.add_0_l, drop_all, take_nil in Hgot.
  assert ((read_callback size nmemb (Some f')).1.2 = []) as Hnil
    by (by destruct (in_good f')).
  rewrite Hnil in Hret. clear Hgot.
  destruct (read_callback size nmemb (Some f')) as [[ret got] fo].
  cbn [fst snd] in *. by subst.
Qed.

Lemma pull_reaches_end_witness :
  concat (pull [(1, 4); (1, 4)] (Some (ifstream_open five_bytes))).1 = five_bytes
  ∧ (read_callback 1 4
       (pull [(1, 4); (1, 4)] (Some (ifstream_open five_bytes))).2).1 = (0, []).
Proof.
  refine (pull_reaches_end [(1, 4); (1, 4)] five_bytes 1 4 _).
  vm_compute. discriminate.
Defined.

(** ** Download writes *)



(** X14.  The write hook reports the full chunk as written in every case, also
    for a missing or closed stream, which it leaves as it is: the transport
    is never told to stop, and the chunk is dropped. *)
Theorem write_hook_always_accepts (contents : list Byte.byte) (size nmemb : Z)
    (userp : option ofstream) :
  (WriteDownloadCallback_hook contents size nmemb userp).1 = size_t_mul size nmemb
  ∧ (userp = None ∨ (∃ file, userp = Some file ∧ out_open file = false) →
       (WriteDownloadCallback_hook contents size nmemb userp).2 = userp)
  ∧ (∀ file, userp = Some file → out_open file = true →
       Z.of_nat (length contents) = size_t_mul size nmemb →
       (WriteDownloadCallback_hook contents size nmemb userp).2
         = Some {| out_open := true; out_data := out_data file ++ contents |}).
Proof.
  split; [done|]. split.
  - intros [->|(file & -> & Hc)]; [done|].
    unfold WriteDownloadCallback_hook. cbn [snd]. by rewrite Hc.
  - intros file -> Ho Hlen. unfold WriteDownloadCallback_hook. cbn [snd].
    rewrite Ho, <- Hlen, Nat2Z.id, firstn_all. done.
Qed.



(** ** Accumulating the response *)

Lemma substring_all s : String.substring 0 (String.length s) s = s.
Proof. induction s as [|c s IH]; [done|]. cbn. by rewrite IH. Qed.

Lemma deliver_to_string_cons chunk chunks userp :
  deliver_to_string (chunk :: chunks) userp
    = deliver_to_string chunks
        (HeaderCallback chunk 1 (Z.of_nat (String.length chunk)) userp).2.
Proof. reflexivity. Qed.

Lemma deliver_to_string_concat chunks start :
  Forall (λ chunk, Z.of_nat (String.length chunk) < 2 ^ 64) chunks →
  deliver_to_string chunks start = foldl (λ acc chunk, acc +:+ chunk) start chunks.
Proof.
  intros Hsmall. revert start.
  induction Hsmall as [|chunk chunks Hc _ IH]; intros start; [done|].
  rewrite deliver_to_string_cons, IH. unfold HeaderCallback, WriteCallback_hook.
  cbn [snd foldl].
  rewrite size_t_mul_small by lia. by rewrite Nat2Z.id, substring_all.
Qed.

Lemma foldl_app_unlines lines start :
  foldl (λ acc chunk, acc +:+ chunk) start ((λ l, l +:+ LF) <$> lines)
    = start +:+ unlines lines.
Proof.
  revert start. induction lines as [|l lines IH]; intros start.
  - cbn. by rewrite str_app_nil_r.
  - cbn [fmap list_fmap foldl]. rewrite IH. cbn [unlines foldr].
    by rewrite !str_app_assoc.
Qed.

(** X16.  Header lines handed to the header hook one at a time, each ending in a
    line feed, accumulate to a block that parses to the same map as taking
    the lines one after the other, later lines overwriting earlier ones. *)
Theorem header_lines_accumulate (lines : list string) :
  Forall (λ l, mem_char "010" l = false
               ∧ Z.of_nat (String.length (l +:+ LF)) < 2 ^ 64) lines →
  deliver_to_string ((λ l, l +:+ LF) <$> lines) "" = unlines lines
  ∧ ParseHeaders (deliver_to_string ((λ l, l +:+ LF) <$> lines) "")
    = foldl parse_header_line ∅ lines.
Proof.
  intros Hlines.
  assert (deliver_to_string ((λ l, l +:+ LF) <$> lines) "" = unlines lines) as ->.
  { rewrite deliver_to_string_concat, foldl_app_unlines; [done|].
    apply Forall_fmap. eapply Forall_impl; [exact Hlines|]. by intros l [_ ?]. }
  split; [done|]. unfold ParseHeaders, getlines.
  rewrite getlines_go_unlines; [done|].
  eapply Forall_impl; [exact Hlines|]. by intros l [? _].
Qed.

Lemma header_lines_accumulate_witness :
  ParseHeaders
    (deliver_to_string
       ((λ l, l +:+ LF) <$> ["Content-Type: text/html"; "Content-Type: image/png"]) "")
    = foldl parse_header_line ∅ ["Content-Type: text/html"; "Content-Type: image/png"].
Proof.
  refine (proj2 (header_lines_accumulate
                   ["Content-Type: text/html"; "Content-Type: image/png"] _)).
  repeat constructor.
Defined.

(** ** Request settings *)

Lemma Request_formData o fs m :
  formData (params (Request o fs m).1) =
    match opt_multiFormDataList o with
    | Some fields =>
        if bool_decide (default "GET" (opt_method o) = "POST") then fields else []
    | None => []
    end.
Proof. unfold Request. by destruct (napi_get_value_int32 (opt_requestID o)). Qed.

Lemma Request_settings_body method_ so :
  (extraDataStr (Request_settings method_ so),
   extraDataBufferSize (Request_settings method_ so),
   isExtraDataArrayBuffer (Request_settings method_ so))
  = match opt_extraData so with
    | Some extraDataProp =>
        if bool_decide (method_ = "POST") || bool_decide (method_ = "PUT")
        then convertRequestData extraDataProp
        else ("", 0, false)
    | None => ("", 0, false)
    end.
Proof.
  unfold Request_settings.
  destruct (match opt_extraData so with Some _ => _ | None => _ end) as [[a b] c].
  reflexivity.
Qed.

Lemma Request_settings_headers method_ so :
  headers (Request_settings method_ so)
  = match opt_headers so with
    | Some headersProp =>
        convertRequestHeader (isExtraDataArrayBuffer (Request_settings method_ so))
          headersProp
    | None => ∅
    end.
Proof.
  unfold Request_settings.
  destruct (match opt_extraData so with Some _ => _ | None => _ end) as [[a b] c].
  reflexivity.
Qed.

Lemma configure_upload w callback cb opts :
  configure w callback = inr (cb, opts) →
  CURLOPT_UPLOAD ∈ opts ↔ uploadFilePath (params callback) ≠ "".
Proof.
  intros (cb1 & o2 & o3 & Hu & Hd & ->)%configure_inr.
  rewrite !elem_of_app. unfold upload_setup in Hu. split.
  - intros [[Hp|Hm]|[Ho2|Ho3]].
    + by apply progress_opts_elem in Hp as [?|[?|?]].
    + by apply method_opts_elem in Hm as [?|[?|[? ?]]].
    + case_bool_decide; [done|]. injection Hu as <- <-.
      by apply elem_of_nil in Ho2.
    + apply download_setup_inr in Hd as (_ & _ & _ & _ & Hcase).
      destruct Hcase as [(_ & _ & ->)|[(_ & _ & _ & ->)|(_ & _ & _ & ->)]];
        rewrite ?elem_of_cons, ?elem_of_nil in Ho3; intuition discriminate.
  - intros Hne. right. left. rewrite (bool_decide_eq_true_2 _ Hne) in Hu.
    destruct (readable (files w) !! uploadFilePath (params callback)); [|done].
    injection Hu as <- <-. apply list_elem_of_here.
Qed.

(** X17.  A request whose method is neither POST nor PUT gets neither a
    multipart form nor post fields, whatever the options hold: its extra
    data is not converted and its form list is dropped.  The upload block
    is outside that test: a request that names an upload file has its
    session set to upload it, whatever the method, and this file is the
    only body such a request can carry. *)
Theorem post_fields_only_for_post_and_put
    (o : HttpRequestOptions) (so : SettingsOptions) (w : World) (m : CancelMap) :
  method (params (Request o (files w) m).1) ≠ "POST" →
  method (params (Request o (files w) m).1) ≠ "PUT" →
  formData (params (Request o (files w) m).1) = []
  ∧ isMultipart (Request_settings (method (params (Request o (files w) m).1)) so)
      (params (Request o (files w) m).1) = false
  ∧ body_opts (Request_settings (method (params (Request o (files w) m).1)) so)
      (params (Request o (files w) m).1) = []
  ∧ ∀ cb opts,
      configure w (Request o (files w) m).1 = inr (cb, opts) →
      CURLOPT_UPLOAD ∈ opts
      ↔ uploadFilePath (params (Request o (files w) m).1) ≠ "".
Proof.
  intros Hpost Hput.
  set (p := params (Request o (files w) m).1) in *.
  pose proof (Request_settings_body (method p) so) as Hbody.
  rewrite (bool_decide_eq_false_2 _ Hpost), (bool_decide_eq_false_2 _ Hput) in Hbody.
  assert (extraDataStr (Request_settings (method p) so) = ""
          ∧ isExtraDataArrayBuffer (Request_settings (method p) so) = false)
    as [Hstr Hbuf].
  { destruct (opt_extraData so); by injection Hbody as -> _ ->. }
  assert (isMultipart (Request_settings (method p) so) p = false) as Hmulti.
  { unfold isMultipart. by rewrite (bool_decide_eq_false_2 _ Hpost). }
  split; [|split; [done|split]].
  - subst p. rewrite Request_formData.
    destruct (Request_spec o (files w) m) as (_ & _ & Hm & _). cbv zeta in Hm.
    rewrite <- Hm, (bool_decide_eq_false_2 _ Hpost).
    by destruct (opt_multiFormDataList o).
  - unfold body_opts. rewrite Hmulti, Hstr, Hbuf. done.
  - intros cb opts Hc. by apply configure_upload in Hc.
Qed.

Lemma post_fields_only_for_post_and_put_witness :
  body_opts
    (Request_settings
       (method (params (Request get_with_upload (files upload_world) ∅).1))
       (body_settings (data_string "{}") None))
    (params (Request get_with_upload (files upload_world) ∅).1) = []
  ∧ CURLOPT_UPLOAD
      ∈ [CURLOPT_NOPROGRESS 0; CURLOPT_XFERINFOFUNCTION; CURLOPT_FOLLOWLOCATION;
         CURLOPT_HTTPGET; CURLOPT_UPLOAD; CURLOPT_INFILESIZE_LARGE 100;
         CURLOPT_WRITEFUNCTION WriteCallback].
Proof.
  assert (method (params (Request get_with_upload (files upload_world) ∅).1) ≠ "POST")
    as Hpost by (vm_compute; discriminate).
  assert (method (params (Request get_with_upload (files upload_world) ∅).1) ≠ "PUT")
    as Hput by (vm_compute; discriminate).
  pose proof (post_fields_only_for_post_and_put get_with_upload
                (body_settings (data_string "{}") None) upload_world ∅ Hpost Hput)
    as (_ & _ & Hbody & Hupload).
  split; [exact Hbody|].
  refine (proj2 (Hupload
    (on_params (set_uploadFile true) (Request get_with_upload (files upload_world) ∅).1)
    _ _) _).
  - vm_compute. reflexivity.
  - vm_compute. discriminate.
Defined.

Lemma convertRequestHeader_binary headersProp :
  convertRequestHeader true headersProp !! "Content-Type"
    = Some "application/octet-stream"
  ∧ convertRequestHeader true headersProp ≠ ∅.
Proof.
  unfold convertRequestHeader. split; [by rewrite lookup_insert_eq|].
  apply insert_non_empty.
Qed.

(** X18.  A POST or PUT whose extra data is an ArrayBuffer and that comes with a
    headers object is never sent as a multipart form: the content type is
    forced to the binary one, whatever the object says, and the body is the
    buffer when it is not empty, the form list being left aside. *)
Theorem binary_body_is_never_multipart
    (o : HttpRequestOptions) (so : SettingsOptions) (fs : FileSystem) (m : CancelMap)
    (byteLength : Z) (headersProp : list (string * string)) :
  method (params (Request o fs m).1) = "POST"
  ∨ method (params (Request o fs m).1) = "PUT" →
  opt_extraData so = Some (data_arraybuffer byteLength) →
  opt_headers so = Some headersProp →
  headers (Request_settings (method (params (Request o fs m).1)) so) !! "Content-Type"
    = Some "application/octet-stream"
  ∧ isMultipart (Request_settings (method (params (Request o fs m).1)) so)
      (params (Request o fs m).1) = false
  ∧ body_opts (Request_settings (method (params (Request o fs m).1)) so)
      (params (Request o fs m).1)
    = if bool_decide (0 < byteLength)
      then [CURLOPT_POSTFIELDS post_extraDataBuffer; CURLOPT_POSTFIELDSIZE byteLength]
      else [].
Proof.
  intros Hmethod Hdata Hheaders.
  set (p := params (Request o fs m).1) in *.
  pose proof (Request_settings_body (method p) so) as Hbody.
  pose proof (Request_settings_headers (method p) so) as Hh.
  rewrite Hdata in Hbody. rewrite Hheaders in Hh.
  assert (bool_decide (method p = "POST") || bool_decide (method p = "PUT") = true)
    as Hpp.
  { destruct Hmethod as [-> | ->]; done. }
  rewrite Hpp in Hbody. cbn in Hbody. injection Hbody as Hstr Hsize Hbuf.
  rewrite Hbuf in Hh.
  destruct (convertRequestHeader_binary headersProp) as [Hct Hne].
  assert (isMultipart (Request_settings (method p) so) p = false) as Hmulti.
  { unfold isMultipart. rewrite Hh, Hct.
    replace (contains "application/octet-stream" "multipart/form-data") with false
      by (by vm_compute).
    by rewrite andb_false_r. }
  split; [by rewrite Hh|]. split; [done|].
  unfold body_opts. rewrite Hmulti, Hstr, Hsize, Hbuf.
  assert (negb (bool_decide (method p = "GET"))
          && negb (bool_decide (method p = "DELETE")) = true) as ->.
  { destruct Hmethod as [-> | ->]; done. }
  cbn [andb orb negb]. rewrite andb_true_r.
  change (bool_decide ("" = "")) with true. cbn [negb orb].
  rewrite orb_false_r. by case_bool_decide.
Qed.

Lemma binary_body_is_never_multipart_witness :
  isMultipart
    (Request_settings
       (method (params (Request (form_options [note_item]) (disk []) ∅).1))
       (body_settings (data_arraybuffer 16)
          (Some [("Content-Type", "multipart/form-data")])))
    (params (Request (form_options [note_item]) (disk []) ∅).1) = false.
Proof.
  refine (proj1 (proj2 (binary_body_is_never_multipart
                          (form_options [note_item])
                          (body_settings (data_arraybuffer 16)
                             (Some [("Content-Type", "multipart/form-data")]))
                          (disk []) ∅ 16 [("Content-Type", "multipart/form-data")]
                          _ eq_refl eq_refl))).
  left. vm_compute. reflexivity.
Defined.

(** X19.  A multipart POST: when the headers object ends up with a content type
    naming multipart/form-data and the extra data is not a buffer, the body
    is the form, one part per element of the list and in its order, and the
    extra data is not sent. *)
Theorem multipart_form_body
    (o : HttpRequestOptions) (so : SettingsOptions) (fs : FileSystem) (m : CancelMap)
    (items : list FormItem) (headersProp : list (string * string)) (value : string) :
  opt_method o = Some "POST" →
  opt_multiFormDataList o = Some (convertFormData items) →
  opt_headers so = Some headersProp →
  (∀ byteLength, opt_extraData so ≠ Some (data_arraybuffer byteLength)) →
  convertRequestHeader false headersProp !! "Content-Type" = Some value →
  contains value "multipart/form-data" = true →
  body_opts (Request_settings (method (params (Request o fs m).1)) so)
    (params (Request o fs m).1)
    = [CURLOPT_HTTPPOST (form_part <$> (convertFormItem <$> items))]
  ∧ length (form_part <$> (convertFormItem <$> items)) = length items.
Proof.
  intros Hpost Hlist Hheaders Hdata Hct Hvalue.
  destruct (Request_spec o fs m) as (_ & _ & Hm & _). cbv zeta in Hm.
  rewrite Hpost in Hm. change (default "GET" (Some "POST")) with "POST" in Hm.
  pose proof (Request_formData o fs m) as Hform.
  rewrite Hlist, Hpost in Hform.
  change (bool_decide (default "GET" (Some "POST") = "POST")) with true in Hform.
  cbv iota in Hform.
  set (p := params (Request o fs m).1) in *.
  pose proof (Request_settings_body (method p) so) as Hbody.
  pose proof (Request_settings_headers (method p) so) as Hh.
  rewrite Hheaders in Hh.
  assert (isExtraDataArrayBuffer (Request_settings (method p) so) = false) as Hbuf.
  { rewrite Hm in Hbody |- *.
    change (bool_decide ("POST" = "POST")) with true in Hbody.
    cbn [orb] in Hbody.
    destruct (opt_extraData so) as [[text | n | json |]|];
      cbn [convertRequestData] in Hbody; try (by injection Hbody).
    by destruct (Hdata n). }
  rewrite Hbuf in Hh.
  split; [|by rewrite !length_fmap].
  unfold body_opts, isMultipart. rewrite Hh, Hct, Hvalue, Hm, Hform.
  change (bool_decide ("POST" = "POST")) with true.
  rewrite bool_decide_eq_false_2; [done|].
  intros Hempty. by rewrite Hempty, lookup_empty in Hct.
Qed.

Lemma multipart_form_body_witness :
  body_opts
    (Request_settings
       (method (params (Request (form_options [avatar_item; note_item]) (disk []) ∅).1))
       (body_settings (data_string "dropped")
          (Some [("Content-Type", "multipart/form-data; boundary=x")])))
    (params (Request (form_options [avatar_item; note_item]) (disk []) ∅).1)
    = [CURLOPT_HTTPPOST
         (form_part <$> (convertFormItem <$> [avatar_item; note_item]))].
Proof.
  refine (proj1 (multipart_form_body
                   (form_options [avatar_item; note_item])
                   (body_settings (data_string "dropped")
                      (Some [("Content-Type", "multipart/form-data; boundary=x")]))
                   (disk []) ∅ [avatar_item; note_item]
                   [("Content-Type", "multipart/form-data; boundary=x")]
                   "multipart/form-data; boundary=x"
                   eq_refl eq_refl eq_refl _ _ _)).
  - intros byteLength. discriminate.
  - vm_compute. reflexivity.
  - vm_compute. reflexivity.
Defined.



(** ** Timeouts *)

Lemma omap_timeout_tls s :
  omap (λ opt, match opt with CURLOPT_TIMEOUT t => Some t | _ => None end) (tls_opts s) = []
  ∧ omap (λ opt, match opt with CURLOPT_CONNECTTIMEOUT t => Some t | _ => None end)
      (tls_opts s) = [].
Proof.
  unfold tls_opts.
  destruct (bool_decide (caPath s ≠ "")), (verifyServer s), (isTLCP s),
    (bool_decide (clientCertPath s ≠ "")); done.
Qed.

Lemma omap_timeout_debug s :
  omap (λ opt, match opt with CURLOPT_TIMEOUT t => Some t | _ => None end) (debug_opts s) = []
  ∧ omap (λ opt, match opt with CURLOPT_CONNECTTIMEOUT t => Some t | _ => None end)
      (debug_opts s) = [].
Proof. unfold debug_opts. by destruct (isDebug s). Qed.

Lemma omap_timeout_body s p :
  omap (λ opt, match opt with CURLOPT_TIMEOUT t => Some t | _ => None end) (body_opts s p) = []
  ∧ omap (λ opt, match opt with CURLOPT_CONNECTTIMEOUT t => Some t | _ => None end)
      (body_opts s p) = [].
Proof.
  unfold body_opts. destruct (isMultipart s p); [done|].
  destruct (_ || _); [|done]. by destruct (isExtraDataArrayBuffer s).
Qed.

Lemma timeout_in_force_settings s p :
  timeout_in_force (settings_opts s p)
    = Some (if bool_decide (downloadFilePath p ≠ "") then Some 0 else readTimeout s)
  ∧ connect_timeout_in_force (settings_opts s p) = Some (connectTimeout s).
Proof.
  unfold timeout_in_force, connect_timeout_in_force, settings_opts.
  rewrite !omap_app.
  destruct (omap_timeout_tls s) as [-> ->].
  destruct (omap_timeout_debug s) as [-> ->].
  destruct (omap_timeout_body s p) as [-> ->].
  by destruct (bool_decide (downloadFilePath p ≠ "")).
Qed.

(** X21.  A download runs without a total time limit: the limit of 0 set for the
    download replaces the read timeout set before it, for every value of
    the settings. *)
Theorem download_has_no_time_limit (s : RequestSettings) (p : HttpRequestParams) :
  downloadFilePath p ≠ "" →
  timeout_in_force (settings_opts s p) = Some (Some 0).
Proof.
  intros Hdl. destruct (timeout_in_force_settings s p) as [-> _].
  by rewrite bool_decide_eq_true_2.
Qed.

Lemma download_has_no_time_limit_witness :
  readTimeout (Request_settings "GET" slow_settings) = Some 30
  ∧ timeout_in_force
      (settings_opts (Request_settings "GET" slow_settings)
         (params (Request (download_options "/data/a.bin" js_undefined) (disk []) ∅).1))
    = Some (Some 0).
Proof.
  split; [vm_compute; reflexivity|].
  refine (download_has_no_time_limit (Request_settings "GET" slow_settings)
            (params (Request (download_options "/data/a.bin" js_undefined) (disk []) ∅).1)
            _).
  vm_compute. discriminate.
Defined.

(** X22.  Without a [readTimeout] property the connect timeout in force is the
    default of 15 seconds, whatever [connectTimeout] the options give, and
    so is the total limit of a request that is not a download. *)
Theorem connect_timeout_needs_read_timeout
    (o : HttpRequestOptions) (so : SettingsOptions) (fs : FileSystem) (m : CancelMap) :
  opt_readTimeout so = None →
  connect_timeout_in_force
    (settings_opts (Request_settings (method (params (Request o fs m).1)) so)
       (params (Request o fs m).1)) = Some (Some 15)
  ∧ (opt_downloadFilePath o = None ∨ opt_downloadFilePath o = Some "" →
     timeout_in_force
       (settings_opts (Request_settings (method (params (Request o fs m).1)) so)
          (params (Request o fs m).1)) = Some (Some 15)).
Proof.
  intros Hread.
  destruct (timeout_in_force_settings
              (Request_settings (method (params (Request o fs m).1)) so)
              (params (Request o fs m).1)) as [-> ->].
  assert (readTimeout (Request_settings (method (params (Request o fs m).1)) so)
            = Some 15
          ∧ connectTimeout (Request_settings (method (params (Request o fs m).1)) so)
            = Some 15) as [-> ->].
  { unfold Request_settings.
    destruct (match opt_extraData so with Some _ => _ | None => _ end) as [[a b] c].
    cbn [readTimeout connectTimeout]. by rewrite Hread. }
  split; [done|]. intros Hdl.
  destruct (Request_spec o fs m) as (_ & _ & _ & -> & _).
  by destruct Hdl as [-> | ->].
Qed.

Lemma connect_timeout_needs_read_timeout_witness :
  connect_timeout_in_force
    (settings_opts
       (Request_settings
          (method (params (Request (plain_options "GET" js_undefined) (disk []) ∅).1))
          connect_only_settings)
       (params (Request (plain_options "GET" js_undefined) (disk []) ∅).1))
    = Some (Some 15).
Proof.
  exact (proj1 (connect_timeout_needs_read_timeout
                  (plain_options "GET" js_undefined) connect_only_settings
                  (disk []) ∅ eq_refl)).
Defined.

(** ** TLS *)

Lemma Request_settings_tls method_ so :
  verifyServer (Request_settings method_ so)
    = negb (bool_decide (opt_verifyServer so = js_bool false))
  ∧ isTLCP (Request_settings method_ so)
    = bool_decide (opt_isTLCP so = js_bool true)
  ∧ clientCertPath (Request_settings method_ so)
    = default "" (napi_get_value_string_utf8 (opt_clientCertPath so))
  ∧ caPath (Request_settings method_ so)
    = default "" (napi_get_value_string_utf8 (opt_caPath so)).
Proof.
  unfold Request_settings.
  destruct (match opt_extraData so with Some _ => _ | None => _ end) as [[a b] c].
  cbn [verifyServer isTLCP clientCertPath caPath].
  repeat split.
  - by destruct (opt_verifyServer so) as [| | [] |].
  - by destruct (opt_isTLCP so) as [| | [] |].
Qed.

Lemma tls_opts_elem s opt :
  opt ∈ tls_opts s ↔
    (caPath s ≠ "" ∧ opt = CURLOPT_CAINFO (caPath s))
    ∨ opt = CURLOPT_SSL_VERIFYPEER (if verifyServer s then 1 else 0)
    ∨ opt = CURLOPT_SSL_VERIFYHOST 0
    ∨ (isTLCP s = true ∧ opt = CURLOPT_SSLVERSION_NTLSv1_1)
    ∨ (isTLCP s = true ∧ clientCertPath s ≠ ""
       ∧ (opt = CURLOPT_SSLENCCERT (clientCertPath s +:+ "client_enc.crt")
          ∨ opt = CURLOPT_SSLENCKEY (clientCertPath s +:+ "client_enc.key")
          ∨ opt = CURLOPT_SSLSIGNCERT (clientCertPath s +:+ "client_sign.crt")
          ∨ opt = CURLOPT_SSLSIGNKEY (clientCertPath s +:+ "client_sign.key")))
    ∨ (isTLCP s = false ∧ clientCertPath s ≠ ""
       ∧ (opt = CURLOPT_SSLCERT (clientCertPath s +:+ "client.crt")
          ∨ opt = CURLOPT_SSLKEY (clientCertPath s +:+ "client.key"))).
Proof.
  unfold tls_opts.
  case_bool_decide as Hca; destruct (verifyServer s), (isTLCP s);
    case_bool_decide as Hcert;
    rewrite ?elem_of_app, ?elem_of_cons, ?elem_of_nil;
    intuition congruence.
Qed.

(** X23.  The server certificate is checked unless [verifyServer] is the boolean
    false, and the host name is never checked against it: the host check
    is set to 0 on every request. *)
Theorem server_verification (method_ : string) (so : SettingsOptions) :
  (∀ v, CURLOPT_SSL_VERIFYHOST v ∈ tls_opts (Request_settings method_ so) → v = 0)
  ∧ CURLOPT_SSL_VERIFYHOST 0 ∈ tls_opts (Request_settings method_ so)
  ∧ (∀ v, CURLOPT_SSL_VERIFYPEER v ∈ tls_opts (Request_settings method_ so) →
       v = if bool_decide (opt_verifyServer so = js_bool false) then 0 else 1)
  ∧ (CURLOPT_SSL_VERIFYPEER 0 ∈ tls_opts (Request_settings method_ so)
       ↔ opt_verifyServer so = js_bool false)
  ∧ (CURLOPT_SSL_VERIFYPEER 1 ∈ tls_opts (Request_settings method_ so)
       ↔ opt_verifyServer so ≠ js_bool false).
Proof.
  destruct (Request_settings_tls method_ so) as (Hv & _).
  split; [|split; [|split; [|split]]].
  - intros v Hin. apply tls_opts_elem in Hin. intuition congruence.
  - apply tls_opts_elem. auto.
  - intros v Hin. apply tls_opts_elem in Hin. rewrite Hv in Hin.
    case_bool_decide; cbn [negb] in Hin; intuition congruence.
  - rewrite tls_opts_elem, Hv.
    case_bool_decide; cbn [negb]; intuition congruence.
  - rewrite tls_opts_elem, Hv.
    case_bool_decide; cbn [negb]; intuition congruence.
Qed.


(** ** Request header lines *)

Lemma map_entries_elem (h : gmap string string) k v :
  (k, v) ∈ map_entries h ↔ h !! k = Some v.
Proof.
  unfold map_entries. rewrite merge_sort_Permutation. apply elem_of_map_to_list.
Qed.

Lemma map_entries_length (h : gmap string string) :
  length (map_entries h) = size h.
Proof.
  unfold map_entries. rewrite merge_sort_Permutation. apply length_map_to_list.
Qed.

Lemma filter_elem_length {A} (P : A → Prop) `{!∀ x, Decision (P x)} (l : list A) x :
  x ∈ l → P x → (1 ≤ length (filter P l))%nat.
Proof.
  intros Hin HP.
  assert (x ∈ filter P l) as Hf by (by apply list_elem_of_filter).
  destruct (filter P l); [by apply elem_of_nil in Hf|]. cbn. lia.
Qed.

(** X25.  Every request carries at least one header line; each header of the
    request is sent as [key: value]; and the list holds nothing else but
    the upload content type in front and, when the request has no headers,
    one default content type. *)
Theorem header_lines_cover_headers (s : RequestSettings) (p : HttpRequestParams) :
  header_lines s p ≠ []
  ∧ (∀ k v, headers s !! k = Some v → k +:+ ": " +:+ v ∈ header_lines s p)
  ∧ length (header_lines s p)
    = ((if bool_decide (uploadFilePath p ≠ "") then 1 else 0)
       + size (headers s)
       + (if bool_decide (headers s = ∅) then 1 else 0))%nat.
Proof.
  split; [|split].
  - unfold header_lines. intros Hnil.
    apply app_eq_nil in Hnil as [_ Hnil]. apply app_eq_nil in Hnil as [Huser Hdef].
    apply fmap_nil_inv in Huser.
    assert (size (headers s) = 0%nat) as Hsize
      by (by rewrite <- map_entries_length, Huser).
    apply map_size_empty_iff in Hsize.
    rewrite bool_decide_eq_true_2 in Hdef by done.
    by destruct (_ || _).
  - intros k v Hkv. unfold header_lines.
    rewrite !elem_of_app. right. left.
    apply (list_elem_of_fmap_2 (λ pair, pair.1 +:+ ": " +:+ pair.2) _ (k, v)).
    by apply map_entries_elem.
  - unfold header_lines. rewrite !length_app, length_fmap, map_entries_length.
    destruct (bool_decide (uploadFilePath p ≠ "")), (bool_decide (headers s = ∅));
      try destruct (_ || _); cbn [length]; lia.
Qed.

Lemma content_type_header_line value :
  is_content_type_line ("Content-Type" +:+ ": " +:+ value) = true.
Proof. by destruct value. Qed.

(** X26.  An upload sends the binary content type as its first header line and
    keeps every other one: with a [Content-Type] header of the request, or
    with no headers at all, the request carries two content-type lines. *)
Theorem upload_content_type_lines (s : RequestSettings) (p : HttpRequestParams) :
  uploadFilePath p ≠ "" →
  headers s = ∅ ∨ is_Some (headers s !! "Content-Type") →
  head (header_lines s p) = Some "Content-Type: application/octet-stream"
  ∧ (2 ≤ length (filter (λ line, is_content_type_line line = true)
                   (header_lines s p)))%nat.
Proof.
  intros Hup Hct. unfold header_lines.
  rewrite (bool_decide_eq_true_2 _ Hup). split; [done|].
  rewrite filter_app, length_app.
  rewrite filter_cons_True by reflexivity. cbn [filter list_filter length].
  enough (1 ≤ length
            (filter (λ line, is_content_type_line line = true)
               (((λ pair, pair.1 +:+ ": " +:+ pair.2) <$> map_entries (headers s))
                ++ (if bool_decide (headers s = ∅) then
                      if bool_decide (method p = "POST") || bool_decide (method p = "PUT")
                         || bool_decide (method p = "DELETE")
                      then ["Content-Type: application/json"]
                      else ["Content-Type: application/x-www-form-urlencoded"]
                    else []))))%nat by lia.
  destruct Hct as [Hempty | [value Hvalue]].
  - rewrite (bool_decide_eq_true_2 _ Hempty).
    destruct (_ || _).
    + eapply (filter_elem_length _ _ "Content-Type: application/json"); [|reflexivity].
      apply elem_of_app. right. apply list_elem_of_here.
    + eapply (filter_elem_length _ _ "Content-Type: application/x-www-form-urlencoded");
        [|reflexivity].
      apply elem_of_app. right. apply list_elem_of_here.
  - eapply (filter_elem_length _ _ ("Content-Type" +:+ ": " +:+ value));
      [|apply content_type_header_line].
    apply elem_of_app. left.
    apply (list_elem_of_fmap_2 (λ pair, pair.1 +:+ ": " +:+ pair.2) _
             ("Content-Type", value)).
    by apply map_entries_elem.
Qed.

Lemma upload_content_type_lines_witness :
  head (header_lines (Request_settings "PUT" no_settings)
          (params (Request upload_options (disk [("/data/u.bin", 100)]) ∅).1))
    = Some "Content-Type: application/octet-stream"
  ∧ header_lines (Request_settings "PUT" no_settings)
      (params (Request upload_options (disk [("/data/u.bin", 100)]) ∅).1)
    = ["Content-Type: application/octet-stream"; "Content-Type: application/json"].
Proof.
  split; [|vm_compute; reflexivity].
  refine (proj1 (upload_content_type_lines (Request_settings "PUT" no_settings)
                   (params (Request upload_options (disk [("/data/u.bin", 100)]) ∅).1)
                   _ _)).
  - vm_compute. discriminate.
  - left. vm_compute. reflexivity.
Defined.

(** ** Cancel calls after settlement *)

(** X27.  Once a request with a non-zero id is settled, its entry is gone: a
    cancel call for that id finds nothing and leaves the map as it is. *)
Theorem late_cancel_changes_nothing
    (o : HttpRequestOptions) (w : World) (m : CancelMap) (n : Z) :
  requestId (params (parsed (run o w m))) ≠ 0 →
  to_int32 n = requestId (params (parsed (run o w m))) →
  cancelRequest [js_number n] (final_map (run o w m)) = final_map (run o w m).
Proof.
  intros Hne Hn. apply cancelRequest_absent. rewrite Hn. by apply run_clears_id.
Qed.

Lemma late_cancel_changes_nothing_witness :
  cancelRequest [js_number 1001]
    (final_map (run (plain_options "GET" (js_number 1001)) cancel_demo_world ∅))
    = final_map (run (plain_options "GET" (js_number 1001)) cancel_demo_world ∅).
Proof.
  refine (late_cancel_changes_nothing
            (plain_options "GET" (js_number 1001)) cancel_demo_world ∅ 1001 _ _).
  - vm_compute. discriminate.
  - vm_compute. reflexivity.
Defined.
